(** * HackPush: submission capture and synchronisation pipeline

    A shallow embedding of the parts of the extension that its specification
    makes testable statements about:

    - [src/js/github-api.js]  ([GitHubAPI]: validateToken, getFileSha,
      createOrUpdateFile, formatFileContent, generateFilePath),
    - [src/js/storage.js]     ([StorageManager]: getConfig, addSubmissionRecord),
    - the background service worker ([Background]: handlePushToGitHub and the
      getFileExtension helper),
    - [src/js/content.js]     ([Content]: cleanCode, normalizeLanguage,
      isSubmissionAccepted) and the API based content script
      ([ContentApi]: normalizeLanguage, isSubmissionAccepted).

    JavaScript strings are modelled by [string]: sequences of code units
    below 256 (the Latin-1 range).  Asynchronous calls are sequenced in a
    state-and-exception monad; the remote service is a parameter that
    answers each request from the history of the requests made so far. *)

From Stdlib Require Import ZArith Lia List Bool Ascii String DecimalString.
Import ListNotations.
Open Scope string_scope.

(** ** JavaScript string primitives *)

Module JS.

Definition code (c : ascii) : N := N_of_ascii c.

Definition between (lo hi : N) (c : ascii) : bool :=
  ((lo <=? code c) && (code c <=? hi))%N.

(** The regular expression class [\d]. *)
Definition is_digit (c : ascii) : bool := between 48 57 c.

(** The regular expression class [[a-z0-9]]. *)
Definition is_lower_alnum (c : ascii) : bool := between 97 122 c || is_digit c.

(** White space and line terminators removed by [String.prototype.trim]:
    TAB, LF, VT, FF, CR, SPACE and NO-BREAK SPACE. *)
Definition is_whitespace (c : ascii) : bool :=
  between 9 13 c || (code c =? 32)%N || (code c =? 160)%N.

(** [toLowerCase] on one code unit: A-Z and the Latin-1 capitals
    (U+00C0-U+00DE without the multiplication sign U+00D7). *)
Definition lower_char (c : ascii) : ascii :=
  if between 65 90 c || between 192 214 c || between 216 222 c
  then ascii_of_N (code c + 32)
  else c.

Fixpoint toLowerCase (s : string) : string :=
  match s with
  | EmptyString => EmptyString
  | String c r => String (lower_char c) (toLowerCase r)
  end.

Fixpoint trimStart (s : string) : string :=
  match s with
  | EmptyString => EmptyString
  | String c r => if is_whitespace c then trimStart r else s
  end.

Fixpoint trimEnd (s : string) : string :=
  match s with
  | EmptyString => EmptyString
  | String c r =>
      match trimEnd r with
      | EmptyString => if is_whitespace c then EmptyString else String c EmptyString
      | r' => String c r'
      end
  end.

Definition trim (s : string) : string := trimEnd (trimStart s).

(** ToBoolean on a string. *)
Definition truthy (s : string) : bool :=
  match s with EmptyString => false | _ => true end.

Fixpoint drop (n : nat) (s : string) : string :=
  match n, s with
  | O, _ => s
  | S k, EmptyString => EmptyString
  | S k, String _ r => drop k r
  end.

Fixpoint take (n : nat) (s : string) : string :=
  match n, s with
  | O, _ => EmptyString
  | S k, EmptyString => EmptyString
  | S k, String c r => String c (take k r)
  end.

(** [pat] occurs in [s] at position 0. *)
Fixpoint starts_with (pat s : string) : bool :=
  match pat, s with
  | EmptyString, _ => true
  | String _ _, EmptyString => false
  | String a pat', String b s' => Ascii.eqb a b && starts_with pat' s'
  end.

(** [s.includes(kw)] *)
Fixpoint includes (s kw : string) : bool :=
  starts_with kw s ||
  match s with
  | EmptyString => false
  | String _ r => includes r kw
  end.

(** [s.indexOf(pat)], with -1 when [pat] does not occur. *)
Fixpoint indexOf (s pat : string) : Z :=
  if starts_with pat s then 0%Z
  else match s with
       | EmptyString => (-1)%Z
       | String _ r => let i := indexOf r pat in
                       if (i <? 0)%Z then (-1)%Z else (i + 1)%Z
       end.

(** [s.substring(i)] for an index [i >= 0]. *)
Definition substring_from (i : Z) (s : string) : string := drop (Z.to_nat i) s.

(** [s.split(sep)] for a one-character separator. *)
Fixpoint split (sep : ascii) (s : string) : list string :=
  match s with
  | EmptyString => [EmptyString]
  | String c r =>
      if Ascii.eqb c sep then EmptyString :: split sep r
      else match split sep r with
           | [] => [String c EmptyString]
           | w :: ws => String c w :: ws
           end
  end.

Definition Z_to_string (z : Z) : string := NilZero.string_of_int (Z.to_int z).

(** *** Replacement with a string: the [$] patterns

    [str.replace(regex, replacement)] expands [$$], [$&], [$`] and [$'] in
    the replacement at every match.  None of the expressions used by the
    extension has a capture group, so [$1] ... [$99] and [$<] stay as they
    are written. *)
Fixpoint getSubstitution (matched before after repl : string) : string :=
  match repl with
  | EmptyString => EmptyString
  | String c r =>
      if Ascii.eqb c "$" then
        match r with
        | String d r' =>
            if Ascii.eqb d "$" then String "$" (getSubstitution matched before after r')
            else if Ascii.eqb d "&" then matched ++ getSubstitution matched before after r'
            else if Ascii.eqb d "`" then before ++ getSubstitution matched before after r'
            else if Ascii.eqb d "'" then after ++ getSubstitution matched before after r'
            else String c (getSubstitution matched before after r)
        | EmptyString => String c EmptyString
        end
      else String c (getSubstitution matched before after r)
  end.

(** [whole.replace(/pat/g, repl)] for a pattern that is a literal, non-empty
    text: [s] is the part of [whole] from position [pos] on, and [skip]
    counts the code units of the current match still to be passed over. *)
Fixpoint replace_literal_from (pat repl whole : string) (pos skip : nat) (s : string)
  : string :=
  match s with
  | EmptyString => EmptyString
  | String c r =>
      match skip with
      | S k => replace_literal_from pat repl whole (S pos) k r
      | O =>
          if starts_with pat s
          then getSubstitution pat (take pos whole)
                 (drop (pos + String.length pat) whole) repl
               ++ replace_literal_from pat repl whole (S pos) (String.length pat - 1) r
          else String c (replace_literal_from pat repl whole (S pos) 0 r)
      end
  end.

Definition replace_literal_all (pat repl s : string) : string :=
  replace_literal_from pat repl s 0 0 s.

(** [s.replace(/[^a-z0-9]+/g, '-')]: [in_run] tells that the previous code
    unit already belonged to the run being replaced. *)
Fixpoint replace_non_alnum_runs (in_run : bool) (s : string) : string :=
  match s with
  | EmptyString => EmptyString
  | String c r =>
      if is_lower_alnum c then String c (replace_non_alnum_runs false r)
      else if in_run then replace_non_alnum_runs true r
      else String "-" (replace_non_alnum_runs true r)
  end.

Fixpoint strip_last_hyphen (s : string) : string :=
  match s with
  | EmptyString => EmptyString
  | String c EmptyString => if Ascii.eqb c "-" then EmptyString else s
  | String c r => String c (strip_last_hyphen r)
  end.

(** [s.replace(/^-|-$/g, '')]: one hyphen at the start and one at the end. *)
Definition strip_edge_hyphens (s : string) : string :=
  match s with
  | String c r => if Ascii.eqb c "-" then strip_last_hyphen r else strip_last_hyphen s
  | EmptyString => EmptyString
  end.

(** [s.replace(/\/+/g, '/')] *)
Fixpoint collapse_slashes (in_run : bool) (s : string) : string :=
  match s with
  | EmptyString => EmptyString
  | String c r =>
      if Ascii.eqb c "/"
      then if in_run then collapse_slashes true r
           else String "/" (collapse_slashes true r)
      else String c (collapse_slashes false r)
  end.

(** Number of digits at the start of [s]. *)
Fixpoint leading_digits (s : string) : nat :=
  match s with
  | EmptyString => O
  | String c r => if is_digit c then S (leading_digits r) else O
  end.

(** [/^\d{10,}/.test(s)] *)
Definition test_leading_digit_run (s : string) : bool := (10 <=? leading_digits s)%nat.

(** [s.replace(/^\d{10,}/, '')]: the match is greedy, the whole run goes. *)
Definition remove_leading_digit_run (s : string) : string :=
  if test_leading_digit_run s then drop (leading_digits s) s else s.

(** *** Values, exceptions and property lookup *)

Inductive exn : Type :=
| Error (msg : string)
| TypeError (msg : string)
| SyntaxError (msg : string).

Inductive result (A : Type) : Type :=
| Ok (a : A)
| Throw (e : exn).
Arguments Ok {A} a.
Arguments Throw {A} e.

(** What reading a property of an object literal can give: a string the
    literal defines, or a member inherited from [Object.prototype]. *)
Inductive value : Type :=
| VString (s : string)
| VInherited (name : string).

Definition Object_prototype_names : list string :=
  [ "constructor"; "__defineGetter__"; "__defineSetter__"; "hasOwnProperty";
    "__lookupGetter__"; "__lookupSetter__"; "isPrototypeOf";
    "propertyIsEnumerable"; "toString"; "valueOf"; "__proto__";
    "toLocaleString" ].

Definition inherited (key : string) : bool :=
  existsb (String.eqb key) Object_prototype_names.

Fixpoint own_property {V : Type} (obj : list (string * V)) (key : string) : option V :=
  match obj with
  | [] => None
  | (k, v) :: rest => if String.eqb k key then Some v else own_property rest key
  end.

(** [obj[key]]; [None] is [undefined]. *)
Definition get (obj : list (string * string)) (key : string) : option value :=
  match own_property obj key with
  | Some v => Some (VString v)
  | None => if inherited key then Some (VInherited key) else None
  end.

(** [obj[key] || dflt] *)
Definition get_or (obj : list (string * string)) (key : string) (dflt : string) : value :=
  match get obj key with
  | Some (VString v) => if truthy v then VString v else VString dflt
  | Some (VInherited n) => VInherited n
  | None => VString dflt
  end.

(** ToString of a value, as V8 prints the inherited members. *)
Definition toString (v : value) : string :=
  match v with
  | VString s => s
  | VInherited n =>
      if String.eqb n "__proto__" then "[object Object]"
      else "function " ++ (if String.eqb n "constructor" then "Object" else n)
           ++ "() { [native code] }"
  end.

(** ToString of a possibly [undefined] string. *)
Definition toString_opt (o : option string) : string :=
  match o with
  | Some s => s
  | None => "undefined"
  end.

End JS.

(** ** The remote service and the extension's local storage *)

Module Net.
Import JS.

(** Body of the PUT request.  [content] is the text whose UTF-8 bytes are
    sent base64 encoded; [sha] is present only for updates. *)
Record PutBody : Type := {
  message : string;
  content : string;
  branch : string;
  sha : option string
}.

(** The requests of [github-api.js], with the components of the URL and the
    token of the Authorization header kept apart.  The path is what the
    code passes through [encodeURIComponent].  [raw_ref] is the text the
    code puts after [?ref=] in the URL of the read: the branch as it is, not
    encoded; which ref the remote reads out of that query is up to the
    remote.  The write carries the branch in its JSON body. *)
Inductive Request : Type :=
| GetUser (token : string)
| GetContents (token owner repo path raw_ref : string)
| PutContents (token owner repo path : string) (body : PutBody).

Record ContentInfo : Type := { html_url : option string }.

(** The members of a response payload that the extension reads. *)
Record Json : Type := {
  data_sha : option string;
  data_message : option string;
  data_commit : option string;
  data_content : option ContentInfo
}.

Definition empty_object : Json :=
  {| data_sha := None; data_message := None; data_commit := None; data_content := None |}.

(** [json = None]: the body is not JSON and [response.json()] rejects. *)
Record Response : Type := {
  status : Z;
  statusText : string;
  json : option Json
}.

Definition ok (r : Response) : bool := ((200 <=? status r) && (status r <=? 299))%Z.

Inductive FetchResult : Type :=
| Rejected (e : exn)
| Responded (r : Response).

(** The remote service: its answer to a request may depend on all the
    requests made before (oldest first). *)
Definition Remote : Type := list Request -> Request -> FetchResult.

Definition is_write (r : Request) : bool :=
  match r with
  | PutContents _ _ _ _ _ => true
  | _ => false
  end.

End Net.

Module Store.

(** A record of the submission history ([chrome.storage.local], key
    [submissions]). *)
Record HistoryRecord : Type := {
  problemSlug : string;
  problemTitle : string;
  language : string;
  category : string;
  timestamp : string;
  githubUrl : option string;
  filePath : string
}.

(** [chrome.storage.local]; [None] is a key that was never set. *)
Record Storage : Type := {
  github_token : option string;
  github_repo : option string;
  branch : option string;
  file_structure : option string;
  submissions : option (list HistoryRecord)
}.

End Store.

(** ** Sequencing of asynchronous calls *)

Module Async.
Import JS.

(** [notifications] tells whether [chrome.notifications] is there (the
    extension holds the permission). *)
Record Env : Type := {
  storage : Store.Storage;
  requests : list Net.Request;
  notifications : bool
}.

Definition M (A : Type) : Type := Env -> result A * Env.

Definition ret {A} (a : A) : M A := fun e => (Ok a, e).

Definition throw {A} (x : exn) : M A := fun e => (Throw x, e).

Definition bind {A B} (m : M A) (f : A -> M B) : M B :=
  fun e => match m e with
           | (Ok a, e') => f a e'
           | (Throw x, e') => (Throw x, e')
           end.

Definition try_catch {A} (m : M A) (handler : exn -> M A) : M A :=
  fun e => match m e with
           | (Ok a, e') => (Ok a, e')
           | (Throw x, e') => handler x e'
           end.

Definition lift {A} (r : result A) : M A := fun e => (r, e).

Declare Scope async_scope.
Delimit Scope async_scope with async.
Notation "x <- m ;; k" := (bind m (fun x => k))
  (at level 61, m at next level, right associativity) : async_scope.
Notation "m ;;; k" := (bind m (fun _ => k))
  (at level 61, right associativity) : async_scope.

(** [await fetch(...)]: the request is recorded whether it is answered or
    not. *)
Definition fetch (remote : Net.Remote) (r : Net.Request) : M Net.Response :=
  fun e =>
    let e' := {| storage := storage e; requests := requests e ++ [r];
                 notifications := notifications e |} in
    match remote (requests e) r with
    | Net.Rejected x => (Throw x, e')
    | Net.Responded resp => (Ok resp, e')
    end.

(** [await response.json()] *)
Definition json (r : Net.Response) : M Net.Json :=
  match Net.json r with
  | Some d => ret d
  | None => throw (SyntaxError "Unexpected token in JSON")
  end.

Definition get_storage : M Store.Storage := fun e => (Ok (storage e), e).

Definition set_submissions (subs : list Store.HistoryRecord) : M unit :=
  fun e =>
    let st := storage e in
    (Ok tt,
     {| storage := {| Store.github_token := Store.github_token st;
                      Store.github_repo := Store.github_repo st;
                      Store.branch := Store.branch st;
                      Store.file_structure := Store.file_structure st;
                      Store.submissions := Some subs |};
        requests := requests e;
        notifications := notifications e |}).

End Async.

(** ** [src/js/github-api.js] *)

Module GitHubAPI.
Import JS Async.
Local Open Scope async_scope.

(** An instance of the class: [new GitHubAPI(token)]. *)
Record Api : Type := { token : string }.

(** The object the write returns: [{ success: true, commit, content, html_url }]. *)
Record PushResult : Type := {
  success : bool;
  commit : option string;
  content : Net.ContentInfo;
  html_url : option string
}.

(** The [data] argument of [generateFilePath]; [None] is a member the caller
    left out. *)
Record PathData : Type := {
  category : option string;
  filename : option string;
  slug : option string;
  language : option string
}.

(** The [metadata] argument of [formatFileContent]. *)
Record Metadata : Type := {
  meta_problemTitle : string;
  meta_language : string;
  meta_timestamp : string;
  meta_url : string
}.

Record CommentStyle : Type := {
  start : option string;
  end_ : option string;
  line : option string
}.

Section Remote.

Variable remote : Net.Remote.

Definition validateToken (api : Api) : M bool :=
  try_catch
    (response <- fetch remote (Net.GetUser (token api)) ;;
     ret (Net.ok response))
    (fun _ => ret false).

Definition getFileSha (api : Api) (owner repo path branch : string)
  : M (option string) :=
  try_catch
    (response <- fetch remote (Net.GetContents (token api) owner repo path branch) ;;
     if Net.ok response then
       data <- json response ;;
       ret (Net.data_sha data)
     else if (Net.status response =? 404)%Z then
       ret None
     else
       throw (Error ("GitHub API error: " ++ Z_to_string (Net.status response))))
    (fun error => throw error).

Definition createOrUpdateFile (api : Api)
    (owner repo path content message branch : string) : M PushResult :=
  try_catch
    (sha <- getFileSha api owner repo path branch ;;
     let body :=
       {| Net.message := message;
          Net.content := content;
          Net.branch := branch;
          Net.sha := match sha with
                     | Some s => if truthy s then Some s else None
                     | None => None
                     end |} in
     response <- fetch remote (Net.PutContents (token api) owner repo path body) ;;
     if negb (Net.ok response) then
       errorData <- try_catch (json response) (fun _ => ret Net.empty_object) ;;
       throw (Error ("GitHub API error: " ++ Z_to_string (Net.status response) ++ " - "
                     ++ match Net.data_message errorData with
                        | Some m => if truthy m then m else Net.statusText response
                        | None => Net.statusText response
                        end))
     else
       data <- json response ;;
       match Net.data_content data with
       | None => throw (TypeError "Cannot read properties of undefined (reading 'html_url')")
       | Some c =>
           ret {| success := true;
                  commit := Net.data_commit data;
                  content := c;
                  html_url := Net.html_url c |}
       end)
    (fun error => throw error).

End Remote.

(** The three double quotes that open and close a Python docstring. *)
Definition triple_quote : string :=
  let q := ascii_of_nat 34 in String q (String q (String q EmptyString)).

Definition block_comment : CommentStyle :=
  {| start := Some "/*"; end_ := Some "*/"; line := Some " * " |}.

Definition commentStyles : list (string * CommentStyle) :=
  [ ("python3", {| start := Some triple_quote; end_ := Some triple_quote; line := None |});
    ("java", block_comment);
    ("javascript", block_comment);
    ("cpp", block_comment);
    ("c", block_comment);
    ("csharp", block_comment);
    ("go", block_comment);
    ("ruby", {| start := Some "=begin"; end_ := Some "=end"; line := Some " " |});
    ("rust", block_comment);
    ("php", block_comment);
    ("typescript", block_comment);
    ("sql", {| start := Some "-- "; end_ := Some ""; line := None |});
    ("bash", {| start := Some "# "; end_ := Some ""; line := None |}) ].

Definition newline : string := String (ascii_of_nat 10) EmptyString.

(** [commentStyles[language] || { start: '# ', end: '' }]: a member
    inherited from [Object.prototype] is truthy and has none of the members
    [start], [end] and [line]. *)
Definition comment_style (language : string) : CommentStyle :=
  match own_property commentStyles language with
  | Some st => st
  | None =>
      if inherited language
      then {| start := None; end_ := None; line := None |}
      else {| start := Some "# "; end_ := Some ""; line := None |}
  end.

Definition truthy_opt (o : option string) : bool :=
  match o with
  | Some s => truthy s
  | None => false
  end.

Fixpoint join (sep : string) (parts : list string) : string :=
  match parts with
  | [] => EmptyString
  | [x] => x
  | x :: rest => x ++ sep ++ join sep rest
  end.

Definition formatFileContent (code : string) (metadata : Metadata) : string :=
  let problemTitle := meta_problemTitle metadata in
  let language := meta_language metadata in
  let timestamp := meta_timestamp metadata in
  let url := meta_url metadata in
  let style := comment_style language in
  let header :=
    if truthy_opt (line style) then
      let l := toString_opt (line style) in
      toString_opt (start style) ++ newline ++ l ++ "Problem: " ++ problemTitle ++ newline
      ++ l ++ "Language: " ++ language ++ newline
      ++ l ++ "Submitted: " ++ timestamp ++ newline
      ++ l ++ "HackerRank URL: " ++ url ++ newline
      ++ l ++ "Auto-synced by HackPush" ++ newline
      ++ toString_opt (end_ style) ++ newline ++ newline
    else if String.eqb language "python3"
            && match start style with
               | Some st => String.eqb st triple_quote
               | None => false
               end then
      triple_quote ++ newline ++ "Problem: " ++ problemTitle ++ newline
      ++ "Language: " ++ language ++ newline
      ++ "Submitted: " ++ timestamp ++ newline
      ++ "HackerRank URL: " ++ url ++ newline
      ++ "Auto-synced by HackPush" ++ newline ++ triple_quote ++ newline ++ newline
    else
      let st := toString_opt (start style) in
      let last := st ++ "Auto-synced by HackPush" in
      let lines :=
        [ st ++ "Problem: " ++ problemTitle;
          st ++ "Language: " ++ language;
          st ++ "Submitted: " ++ timestamp;
          st ++ "HackerRank URL: " ++ url;
          if truthy_opt (end_ style) then last ++ " " ++ toString_opt (end_ style)
          else last ] in
      join newline lines ++ newline ++ newline in
  header ++ code.

(** [text.toLowerCase().replace(/[^a-z0-9]+/g, '-').replace(/^-|-$/g, '')] *)
Definition sanitize (text : string) : string :=
  strip_edge_hyphens (replace_non_alnum_runs false (toLowerCase text)).

Definition undefined_toLowerCase : exn :=
  TypeError "Cannot read properties of undefined (reading 'toLowerCase')".

Definition generateFilePath (template : string) (data : PathData) : result string :=
  match filename data with
  | None => Throw undefined_toLowerCase
  | Some filename =>
      let sanitizedFilename := sanitize filename in
      match slug data with
      | None => Throw undefined_toLowerCase
      | Some slug =>
          let sanitizedSlug := sanitize slug in
          let path :=
            replace_literal_all "{language}" (toString_opt (language data))
              (replace_literal_all "{slug}" sanitizedSlug
                 (replace_literal_all "{filename}" sanitizedFilename
                    (replace_literal_all "{category}" (toString_opt (category data))
                       template))) in
          Ok (collapse_slashes false path)
      end
  end.

End GitHubAPI.

(** ** [src/js/storage.js] *)

Module StorageManager.
Import JS Async.
Local Open Scope async_scope.

(** The members [getConfig] asks for. *)
Record Config : Type := {
  github_token : option string;
  github_repo : option string;
  branch : option string;
  file_structure : option string
}.

Definition getConfig : M Config :=
  st <- get_storage ;;
  ret {| github_token := Store.github_token st;
         github_repo := Store.github_repo st;
         branch := Store.branch st;
         file_structure := Store.file_structure st |}.

Section Dates.

(** The time value of [new Date(text)] in milliseconds, [None] for an
    invalid date (NaN). *)
Variable Date : string -> option Z.

(** [Math.abs(new Date(a) - new Date(b)) < 60000]; a comparison with NaN is
    false. *)
Definition within_window (a b : string) : bool :=
  match Date a, Date b with
  | Some ta, Some tb => (Z.abs (ta - tb) <? 60000)%Z
  | _, _ => false
  end.

Definition duplicate_of (record sub : Store.HistoryRecord) : bool :=
  String.eqb (Store.problemSlug sub) (Store.problemSlug record)
  && String.eqb (Store.language sub) (Store.language record)
  && within_window (Store.timestamp sub) (Store.timestamp record).

Definition addSubmissionRecord (record : Store.HistoryRecord) : M unit :=
  st <- get_storage ;;
  let submissions :=
    match Store.submissions st with
    | Some l => l
    | None => []
    end in
  let exists_ := existsb (duplicate_of record) submissions in
  if negb exists_ then set_submissions (submissions ++ [record])
  else ret tt.

End Dates.

Definition getSubmissions : M (list Store.HistoryRecord) :=
  st <- get_storage ;;
  ret match Store.submissions st with
      | Some l => l
      | None => []
      end.

End StorageManager.

(** ** The background service worker *)

Module Background.
Import JS Async.
Local Open Scope async_scope.

(** The [data] of a [pushToGitHub] message, as the content script builds it. *)
Record Submission : Type := {
  code : string;
  language : string;
  problemTitle : string;
  problemSlug : string;
  category : string;
  timestamp : string;
  url : string
}.

Definition extensionMap : list (string * string) :=
  [ ("python3", "py"); ("java", "java"); ("javascript", "js"); ("cpp", "cpp");
    ("c", "c"); ("csharp", "cs"); ("go", "go"); ("ruby", "rb");
    ("swift", "swift"); ("kotlin", "kt"); ("scala", "scala"); ("rust", "rs");
    ("php", "php"); ("typescript", "ts"); ("r", "r"); ("sql", "sql");
    ("bash", "sh") ].

Definition getFileExtension (language : string) : value :=
  get_or extensionMap language "txt".

Definition default_file_structure : string := "hackerrank/{category}/{filename}".

Definition or_default (o : option string) (dflt : string) : string :=
  match o with
  | Some s => if truthy s then s else dflt
  | None => dflt
  end.

(** The path computed in the middle of [handlePushToGitHub], from the stored
    template and the message. *)
Definition filePath_of (file_structure : option string) (data : Submission)
  : result string :=
  let fileStructure := or_default file_structure default_file_structure in
  let extension := getFileExtension (language data) in
  let filename := problemSlug data ++ "." ++ toString extension in
  GitHubAPI.generateFilePath fileStructure
    {| GitHubAPI.category := Some (category data);
       GitHubAPI.filename := Some filename;
       GitHubAPI.slug := Some (problemSlug data);
       GitHubAPI.language := Some (language data) |}.

Definition not_configured : exn :=
  Error "GitHub not configured. Please set up your token and repository in options.".

Definition invalid_token : exn :=
  Error "Invalid GitHub token. Please update your token in options.".

Definition invalid_repository : exn :=
  Error "Invalid repository format. Use format: owner/repo".

Section Remote.

Variable remote : Net.Remote.
Variable Date : string -> option Z.

Definition missing_notifications : exn :=
  TypeError "Cannot read properties of undefined (reading 'create')".

(** [chrome.notifications.create({...}).catch(() => {})]: a notification
    that cannot be shown is passed over, but without [chrome.notifications]
    the call itself throws. *)
Definition show_notification : M unit :=
  fun e =>
    if notifications e then (Ok tt, e) else (Throw missing_notifications, e).

Definition handlePushToGitHub (data : Submission) : M GitHubAPI.PushResult :=
  try_catch
    (config <- StorageManager.getConfig ;;
     if negb (GitHubAPI.truthy_opt (StorageManager.github_token config))
        || negb (GitHubAPI.truthy_opt (StorageManager.github_repo config))
     then throw not_configured
     else
       let api := {| GitHubAPI.token := toString_opt (StorageManager.github_token config) |} in
       isValid <- GitHubAPI.validateToken remote api ;;
       if negb isValid then throw invalid_token
       else
         let parts := split "/" (toString_opt (StorageManager.github_repo config)) in
         let owner := nth_error parts 0 in
         let repo := nth_error parts 1 in
         if negb (GitHubAPI.truthy_opt owner) || negb (GitHubAPI.truthy_opt repo)
         then throw invalid_repository
         else
           filePath <- lift (filePath_of (StorageManager.file_structure config) data) ;;
           let formattedCode :=
             GitHubAPI.formatFileContent (code data)
               {| GitHubAPI.meta_problemTitle := problemTitle data;
                  GitHubAPI.meta_language := language data;
                  GitHubAPI.meta_timestamp := timestamp data;
                  GitHubAPI.meta_url := url data |} in
           let commitMessage :=
             "Add solution for " ++ problemTitle data ++ " (" ++ language data ++ ")" in
           let branch := or_default (StorageManager.branch config) "main" in
           result <- GitHubAPI.createOrUpdateFile remote api
                       (toString_opt owner) (toString_opt repo)
                       filePath formattedCode commitMessage branch ;;
           StorageManager.addSubmissionRecord Date
             {| Store.problemSlug := problemSlug data;
                Store.problemTitle := problemTitle data;
                Store.language := language data;
                Store.category := category data;
                Store.timestamp := timestamp data;
                Store.githubUrl := GitHubAPI.html_url result;
                Store.filePath := filePath |} ;;;
           show_notification ;;;
           ret result)
    (fun error => throw error).

End Remote.

End Background.

(** ** [src/js/content.js]: the page-reading content script *)

Module Content.
Import JS.

Definition cleanCode (code : string) : string :=
  if negb (truthy code) then code
  else
    let code :=
      if test_leading_digit_run code then
        let shebangIndex := indexOf code "#!/" in
        if negb (shebangIndex =? -1)%Z && (shebangIndex <? 50)%Z
        then substring_from shebangIndex code
        else remove_leading_digit_run code
      else code in
    trim code.

Definition languageMap : list (string * string) :=
  [ ("python3", "python3"); ("python", "python3"); ("py", "python3");
    ("java", "java");
    ("javascript", "javascript"); ("js", "javascript");
    ("cpp", "cpp"); ("c++", "cpp"); ("c", "c");
    ("csharp", "csharp"); ("cs", "csharp");
    ("go", "go"); ("golang", "go");
    ("ruby", "ruby"); ("rb", "ruby");
    ("swift", "swift"); ("kotlin", "kotlin"); ("scala", "scala"); ("rust", "rust");
    ("php", "php"); ("typescript", "typescript"); ("ts", "typescript");
    ("r", "r"); ("sql", "sql"); ("bash", "bash"); ("shell", "bash") ].

Definition normalizeLanguage (lang : string) : value :=
  let normalized := trim (toLowerCase lang) in
  get_or languageMap normalized normalized.

(** The call on whatever an earlier call returned: a member inherited from
    [Object.prototype] has no [toLowerCase]. *)
Definition normalizeLanguage_value (lang : value) : result value :=
  match lang with
  | VString s => Ok (normalizeLanguage s)
  | VInherited _ => Throw (TypeError "lang.toLowerCase is not a function")
  end.

(** A page element: [textContent] is [null] for some kinds of node. *)
Record Element : Type := { textContent : option string }.

Definition acceptedKeywords : list string :=
  [ "accepted"; "success"; "all test cases passed";
    "congratulations"; "passed"; "successfully" ].

Definition rejectedKeywords : list string :=
  [ "wrong answer"; "runtime error"; "timeout"; "failed"; "error" ].

Definition isSubmissionAccepted (element : option Element) : bool :=
  match element with
  | None => false
  | Some element =>
      let text :=
        match textContent element with
        | Some t => toLowerCase t
        | None => EmptyString
        end in
      if existsb (fun kw => includes text kw) rejectedKeywords then false
      else existsb (fun kw => includes text kw) acceptedKeywords
  end.

End Content.

(** ** The content script that polls the submission API *)

Module ContentApi.
Import JS.

Definition languageMap : list (string * string) :=
  [ ("python3", "python3"); ("python", "python3"); ("py", "python3");
    ("python2", "python");
    ("java", "java"); ("java8", "java"); ("java7", "java"); ("java15", "java");
    ("javascript", "javascript"); ("js", "javascript"); ("node", "javascript");
    ("cpp", "cpp"); ("cpp14", "cpp"); ("cpp11", "cpp"); ("c++", "cpp"); ("c", "c");
    ("csharp", "csharp"); ("cs", "csharp");
    ("go", "go"); ("golang", "go");
    ("ruby", "ruby"); ("rb", "ruby");
    ("swift", "swift"); ("kotlin", "kotlin"); ("scala", "scala"); ("rust", "rust");
    ("php", "php"); ("typescript", "typescript"); ("ts", "typescript");
    ("r", "r"); ("sql", "sql"); ("bash", "bash"); ("shell", "bash") ].

Definition normalizeLanguage (lang : string) : value :=
  let normalized := trim (toLowerCase lang) in
  get_or languageMap normalized normalized.

Definition normalizeLanguage_value (lang : value) : result value :=
  match lang with
  | VString s => Ok (normalizeLanguage s)
  | VInherited _ => Throw (TypeError "lang.toLowerCase is not a function")
  end.

End ContentApi.

(** ** Instances of the parameters: a revisioned file store and ISO dates *)

Module FileStore.
Import JS.

Record File : Type := {
  owner : string;
  repo : string;
  branch : string;
  path : string;
  revision : string;
  text : string
}.

(** [ref_of_query] is how the service reads the ref out of the query of a
    read, given the text that follows [?ref=] in the URL as the client wrote
    it. *)
Record Service : Type := {
  accepted_token : string;
  files : list File;
  writes : nat;
  ref_of_query : string -> string
}.

(** The query ends where a fragment starts, and the value of [ref] ends
    where the next parameter starts. *)
Fixpoint cut_query (raw : string) : string :=
  match raw with
  | EmptyString => EmptyString
  | String c r =>
      if Ascii.eqb c "#" || Ascii.eqb c "&" then EmptyString
      else String c (cut_query r)
  end.

Definition hex_digit (c : ascii) : option N :=
  let n := N_of_ascii c in
  if ((48 <=? n) && (n <=? 57))%N then Some (n - 48)%N
  else if ((65 <=? n) && (n <=? 70))%N then Some (n - 55)%N
  else if ((97 <=? n) && (n <=? 102))%N then Some (n - 87)%N
  else None.

(** In the value of a query parameter a plus sign stands for a space and a
    percent sign with two hexadecimal digits for the character of that
    code. *)
Fixpoint percent_decode (s : string) : string :=
  match s with
  | EmptyString => EmptyString
  | String c r =>
      if Ascii.eqb c "+" then String " " (percent_decode r)
      else if Ascii.eqb c "%" then
        match r with
        | String h (String l r') =>
            match hex_digit h, hex_digit l with
            | Some x, Some y => String (ascii_of_N (16 * x + y)) (percent_decode r')
            | _, _ => String c (percent_decode r)
            end
        | _ => String c (percent_decode r)
        end
      else String c (percent_decode r)
  end.

(** One reading of the ref, the usual one of a web service: the value of
    the parameter, decoded. *)
Definition query_value (raw : string) : string := percent_decode (cut_query raw).

Definition at_ (o r b p : string) (f : File) : bool :=
  String.eqb (owner f) o && String.eqb (repo f) r
  && String.eqb (branch f) b && String.eqb (path f) p.

Definition lookup (s : Service) (o r b p : string) : option File :=
  find (at_ o r b p) (files s).

Definition revision_id (n : nat) : string := "rev" ++ Z_to_string (Z.of_nat n).

Definition respond (code : Z) (reason : string) (payload : Net.Json) : Net.FetchResult :=
  Net.Responded {| Net.status := code; Net.statusText := reason; Net.json := Some payload |}.

Definition error_payload (msg : string) : Net.Json :=
  {| Net.data_sha := None; Net.data_message := Some msg;
     Net.data_commit := None; Net.data_content := None |}.

Definition unauthorized : Net.FetchResult :=
  respond 401 "Unauthorized" (error_payload "Bad credentials").

Definition conflict : Net.FetchResult :=
  respond 409 "Conflict" (error_payload "revision does not match").

Definition written (o r b p rev : string) : Net.Json :=
  {| Net.data_sha := None; Net.data_message := None;
     Net.data_commit := Some rev;
     Net.data_content :=
       Some {| Net.html_url :=
                 Some ("https://github.com/" ++ o ++ "/" ++ r ++ "/blob/" ++ b ++ "/" ++ p) |} |}.

Definition store (s : Service) (o r b p txt : string) : Service :=
  let rev := revision_id (S (writes s)) in
  {| accepted_token := accepted_token s;
     files := {| owner := o; repo := r; branch := b; path := p;
                 revision := rev; text := txt |}
              :: filter (fun f => negb (at_ o r b p f)) (files s);
     writes := S (writes s);
     ref_of_query := ref_of_query s |}.

(** Modelled from the spec: the remote versioned file store, an external
    service of which the repository holds no code.  A read of a path gives
    its current revision or "not found", on the ref that the service reads
    out of the query; a write is a compare-and-swap on the branch named in
    its body: it creates the file when the path has no revision and none is supplied,
    updates it when the supplied revision is the current one, and is
    answered with a conflict (409) otherwise; every request with a
    credential the service does not accept is answered 401. *)
Definition step (s : Service) (rq : Net.Request) : Service * Net.FetchResult :=
  match rq with
  | Net.GetUser t =>
      if String.eqb t (accepted_token s)
      then (s, respond 200 "OK" Net.empty_object)
      else (s, unauthorized)
  | Net.GetContents t o r p raw =>
      if String.eqb t (accepted_token s) then
        match lookup s o r (ref_of_query s raw) p with
        | Some f =>
            (s, respond 200 "OK"
                  {| Net.data_sha := Some (revision f); Net.data_message := None;
                     Net.data_commit := None; Net.data_content := None |})
        | None => (s, respond 404 "Not Found" (error_payload "Not Found"))
        end
      else (s, unauthorized)
  | Net.PutContents t o r p body =>
      if String.eqb t (accepted_token s) then
        let b := Net.branch body in
        match lookup s o r b p, Net.sha body with
        | None, None =>
            (store s o r b p (Net.content body),
             respond 201 "Created" (written o r b p (revision_id (S (writes s)))))
        | Some f, Some claimed =>
            if String.eqb claimed (revision f)
            then (store s o r b p (Net.content body),
                  respond 200 "OK" (written o r b p (revision_id (S (writes s)))))
            else (s, conflict)
        | _, _ => (s, conflict)
        end
      else (s, unauthorized)
  end.

(** The service after a sequence of requests. *)
Definition after (init : Service) (history : list Net.Request) : Service :=
  fold_left (fun s rq => fst (step s rq)) history init.

Definition remote (init : Service) : Net.Remote :=
  fun history rq => snd (step (after init history) rq).

End FileStore.

Module IsoDate.

Definition digit (c : ascii) : option Z :=
  if JS.is_digit c then Some (Z.of_N (JS.code c) - 48)%Z else None.

(** A number written with exactly [n] digits, and the rest of the text. *)
Fixpoint number (n : nat) (acc : Z) (s : string) : option (Z * string) :=
  match n with
  | O => Some (acc, s)
  | S k =>
      match s with
      | String c r =>
          match digit c with
          | Some d => number k (10 * acc + d)%Z r
          | None => None
          end
      | EmptyString => None
      end
  end.

Definition expect (c : ascii) (s : string) : option string :=
  match s with
  | String d r => if Ascii.eqb c d then Some r else None
  | EmptyString => None
  end.

Definition leap (y : Z) : bool :=
  ((y mod 4 =? 0) && (negb (y mod 100 =? 0) || (y mod 400 =? 0)))%Z.

Definition days_in_month (y m : Z) : Z :=
  if (m =? 2)%Z then (if leap y then 29 else 28)%Z
  else if ((m =? 4) || (m =? 6) || (m =? 9) || (m =? 11))%Z then 30%Z
  else 31%Z.

(** Days between 1970-01-01 and the given day of the Gregorian calendar. *)
Definition days_from_civil (y m d : Z) : Z :=
  let y' := (if m <=? 2 then y - 1 else y)%Z in
  let era := (y' / 400)%Z in
  let yoe := (y' - era * 400)%Z in
  let doy := ((153 * (if 2 <? m then m - 3 else m + 9) + 2) / 5 + d - 1)%Z in
  let doe := (yoe * 365 + yoe / 4 - yoe / 100 + doy)%Z in
  (era * 146097 + doe - 719468)%Z.

Definition bind {A B} (o : option A) (f : A -> option B) : option B :=
  match o with
  | Some a => f a
  | None => None
  end.

(** The time value of a text in the format of [Date.prototype.toISOString],
    [YYYY-MM-DDTHH:mm:ss.sssZ], which is what the content script stores as
    timestamp.  Other texts are given no value here. *)
Definition time_value (s : string) : option Z :=
  bind (number 4 0 s) (fun '(y, s) =>
  bind (expect "-" s) (fun s =>
  bind (number 2 0 s) (fun '(m, s) =>
  bind (expect "-" s) (fun s =>
  bind (number 2 0 s) (fun '(d, s) =>
  bind (expect "T" s) (fun s =>
  bind (number 2 0 s) (fun '(h, s) =>
  bind (expect ":" s) (fun s =>
  bind (number 2 0 s) (fun '(mi, s) =>
  bind (expect ":" s) (fun s =>
  bind (number 2 0 s) (fun '(sec, s) =>
  bind (expect "." s) (fun s =>
  bind (number 3 0 s) (fun '(ms, s) =>
  bind (expect "Z" s) (fun s =>
  match s with
  | EmptyString =>
      if ((1 <=? m) && (m <=? 12) && (1 <=? d) && (d <=? days_in_month y m)
          && (h <=? 23) && (mi <=? 59) && (sec <=? 59))%Z
      then Some ((((days_from_civil y m d * 24 + h) * 60 + mi) * 60 + sec) * 1000 + ms)%Z
      else None
  | _ => None
  end)))))))))))))).

End IsoDate.

(** ** Observations used in the statements *)

Module Observe.
Import JS Async.

(** The stored history, as [getSubmissions] reads it. *)
Definition ledger (e : Env) : list Store.HistoryRecord :=
  match Store.submissions (storage e) with
  | Some l => l
  | None => []
  end.

(** The state after one more request has been sent. *)
Definition sent (env : Env) (rq : Net.Request) : Env :=
  {| storage := storage env; requests := requests env ++ [rq];
     notifications := notifications env |}.

(** Token and repository are both stored and non-empty. *)
Definition configured (st : Store.Storage) : bool :=
  GitHubAPI.truthy_opt (Store.github_token st)
  && GitHubAPI.truthy_opt (Store.github_repo st).

(** The remote answers the identity lookup with a success status. *)
Definition credential_accepted (remote : Net.Remote) (e : Env) : bool :=
  match remote (requests e) (Net.GetUser (toString_opt (Store.github_token (storage e)))) with
  | Net.Responded r => Net.ok r
  | Net.Rejected _ => false
  end.

(** The digits of a text, in order. *)
Fixpoint digits_of (s : string) : list ascii :=
  match s with
  | EmptyString => []
  | String c r => if is_digit c then c :: digits_of r else digits_of r
  end.

(** Every code unit of the text satisfies [p]. *)
Fixpoint all_of (p : ascii -> bool) (s : string) : bool :=
  match s with
  | EmptyString => true
  | String c r => p c && all_of p r
  end.

(** The code units a sanitized name is made of: [a-z], [0-9] and the hyphen. *)
Definition path_safe (c : ascii) : bool := is_lower_alnum c || Ascii.eqb c "-".

(** The path a request is about. *)
Definition request_path (rq : Net.Request) : option string :=
  match rq with
  | Net.GetUser _ => None
  | Net.GetContents _ _ _ p _ => Some p
  | Net.PutContents _ _ _ p _ => Some p
  end.

(** The text [normalizeLanguage] looks up: lower-cased, then trimmed. *)
Definition normal_form (s : string) : string := trim (toLowerCase s).

Definition no_leading_space (s : string) : bool :=
  match s with
  | EmptyString => true
  | String c _ => negb (is_whitespace c)
  end.

(** Every value of an alias table is itself a key that maps to itself, is
    non-empty and is in normal form, except under the keys in [but]. *)
Definition closed_table (but : list string) (table : list (string * string)) : bool :=
  forallb (fun kv =>
             existsb (String.eqb (fst kv)) but
             || (match own_property table (snd kv) with
                 | Some v => String.eqb v (snd kv)
                 | None => false
                 end
                 && truthy (snd kv)
                 && String.eqb (normal_form (snd kv)) (snd kv)))
          table.

End Observe.

(** ** Concrete inputs *)

Module Samples.

Definition service : FileStore.Service :=
  {| FileStore.accepted_token := "ghp_token";
     FileStore.files :=
       [ {| FileStore.owner := "alice"; FileStore.repo := "solutions";
            FileStore.branch := "main";
            FileStore.path := "hackerrank/algorithms/two-sum.py";
            FileStore.revision := "rev0"; FileStore.text := "old text" |} ];
     FileStore.writes := 0;
     FileStore.ref_of_query := FileStore.query_value |}.

Definition api : GitHubAPI.Api := {| GitHubAPI.token := "ghp_token" |}.

Definition storage : Store.Storage :=
  {| Store.github_token := Some "ghp_token";
     Store.github_repo := Some "alice/solutions";
     Store.branch := None;
     Store.file_structure := None;
     Store.submissions := None |}.

Definition env : Async.Env :=
  {| Async.storage := storage; Async.requests := []; Async.notifications := true |}.

Definition unconfigured : Async.Env :=
  {| Async.storage :=
       {| Store.github_token := Some "ghp_token";
          Store.github_repo := None;
          Store.branch := None;
          Store.file_structure := None;
          Store.submissions := None |};
     Async.requests := []; Async.notifications := true |}.

Definition stale_credential : Async.Env :=
  {| Async.storage :=
       {| Store.github_token := Some "ghp_revoked";
          Store.github_repo := Some "alice/solutions";
          Store.branch := None;
          Store.file_structure := None;
          Store.submissions := None |};
     Async.requests := []; Async.notifications := true |}.

Definition submission : Background.Submission :=
  {| Background.code := "print(sum(map(int, input().split())))";
     Background.language := "python3";
     Background.problemTitle := "Simple Array Sum";
     Background.problemSlug := "simple-array-sum";
     Background.category := "algorithms";
     Background.timestamp := "2024-01-01T00:00:00.000Z";
     Background.url := "https://www.hackerrank.com/challenges/simple-array-sum/problem" |}.

Definition submission_misc : Background.Submission :=
  {| Background.code := "print(sum(map(int, input().split())))";
     Background.language := "python3";
     Background.problemTitle := "Simple Array Sum";
     Background.problemSlug := "simple-array-sum";
     Background.category := "misc";
     Background.timestamp := "2024-01-01T00:00:00.000Z";
     Background.url := "https://www.hackerrank.com/challenges/simple-array-sum/problem" |}.

Definition record_at (time : string) : Store.HistoryRecord :=
  {| Store.problemSlug := "simple-array-sum";
     Store.problemTitle := "Simple Array Sum";
     Store.language := "python3";
     Store.category := "algorithms";
     Store.timestamp := time;
     Store.githubUrl := None;
     Store.filePath := "hackerrank/algorithms/simple-array-sum-py" |}.

Definition numbered_shebang : string :=
  "12345678910#!/bin/python3" ++ GitHubAPI.newline ++ "print(1)".

Definition cleaned_shebang : string :=
  "#!/bin/python3" ++ GitHubAPI.newline ++ "print(1)".

End Samples.

(** ** Further functions of the same files *)

(** [src/js/storage.js]: the remaining operations of [StorageManager]. *)
Module Settings.
Import JS Async.

(** The object the options page hands to [saveConfig]: all four members,
    each a string. *)
Record SavedConfig : Type := {
  github_token : string;
  github_repo : string;
  branch : string;
  file_structure : string
}.

(** [chrome.storage.local.set(config)]: the four keys are overwritten, the
    other keys are kept. *)
Definition saveConfig (config : SavedConfig) : M unit :=
  fun e =>
    (Ok tt,
     {| storage := {| Store.github_token := Some (github_token config);
                      Store.github_repo := Some (github_repo config);
                      Store.branch := Some (branch config);
                      Store.file_structure := Some (file_structure config);
                      Store.submissions := Store.submissions (storage e) |};
        requests := requests e;
        notifications := notifications e |}).

(** [chrome.storage.local.clear()] *)
Definition clearAll : M unit :=
  fun e =>
    (Ok tt,
     {| storage := {| Store.github_token := None;
                      Store.github_repo := None;
                      Store.branch := None;
                      Store.file_structure := None;
                      Store.submissions := None |};
        requests := requests e;
        notifications := notifications e |}).

End Settings.

(** The options page script (second part of [src/js/storage.js]). *)
Module Options.
Import JS Async.
Local Open Scope async_scope.

(** The class [[\w\-\.]] of the repository pattern. *)
Definition repo_char (c : ascii) : bool :=
  between 97 122 c || between 65 90 c || is_digit c
  || Ascii.eqb c "_" || Ascii.eqb c "-" || Ascii.eqb c ".".

Fixpoint all_repo_chars (s : string) : bool :=
  match s with
  | EmptyString => true
  | String c r => repo_char c && all_repo_chars r
  end.

(** [s] after [n >= 1] code units of the class and a slash: what remains to
    be matched by the second half of the pattern. *)
Fixpoint after_owner (seen : bool) (s : string) : option string :=
  match s with
  | EmptyString => None
  | String c r =>
      if repo_char c then after_owner true r
      else if Ascii.eqb c "/" then (if seen then Some r else None)
      else None
  end.

(** [/^[\w\-\.]+\/[\w\-\.]+$/.test(repo)] *)
Definition test_repository_format (repo : string) : bool :=
  match after_owner false repo with
  | Some rest => truthy rest && all_repo_chars rest
  | None => false
  end.

(** What [showTestResult] puts on the page. *)
Record Shown : Type := { shown_message : string; shown_type : string }.

Definition exn_message (x : exn) : string :=
  match x with
  | Error m => m
  | TypeError m => m
  | SyntaxError m => m
  end.

Definition or_else (s dflt : string) : string := if truthy s then s else dflt.

(** [saveConfig()], from the values of the four form fields to the message
    shown. *)
Definition saveConfig (token_field repo_field branch_field structure_field : string)
  : M Shown :=
  let token := trim token_field in
  let repo := trim repo_field in
  let branch := or_else (trim branch_field) "main" in
  let structure := or_else (trim structure_field) "hackerrank/{category}/{filename}" in
  if truthy repo && negb (test_repository_format repo) then
    ret {| shown_message := "Invalid repository format. Use format: owner/repo";
           shown_type := "error" |}
  else
    try_catch
      (Settings.saveConfig
         {| Settings.github_token := token;
            Settings.github_repo := repo;
            Settings.branch := branch;
            Settings.file_structure := structure |} ;;;
       ret {| shown_message := "Configuration saved successfully!";
              shown_type := "success" |})
      (fun error =>
         ret {| shown_message := "Error saving configuration: " ++ exn_message error;
                shown_type := "error" |}).

End Options.

(** The background service worker: [handleValidateToken]. *)
Module Worker.
Import JS Async.
Local Open Scope async_scope.

Record Validation : Type := { valid : bool; error : option string }.

Definition handleValidateToken (remote : Net.Remote) (token : string) : M Validation :=
  try_catch
    (let api := {| GitHubAPI.token := token |} in
     isValid <- GitHubAPI.validateToken remote api ;;
     ret {| valid := isValid; error := None |})
    (fun x => ret {| valid := false; error := Some (Options.exn_message x) |}).

End Worker.

(** [src/js/content.js]: what is read off [window.location.pathname]. *)
Module Page.
Import JS.

(** [parts.indexOf(x)], with -1 when [x] is not a member. *)
Fixpoint index_of (parts : list string) (x : string) : Z :=
  match parts with
  | [] => (-1)%Z
  | y :: rest =>
      if String.eqb y x then 0%Z
      else let i := index_of rest x in
           if (i <? 0)%Z then (-1)%Z else (i + 1)%Z
  end.

(** [parts[i]]; [None] is [undefined]. *)
Definition at_index (parts : list string) (i : Z) : option string :=
  if (i <? 0)%Z then None else nth_error parts (Z.to_nat i).

Definition length_of (parts : list string) : Z := Z.of_nat (List.length parts).

Definition extractProblemSlug (pathname : string) : option string :=
  let urlParts := filter truthy (split "/" pathname) in
  let challengesIndex := index_of urlParts "challenges" in
  let found :=
    if negb (challengesIndex =? -1)%Z && (challengesIndex <? length_of urlParts - 1)%Z
    then match at_index urlParts (challengesIndex + 1) with
         | Some problemName =>
             if truthy problemName && negb (String.eqb problemName "problem")
             then Some problemName else None
         | None => None
         end
    else None in
  match found with
  | Some problemName => Some problemName
  | None =>
      let problemIndex := index_of urlParts "problem" in
      if negb (problemIndex =? -1)%Z && (0 <? problemIndex)%Z
      then at_index urlParts (problemIndex - 1)
      else
        match at_index urlParts (length_of urlParts - 1) with
        | Some lastPart =>
            if truthy lastPart && negb (String.eqb lastPart "problem")
               && negb (String.eqb lastPart "challenges")
            then Some lastPart
            else Some "unknown-problem"
        | None => Some "unknown-problem"
        end
  end.

Definition categories : list string :=
  [ "algorithms"; "data-structures"; "mathematics"; "python"; "java"; "sql";
    "database"; "artificial-intelligence"; "regex"; "functional-programming" ].

Definition extractCategory (url : string) : string :=
  match find (fun category => includes url category) categories with
  | Some category => category
  | None =>
      let parts := split "/" url in
      let challengesIndex := index_of parts "challenges" in
      let found :=
        if negb (challengesIndex =? -1)%Z && (challengesIndex <? length_of parts - 1)%Z
        then match at_index parts (challengesIndex + 1) with
             | Some possibleCategory =>
                 if truthy possibleCategory && negb (includes possibleCategory "problem")
                 then Some possibleCategory else None
             | None => None
             end
        else None in
      match found with
      | Some possibleCategory => possibleCategory
      | None => "misc"
      end
  end.

End Page.

(** The content script that polls the submission API: what is read off the
    fetched submission record and the pathname. *)
Module Poll.
Import JS.

Record Track : Type := { track_name : option string; name : option string }.

(** The members of the submission record that the script reads; [None] is a
    member that is missing. *)
Record SubmissionData : Type := {
  status : option string;
  status_code : option Z;
  code : option string;
  language : option string;
  problem_name : option string;
  track : option Track
}.

(** The segment up to the next slash. *)
Fixpoint segment (s : string) : string :=
  match s with
  | EmptyString => EmptyString
  | String c r => if Ascii.eqb c "/" then EmptyString else String c (segment r)
  end.

(** [pathname.match(/\/challenges\/([^\/]+)/)]: the first capture of the
    leftmost match, [None] when there is no match. *)
Fixpoint match_challenge (s : string) : option string :=
  if starts_with "/challenges/" s && truthy (segment (drop 12 s))
  then Some (segment (drop 12 s))
  else match s with
       | EmptyString => None
       | String _ r => match_challenge r
       end.

Definition extractProblemSlug (pathname : string) : string :=
  match match_challenge pathname with
  | Some challengeSlug => if truthy challengeSlug then challengeSlug else "unknown-problem"
  | None => "unknown-problem"
  end.

(** [s.replace(/\s+/g, '-')] *)
Fixpoint replace_space_runs (in_run : bool) (s : string) : string :=
  match s with
  | EmptyString => EmptyString
  | String c r =>
      if is_whitespace c
      then if in_run then replace_space_runs true r
           else String "-" (replace_space_runs true r)
      else String c (replace_space_runs false r)
  end.

(** [a || b || ''] *)
Definition first_truthy (a b : option string) : string :=
  if GitHubAPI.truthy_opt a then toString_opt a
  else if GitHubAPI.truthy_opt b then toString_opt b
  else EmptyString.

Definition extractCategory (submissionData : option SubmissionData) : string :=
  match submissionData with
  | Some data =>
      match track data with
      | Some track =>
          let category :=
            replace_space_runs false
              (toLowerCase (first_truthy (track_name track) (name track))) in
          if truthy category then category else "misc"
      | None => "misc"
      end
  | None => "misc"
  end.

End Poll.

(** Measures used in the further statements. *)
Module Shape.
Import JS Async.

Definition writes (e : Env) : list Net.Request := filter Net.is_write (requests e).

Definition request_token (rq : Net.Request) : string :=
  match rq with
  | Net.GetUser t => t
  | Net.GetContents t _ _ _ _ => t
  | Net.PutContents t _ _ _ _ => t
  end.

Definition hyphen (c : ascii) : bool := Ascii.eqb c "-".

(** No two hyphens in a row. *)
Fixpoint no_double_hyphen (s : string) : bool :=
  match s with
  | String c ((String d _) as r) => negb (hyphen c && hyphen d) && no_double_hyphen r
  | _ => true
  end.

Fixpoint last_char (s : string) : option ascii :=
  match s with
  | EmptyString => None
  | String c EmptyString => Some c
  | String _ r => last_char r
  end.

Definition first_char (s : string) : option ascii :=
  match s with
  | EmptyString => None
  | String c _ => Some c
  end.

Definition starts_with_hyphen (s : string) : bool :=
  match first_char s with
  | Some c => hyphen c
  | None => false
  end.

Definition ends_with_hyphen (s : string) : bool :=
  match last_char s with
  | Some c => hyphen c
  | None => false
  end.

(** A name as [sanitize] leaves it: lower-case letters, digits and single
    hyphens, with no hyphen at either end. *)
Definition tidy (s : string) : bool :=
  Observe.all_of Observe.path_safe s
  && no_double_hyphen s
  && negb (starts_with_hyphen s)
  && negb (ends_with_hyphen s).

(** The revision sent with a write, given what the read returned. *)
Definition claimed_revision (sha : option string) : option string :=
  match sha with
  | Some s => if truthy s then Some s else None
  | None => None
  end.

Definition read_request (api : GitHubAPI.Api) (owner repo path branch : string)
  : Net.Request :=
  Net.GetContents (GitHubAPI.token api) owner repo path branch.

Definition write_request (api : GitHubAPI.Api)
    (owner repo path content message branch : string) (sha : option string)
  : Net.Request :=
  Net.PutContents (GitHubAPI.token api) owner repo path
    {| Net.message := message; Net.content := content;
       Net.branch := branch; Net.sha := sha |}.

(** [errorData.message || response.statusText] *)
Definition error_detail (resp : Net.Response) : string :=
  match Net.json resp with
  | Some d =>
      match Net.data_message d with
      | Some m => if truthy m then m else Net.statusText resp
      | None => Net.statusText resp
      end
  | None => Net.statusText resp
  end.

(** The record [handlePushToGitHub] appends to the history. *)
Definition history_record (data : Background.Submission)
    (githubUrl : option string) (filePath : string) : Store.HistoryRecord :=
  {| Store.problemSlug := Background.problemSlug data;
     Store.problemTitle := Background.problemTitle data;
     Store.language := Background.language data;
     Store.category := Background.category data;
     Store.timestamp := Background.timestamp data;
     Store.githubUrl := githubUrl;
     Store.filePath := filePath |}.

(** The content, the commit message and the branch of the write that
    [handlePushToGitHub] asks for. *)
Definition formatted_code (data : Background.Submission) : string :=
  GitHubAPI.formatFileContent (Background.code data)
    {| GitHubAPI.meta_problemTitle := Background.problemTitle data;
       GitHubAPI.meta_language := Background.language data;
       GitHubAPI.meta_timestamp := Background.timestamp data;
       GitHubAPI.meta_url := Background.url data |}.

Definition commit_message (data : Background.Submission) : string :=
  "Add solution for " ++ Background.problemTitle data
  ++ " (" ++ Background.language data ++ ")".

Definition target_branch (st : Store.Storage) : string :=
  Background.or_default (Store.branch st) "main".

Definition stored_token (st : Store.Storage) : string :=
  toString_opt (Store.github_token st).

(** The two parts of the stored repository identifier, when both are there
    and non-empty. *)
Definition repository_parts (st : Store.Storage) : option (string * string) :=
  let parts := split "/" (toString_opt (Store.github_repo st)) in
  match nth_error parts 0, nth_error parts 1 with
  | Some owner, Some repo =>
      if truthy owner && truthy repo then Some (owner, repo) else None
  | _, _ => None
  end.

Definition slash_first (s : string) : bool :=
  match s with
  | String c _ => Ascii.eqb c "/"
  | EmptyString => false
  end.

(** One call of [addSubmissionRecord] after the other. *)
Fixpoint append_all (Date : string -> option Z) (records : list Store.HistoryRecord)
  : M unit :=
  match records with
  | [] => ret tt
  | record :: rest =>
      bind (StorageManager.addSubmissionRecord Date record)
           (fun _ => append_all Date rest)
  end.

(** No record of the list is a duplicate of another one. *)
Fixpoint separated (Date : string -> option Z) (l : list Store.HistoryRecord) : bool :=
  match l with
  | [] => true
  | x :: rest =>
      negb (existsb (fun y => StorageManager.duplicate_of Date x y) rest)
      && separated Date rest
  end.

Definition no_slash (s : string) : bool :=
  Observe.all_of (fun c => negb (Ascii.eqb c "/")) s.

(** No slash, and not empty: one segment of a path. *)
Definition is_segment (s : string) : bool := truthy s && no_slash s.

(** A name that stands for itself as one segment of the path of a URL:
    letters, digits, "-", "_" and ".", not empty, and neither "." nor ".."
    (which are resolved away when a URL is read).  The code puts the owner
    and the name of the repository into the URL as they are. *)
Definition url_name (s : string) : bool :=
  truthy s && Options.all_repo_chars s
  && negb (String.eqb s ".") && negb (String.eqb s "..").

(** The text of a member that is present and not empty. *)
Definition filled (member : option string) : option string :=
  match member with
  | Some (String c r) => Some (String c r)
  | _ => None
  end.

(** The label of the track in a fetched submission record: the track's
    [track_name], or its [name] when [track_name] is missing or empty;
    [None] when the record or its track is missing, or when neither name is
    filled in. *)
Definition track_label (submissionData : option Poll.SubmissionData) : option string :=
  match submissionData with
  | Some data =>
      match Poll.track data with
      | Some track =>
          match filled (Poll.track_name track) with
          | Some label => Some label
          | None => filled (Poll.name track)
          end
      | None => None
      end
  | None => None
  end.

End Shape.

(** Further concrete inputs. *)
Module Scenes.

(** A remote on which another writer creates the file between the read and
    the write: every read finds nothing, every write is answered with a
    conflict. *)
Definition overtaken : Net.Remote :=
  fun _ rq =>
    if Net.is_write rq then FileStore.conflict
    else FileStore.respond 404 "Not Found" (FileStore.error_payload "Not Found").

(** Settings whose repository identifier has no slash. *)
Definition bare_repository : Async.Env :=
  {| Async.storage :=
       {| Store.github_token := Some "ghp_token";
          Store.github_repo := Some "solutions";
          Store.branch := None;
          Store.file_structure := None;
          Store.submissions := None |};
     Async.requests := []; Async.notifications := true |}.

(** The sample settings in an extension without [chrome.notifications]. *)
Definition without_notifications : Async.Env :=
  {| Async.storage := Samples.storage;
     Async.requests := [];
     Async.notifications := false |}.

(** A store that holds a file on a branch whose name does not survive the
    query of a read. *)
Definition feature_service : FileStore.Service :=
  {| FileStore.accepted_token := "ghp_token";
     FileStore.files :=
       [ {| FileStore.owner := "alice"; FileStore.repo := "solutions";
            FileStore.branch := "feat#1";
            FileStore.path := "hackerrank/algorithms/two-sum.py";
            FileStore.revision := "rev0"; FileStore.text := "old text" |} ];
     FileStore.writes := 0;
     FileStore.ref_of_query := FileStore.query_value |}.

Definition pushed_url : string :=
  "https://github.com/alice/solutions/blob/main/hackerrank/algorithms/simple-array-sum-py".

(** What the synchronisation of [Samples.submission] returns on
    [Samples.service]. *)
Definition pushed_result : GitHubAPI.PushResult :=
  {| GitHubAPI.success := true;
     GitHubAPI.commit := Some "rev1";
     GitHubAPI.content := {| Net.html_url := Some pushed_url |};
     GitHubAPI.html_url := Some pushed_url |}.

End Scenes.

(** * Properties *)

(** ** Facts about the string primitives *)

Section StringFacts.
Import JS Observe.

Ltac each_code_unit c :=
  destruct c as [[|] [|] [|] [|] [|] [|] [|] [|]]; vm_compute; try reflexivity; try discriminate.

Lemma lower_char_idempotent (c : ascii) : lower_char (lower_char c) = lower_char c.
Proof. each_code_unit c. Qed.

Lemma lower_char_whitespace (c : ascii) : is_whitespace (lower_char c) = is_whitespace c.
Proof. each_code_unit c. Qed.

Lemma whitespace_not_digit (c : ascii) : is_whitespace c = true -> is_digit c = false.
Proof. each_code_unit c. Qed.

Lemma toLowerCase_idempotent (s : string) : toLowerCase (toLowerCase s) = toLowerCase s.
Proof.
  induction s as [|c r IH]; simpl; [reflexivity|].
  now rewrite lower_char_idempotent, IH.
Qed.

Lemma toLowerCase_trimStart (s : string) :
  toLowerCase (trimStart s) = trimStart (toLowerCase s).
Proof.
  induction s as [|c r IH]; simpl; [reflexivity|].
  rewrite lower_char_whitespace.
  destruct (is_whitespace c); [exact IH | reflexivity].
Qed.

Lemma toLowerCase_trimEnd (s : string) :
  toLowerCase (trimEnd s) = trimEnd (toLowerCase s).
Proof.
  induction s as [|c r IH]; simpl; [reflexivity|].
  rewrite <- IH, lower_char_whitespace.
  destruct (trimEnd r) as [|d r']; simpl.
  - destruct (is_whitespace c); reflexivity.
  - reflexivity.
Qed.

Lemma toLowerCase_trim (s : string) : toLowerCase (trim s) = trim (toLowerCase s).
Proof. unfold trim. now rewrite toLowerCase_trimEnd, toLowerCase_trimStart. Qed.

Lemma trimStart_no_leading_space (s : string) : no_leading_space (trimStart s) = true.
Proof.
  induction s as [|c r IH]; simpl; [reflexivity|].
  destruct (is_whitespace c) eqn:W; [exact IH | simpl; now rewrite W].
Qed.

Lemma trimStart_fixed (s : string) : no_leading_space s = true -> trimStart s = s.
Proof.
  destruct s as [|c r]; simpl; [reflexivity|].
  now destruct (is_whitespace c).
Qed.

Lemma trimEnd_no_leading_space (s : string) :
  no_leading_space s = true -> no_leading_space (trimEnd s) = true.
Proof.
  destruct s as [|c r]; simpl; [reflexivity|].
  intros W. destruct (trimEnd r); simpl.
  - destruct (is_whitespace c) eqn:E; [discriminate | simpl; now rewrite E].
  - exact W.
Qed.

Lemma trimEnd_cons (c : ascii) (r : string) :
  trimEnd (String c r) =
  match trimEnd r with
  | EmptyString => if is_whitespace c then EmptyString else String c EmptyString
  | String d r' => String c (String d r')
  end.
Proof. reflexivity. Qed.

Lemma trimEnd_idempotent (s : string) : trimEnd (trimEnd s) = trimEnd s.
Proof.
  induction s as [|c r IH]; [reflexivity|].
  rewrite trimEnd_cons.
  destruct (trimEnd r) as [|d r'] eqn:E.
  - destruct (is_whitespace c) eqn:W; [reflexivity|].
    rewrite trimEnd_cons. simpl. now rewrite W.
  - rewrite trimEnd_cons, IH. reflexivity.
Qed.

Lemma trim_idempotent (s : string) : trim (trim s) = trim s.
Proof.
  unfold trim.
  rewrite (trimStart_fixed (trimEnd (trimStart s))).
  - apply trimEnd_idempotent.
  - apply trimEnd_no_leading_space, trimStart_no_leading_space.
Qed.

Lemma normal_form_idempotent (s : string) : normal_form (normal_form s) = normal_form s.
Proof.
  unfold normal_form.
  now rewrite toLowerCase_trim, toLowerCase_idempotent, trim_idempotent.
Qed.

Lemma digits_of_trimStart (s : string) : digits_of (trimStart s) = digits_of s.
Proof.
  induction s as [|c r IH]; simpl; [reflexivity|].
  destruct (is_whitespace c) eqn:W; [|reflexivity].
  now rewrite (whitespace_not_digit c W).
Qed.

Lemma digits_of_trimEnd (s : string) : digits_of (trimEnd s) = digits_of s.
Proof.
  induction s as [|c r IH]; simpl; [reflexivity|].
  rewrite <- IH.
  destruct (trimEnd r) as [|d r']; [|reflexivity].
  destruct (is_whitespace c) eqn:W; [|reflexivity].
  now rewrite (whitespace_not_digit c W).
Qed.

Lemma digits_of_trim (s : string) : digits_of (trim s) = digits_of s.
Proof. unfold trim. now rewrite digits_of_trimEnd, digits_of_trimStart. Qed.

Lemma starts_with_toLowerCase (pat s : string) :
  starts_with pat s = true -> starts_with (toLowerCase pat) (toLowerCase s) = true.
Proof.
  revert s. induction pat as [|a pat IH]; intros [|b s]; simpl; try easy.
  intros H. apply andb_true_iff in H as [Hab Hrest].
  apply Ascii.eqb_eq in Hab. subst b.
  now rewrite Ascii.eqb_refl, (IH s Hrest).
Qed.

Lemma includes_toLowerCase (s kw : string) :
  includes s kw = true -> includes (toLowerCase s) (toLowerCase kw) = true.
Proof.
  induction s as [|c r IH]; simpl; intros H; apply orb_true_iff in H as [H|H].
  - apply (starts_with_toLowerCase kw "") in H. simpl in H. now rewrite H.
  - discriminate.
  - apply (starts_with_toLowerCase kw (String c r)) in H. simpl in H. now rewrite H.
  - rewrite (IH H). apply orb_true_r.
Qed.

End StringFacts.

(** ** Verdict classification ([content.js]) *)

Section Verdict.
Import JS Content.

Lemma rejected_keyword_lower (kw : string) :
  In kw rejectedKeywords -> toLowerCase kw = kw.
Proof. simpl. intuition (subst; reflexivity). Qed.

(** C4.  A verdict text that contains a rejection keyword, as it stands or
    once lower-cased, is classified as not accepted, whatever acceptance
    keywords it contains as well. *)
Theorem rejection_takes_precedence (text kw : string) :
  In kw rejectedKeywords ->
  includes text kw = true \/ includes (toLowerCase text) kw = true ->
  isSubmissionAccepted (Some {| textContent := Some text |}) = false.
Proof.
  intros Hkw H.
  assert (Hl : includes (toLowerCase text) kw = true).
  { destruct H as [H|H]; [|exact H].
    apply includes_toLowerCase in H.
    now rewrite (rejected_keyword_lower kw Hkw) in H. }
  unfold isSubmissionAccepted. cbn [textContent].
  assert (E : existsb (fun k => includes (toLowerCase text) k) rejectedKeywords = true).
  { apply existsb_exists. exists kw. split; assumption. }
  now rewrite E.
Qed.

Lemma rejection_takes_precedence_witness :
  existsb (includes (toLowerCase "Accepted, but 2 hidden test cases Failed"))
    acceptedKeywords = true
  /\ isSubmissionAccepted
       (Some {| textContent := Some "Accepted, but 2 hidden test cases Failed" |}) = false.
Proof.
  split; [reflexivity|].
  apply (rejection_takes_precedence _ "failed").
  - simpl. right. right. right. left. reflexivity.
  - right. reflexivity.
Defined.

End Verdict.

(** ** Cleaning of the captured code ([content.js]) *)

Section CleanCode.
Import JS Content Observe.

Lemma cleanCode_without_run (code : string) :
  test_leading_digit_run code = false -> cleanCode code = trim code.
Proof.
  intros H. unfold cleanCode. rewrite H.
  destruct code; reflexivity.
Qed.

(** C7.  The text that starts with the eleven digits 12345678910 followed
    by a shebang line is cleaned to the text from the shebang on; and a text
    that does not start with a run of ten or more digits (in particular one
    whose digits all occur further inside) is only trimmed, so that its
    digits are all kept, in order. *)
Theorem cleanCode_strips_only_leading_run (code : string) :
  (leading_digits code < 10)%nat ->
  cleanCode Samples.numbered_shebang = Samples.cleaned_shebang
  /\ cleanCode code = trim code
  /\ digits_of (cleanCode code) = digits_of code.
Proof.
  intros H.
  assert (T : test_leading_digit_run code = false).
  { unfold test_leading_digit_run. apply Nat.leb_gt. exact H. }
  split; [reflexivity|].
  rewrite (cleanCode_without_run code T).
  split; [reflexivity | apply digits_of_trim].
Qed.

Lemma cleanCode_strips_only_leading_run_witness :
  cleanCode Samples.numbered_shebang = Samples.cleaned_shebang
  /\ cleanCode "  total = 1234567890123 + x1  " = "total = 1234567890123 + x1"
  /\ digits_of (cleanCode "  total = 1234567890123 + x1  ")
     = digits_of "  total = 1234567890123 + x1  ".
Proof.
  apply (cleanCode_strips_only_leading_run "  total = 1234567890123 + x1  ").
  simpl. lia.
Defined.

End CleanCode.

(** ** Language normalisation (both content scripts) *)

Section Languages.
Import JS Observe.

Lemma own_property_In {V : Type} (table : list (string * V)) (k : string) (v : V) :
  own_property table k = Some v -> In (k, v) table.
Proof.
  induction table as [|[k' v'] rest IH]; simpl; [discriminate|].
  destruct (String.eqb_spec k' k) as [->|_].
  - intros [= ->]. now left.
  - intros H. right. now apply IH.
Qed.

Lemma get_or_missing (table : list (string * string)) (k d : string) :
  own_property table k = None -> inherited k = false -> get_or table k d = VString d.
Proof. intros H I. unfold get_or, get. now rewrite H, I. Qed.

Lemma get_or_own (table : list (string * string)) (k v d : string) :
  own_property table k = Some v -> truthy v = true -> get_or table k d = VString v.
Proof. intros H T. unfold get_or, get. now rewrite H, T. Qed.

Lemma not_listed (k : string) (but : list string) :
  ~ In k but -> existsb (String.eqb k) but = false.
Proof.
  intros H. destruct (existsb (String.eqb k) but) eqn:E; [|reflexivity].
  apply existsb_exists in E as [x [Hx Hk]].
  apply String.eqb_eq in Hk. subst x. contradiction.
Qed.

(** What a lookup returns under a closed table is a string that the lookup
    maps to itself. *)
Lemma lookup_fixed_point (table : list (string * string)) (but : list string) (s : string) :
  closed_table but table = true ->
  inherited (normal_form s) = false ->
  ~ In (normal_form s) but ->
  exists v, get_or table (normal_form s) (normal_form s) = VString v
            /\ get_or table (normal_form v) (normal_form v) = VString v.
Proof.
  intros C I B.
  destruct (own_property table (normal_form s)) as [v|] eqn:E.
  - apply own_property_In in E as Hin.
    unfold closed_table in C. rewrite forallb_forall in C.
    specialize (C _ Hin). cbn [fst snd] in C.
    rewrite (not_listed _ _ B) in C. cbn [orb] in C.
    apply andb_true_iff in C as [C N]. apply andb_true_iff in C as [C T].
    apply String.eqb_eq in N.
    destruct (own_property table v) as [v'|] eqn:E'; [|discriminate].
    apply String.eqb_eq in C. subst v'.
    exists v. split.
    + now apply get_or_own.
    + rewrite N. now apply get_or_own.
  - exists (normal_form s). rewrite normal_form_idempotent.
    split; now apply get_or_missing.
Qed.

Lemma content_table_closed : closed_table [] Content.languageMap = true.
Proof. vm_compute. reflexivity. Qed.

Lemma api_table_closed : closed_table ["python2"] ContentApi.languageMap = true.
Proof. vm_compute. reflexivity. Qed.

Lemma content_normalizeLanguage_normal_form (s : string) :
  Content.normalizeLanguage s = Content.normalizeLanguage (normal_form s).
Proof.
  unfold Content.normalizeLanguage.
  change (trim (toLowerCase (normal_form s))) with (normal_form (normal_form s)).
  now rewrite normal_form_idempotent.
Qed.

Lemma api_normalizeLanguage_normal_form (s : string) :
  ContentApi.normalizeLanguage s = ContentApi.normalizeLanguage (normal_form s).
Proof.
  unfold ContentApi.normalizeLanguage.
  change (trim (toLowerCase (normal_form s))) with (normal_form (normal_form s)).
  now rewrite normal_form_idempotent.
Qed.

(** C8, as the code has it.  The result depends on the lower-cased, trimmed
    input only; "py", "python" and "python3" are mapped to "python3", while
    "python2" is returned unchanged by [content.js] and mapped to "python"
    by the API based script; an input whose lower-cased, trimmed form is
    neither a key of the alias table nor the name of a member of
    [Object.prototype] is returned lower-cased and trimmed. *)
Theorem normalizeLanguage_alias_table (s : string) :
  inherited (normal_form s) = false ->
  (forall a, In a ["py"; "python"; "python3"] ->
             Content.normalizeLanguage a = VString "python3"
             /\ ContentApi.normalizeLanguage a = VString "python3")
  /\ Content.normalizeLanguage "python2" = VString "python2"
  /\ ContentApi.normalizeLanguage "python2" = VString "python"
  /\ Content.normalizeLanguage s = Content.normalizeLanguage (normal_form s)
  /\ ContentApi.normalizeLanguage s = ContentApi.normalizeLanguage (normal_form s)
  /\ (own_property Content.languageMap (normal_form s) = None ->
      Content.normalizeLanguage s = VString (normal_form s))
  /\ (own_property ContentApi.languageMap (normal_form s) = None ->
      ContentApi.normalizeLanguage s = VString (normal_form s)).
Proof.
  intros I.
  split.
  { intros a Ha. simpl in Ha. intuition (subst; reflexivity). }
  split; [reflexivity|]. split; [reflexivity|].
  split; [apply content_normalizeLanguage_normal_form|].
  split; [apply api_normalizeLanguage_normal_form|].
  split; intros H.
  - unfold Content.normalizeLanguage. now apply get_or_missing.
  - unfold ContentApi.normalizeLanguage. now apply get_or_missing.
Qed.

Lemma normalizeLanguage_alias_table_witness :
  Content.normalizeLanguage "  Haskell " = VString "haskell"
  /\ ContentApi.normalizeLanguage "  Haskell " = VString "haskell".
Proof.
  assert (I : inherited (normal_form "  Haskell ") = false) by reflexivity.
  destruct (normalizeLanguage_alias_table "  Haskell " I)
    as (_ & _ & _ & _ & _ & Hc & Ha).
  split; [apply Hc | apply Ha]; reflexivity.
Defined.

(** C8 as stated fails: "python2" is not mapped to the identifier the other
    Python aliases are mapped to, in either script; and "constructor", which
    is not a key of the alias table, is not returned unchanged. *)
Lemma normalizeLanguage_python2_differs :
  Content.normalizeLanguage "python2" <> Content.normalizeLanguage "py"
  /\ ContentApi.normalizeLanguage "python2" <> ContentApi.normalizeLanguage "py"
  /\ own_property Content.languageMap "constructor" = None
  /\ Content.normalizeLanguage "constructor" <> VString "constructor".
Proof. repeat split; vm_compute; congruence. Qed.

(** C10, as the code has it.  On every input whose lower-cased, trimmed
    form is not the name of a member of [Object.prototype], a second
    application of [normalizeLanguage] returns what the first returned in
    [content.js]; in the API based script the same holds unless that form
    is "python2". *)
Theorem normalizeLanguage_idempotent (s : string) :
  inherited (normal_form s) = false ->
  Content.normalizeLanguage_value (Content.normalizeLanguage s)
  = Ok (Content.normalizeLanguage s)
  /\ (normal_form s <> "python2" ->
      ContentApi.normalizeLanguage_value (ContentApi.normalizeLanguage s)
      = Ok (ContentApi.normalizeLanguage s)).
Proof.
  intros I. split.
  - destruct (lookup_fixed_point Content.languageMap [] s content_table_closed I)
      as [v [Hv Hfix]]; [intros []|].
    unfold Content.normalizeLanguage.
    change (trim (toLowerCase s)) with (normal_form s).
    rewrite Hv. simpl. f_equal. exact Hfix.
  - intros N.
    destruct (lookup_fixed_point ContentApi.languageMap ["python2"] s api_table_closed I)
      as [v [Hv Hfix]].
    { intros [H|[]]. apply N. now symmetry. }
    unfold ContentApi.normalizeLanguage.
    change (trim (toLowerCase s)) with (normal_form s).
    rewrite Hv. simpl. f_equal. exact Hfix.
Qed.

Lemma normalizeLanguage_idempotent_witness :
  Content.normalizeLanguage_value (Content.normalizeLanguage " C++ ")
  = Ok (Content.normalizeLanguage " C++ ")
  /\ ContentApi.normalizeLanguage_value (ContentApi.normalizeLanguage " C++ ")
     = Ok (ContentApi.normalizeLanguage " C++ ").
Proof.
  assert (I : inherited (normal_form " C++ ") = false) by reflexivity.
  destruct (normalizeLanguage_idempotent " C++ " I) as [Hc Ha].
  split; [exact Hc | apply Ha; vm_compute; discriminate].
Defined.

(** C10 as stated fails in the API based script: "python2" is mapped to
    "python", and "python" to "python3". *)
Lemma normalizeLanguage_python2_not_fixed :
  ContentApi.normalizeLanguage "python2" = VString "python"
  /\ ContentApi.normalizeLanguage_value (ContentApi.normalizeLanguage "python2")
     = Ok (VString "python3")
  /\ ContentApi.normalizeLanguage_value (ContentApi.normalizeLanguage "python2")
     <> Ok (ContentApi.normalizeLanguage "python2").
Proof. repeat split; vm_compute; congruence. Qed.

End Languages.

(** ** Target paths ([generateFilePath] and its caller) *)

Section Paths.
Import JS.

Lemma replace_non_alnum_runs_safe (in_run : bool) (s : string) :
  Observe.all_of Observe.path_safe (replace_non_alnum_runs in_run s) = true.
Proof.
  revert in_run. induction s as [|c r IH]; intros in_run; simpl; [reflexivity|].
  destruct (is_lower_alnum c) eqn:A.
  - simpl. unfold Observe.path_safe at 1. now rewrite A, IH.
  - destruct in_run; simpl; now rewrite IH.
Qed.

Lemma strip_last_hyphen_safe (s : string) :
  Observe.all_of Observe.path_safe s = true ->
  Observe.all_of Observe.path_safe (strip_last_hyphen s) = true.
Proof.
  induction s as [|c r IH]; [reflexivity|].
  intros H. cbn [Observe.all_of] in H. apply andb_true_iff in H as [Hc Hr].
  destruct r as [|d r'].
  - cbn [strip_last_hyphen]. destruct (Ascii.eqb c "-"); [reflexivity|].
    cbn [Observe.all_of]. now rewrite Hc.
  - change (strip_last_hyphen (String c (String d r')))
      with (String c (strip_last_hyphen (String d r'))).
    cbn [Observe.all_of]. now rewrite Hc, (IH Hr).
Qed.

(** A sanitized name is made of lower-case letters, digits and hyphens. *)
Lemma sanitize_safe (text : string) :
  Observe.all_of Observe.path_safe (GitHubAPI.sanitize text) = true.
Proof.
  unfold GitHubAPI.sanitize, strip_edge_hyphens.
  pose proof (replace_non_alnum_runs_safe false (toLowerCase text)) as H.
  destruct (replace_non_alnum_runs false (toLowerCase text)) as [|c r]; [reflexivity|].
  destruct (Ascii.eqb c "-").
  - cbn [Observe.all_of] in H. apply andb_true_iff in H as [_ Hr].
    now apply strip_last_hyphen_safe.
  - now apply strip_last_hyphen_safe.
Qed.

(** C2, on the code.  For the slug "simple-array-sum", the language
    "python3" and the category "algorithms" the extension is "py" and the
    file name "simple-array-sum.py", but the sanitization of the file name
    turns its dot into a hyphen: under the default template the path is
    "hackerrank/algorithms/simple-array-sum-py". *)
Theorem simple_array_sum_path (code title time url : string) :
  let data :=
    {| Background.code := code; Background.language := "python3";
       Background.problemTitle := title;
       Background.problemSlug := "simple-array-sum";
       Background.category := "algorithms";
       Background.timestamp := time; Background.url := url |} in
  Background.getFileExtension "python3" = VString "py"
  /\ GitHubAPI.sanitize "simple-array-sum.py" = "simple-array-sum-py"
  /\ Background.filePath_of None data
     = Ok "hackerrank/algorithms/simple-array-sum-py"
  /\ Background.filePath_of (Some "hackerrank/{category}/{filename}") data
     = Ok "hackerrank/algorithms/simple-array-sum-py"
  /\ Background.filePath_of None data
     <> Ok "hackerrank/algorithms/simple-array-sum.py".
Proof. repeat split; try reflexivity. vm_compute. discriminate. Qed.

(** C5, as the code has it.  Two messages that agree on slug, language and
    category are given the same path under the same stored template; no
    other member of the message and no other setting (the branch among
    them) is read. *)
Theorem filePath_determined (c1 c2 : StorageManager.Config)
    (d1 d2 : Background.Submission) :
  StorageManager.file_structure c1 = StorageManager.file_structure c2 ->
  Background.problemSlug d1 = Background.problemSlug d2 ->
  Background.language d1 = Background.language d2 ->
  Background.category d1 = Background.category d2 ->
  Background.filePath_of (StorageManager.file_structure c1) d1
  = Background.filePath_of (StorageManager.file_structure c2) d2.
Proof.
  intros T S L C. unfold Background.filePath_of.
  now rewrite T, S, L, C.
Qed.

Lemma filePath_determined_witness :
  Background.filePath_of None Samples.submission
  = Background.filePath_of None
      {| Background.code := "n = int(input())";
         Background.language := "python3";
         Background.problemTitle := "Simple Array Sum (retry)";
         Background.problemSlug := "simple-array-sum";
         Background.category := "algorithms";
         Background.timestamp := "2024-03-05T10:00:00.000Z";
         Background.url := "https://www.hackerrank.com/challenges/simple-array-sum/problem?isFullScreen=true" |}.
Proof.
  apply (filePath_determined
           {| StorageManager.github_token := Some "ghp_token";
              StorageManager.github_repo := Some "alice/solutions";
              StorageManager.branch := Some "main";
              StorageManager.file_structure := None |}
           {| StorageManager.github_token := Some "ghp_token";
              StorageManager.github_repo := Some "alice/solutions";
              StorageManager.branch := Some "archive";
              StorageManager.file_structure := None |});
    reflexivity.
Defined.

(** C5 as stated fails: two messages with the same slug and language but
    different categories get different paths under the default template. *)
Lemma filePath_depends_on_category :
  Background.problemSlug Samples.submission = Background.problemSlug Samples.submission_misc
  /\ Background.language Samples.submission = Background.language Samples.submission_misc
  /\ Background.filePath_of None Samples.submission
     = Ok "hackerrank/algorithms/simple-array-sum-py"
  /\ Background.filePath_of None Samples.submission_misc
     = Ok "hackerrank/misc/simple-array-sum-py"
  /\ Background.filePath_of None Samples.submission
     <> Background.filePath_of None Samples.submission_misc.
Proof. repeat split; try reflexivity. vm_compute. discriminate. Qed.

(** C6, as the code has it.  With the slug "Two Sum!!", the language
    "python3" and a file name that is a string, whatever it is and whatever
    the category, the template "solutions/{language}/{slug}" gives
    "solutions/python3/two-sum". *)
Theorem generateFilePath_two_sum (category : option string) (filename : string) :
  GitHubAPI.sanitize "Two Sum!!" = "two-sum"
  /\ GitHubAPI.generateFilePath "solutions/{language}/{slug}"
       {| GitHubAPI.category := category;
          GitHubAPI.filename := Some filename;
          GitHubAPI.slug := Some "Two Sum!!";
          GitHubAPI.language := Some "python3" |}
     = Ok "solutions/python3/two-sum".
Proof. split; reflexivity. Qed.

(** C6 as stated fails: called with the slug and the language alone, the
    function reads [toLowerCase] of a file name that is not there. *)
Lemma generateFilePath_needs_filename :
  GitHubAPI.generateFilePath "solutions/{language}/{slug}"
    {| GitHubAPI.category := None;
       GitHubAPI.filename := None;
       GitHubAPI.slug := Some "Two Sum!!";
       GitHubAPI.language := Some "python3" |}
  = Throw GitHubAPI.undefined_toLowerCase
  /\ GitHubAPI.generateFilePath "solutions/{language}/{slug}"
       {| GitHubAPI.category := None;
          GitHubAPI.filename := None;
          GitHubAPI.slug := Some "Two Sum!!";
          GitHubAPI.language := Some "python3" |}
     <> Ok "solutions/python3/two-sum".
Proof. split; [reflexivity | discriminate]. Qed.

End Paths.

(** ** The submission history ([storage.js]) *)

Section Ledger.
Import JS Async Observe.
Local Open Scope async_scope.

Variable Date : string -> option Z.

Lemma addSubmissionRecord_ledger (record : Store.HistoryRecord) (env : Env) :
  fst (StorageManager.addSubmissionRecord Date record env) = Ok tt
  /\ requests (snd (StorageManager.addSubmissionRecord Date record env)) = requests env
  /\ ledger (snd (StorageManager.addSubmissionRecord Date record env))
     = if existsb (StorageManager.duplicate_of Date record) (ledger env)
       then ledger env
       else (ledger env ++ [record])%list.
Proof.
  unfold StorageManager.addSubmissionRecord, bind, get_storage, ledger.
  destruct (existsb _ _); simpl; repeat split; reflexivity.
Qed.

Lemma append_twice (r1 r2 : Store.HistoryRecord) (env : Env) :
  ledger env = [] ->
  ledger (snd ((StorageManager.addSubmissionRecord Date r1 ;;;
                StorageManager.addSubmissionRecord Date r2) env))
  = if StorageManager.duplicate_of Date r2 r1 then [r1] else [r1; r2].
Proof.
  intros E. unfold bind at 1.
  destruct (addSubmissionRecord_ledger r1 env) as (H1 & _ & L1).
  destruct (StorageManager.addSubmissionRecord Date r1 env) as [res env1].
  simpl in H1, L1. subst res.
  destruct (addSubmissionRecord_ledger r2 env1) as (_ & _ & L2).
  rewrite L2, L1, E. simpl. rewrite orb_false_r.
  destruct (StorageManager.duplicate_of Date r2 r1); reflexivity.
Qed.

(** C3, as the code has it.  Two records with the same slug and language
    and valid timestamps, appended to an empty history: when the timestamps
    are less than 60 seconds apart the second append changes nothing and
    one record is stored; when they are 60 seconds or more apart both are
    stored. *)
Theorem dedup_window (r1 r2 : Store.HistoryRecord) (env : Env) (t1 t2 : Z) :
  ledger env = [] ->
  Store.problemSlug r1 = Store.problemSlug r2 ->
  Store.language r1 = Store.language r2 ->
  Date (Store.timestamp r1) = Some t1 ->
  Date (Store.timestamp r2) = Some t2 ->
  let env' := snd ((StorageManager.addSubmissionRecord Date r1 ;;;
                    StorageManager.addSubmissionRecord Date r2) env) in
  ((Z.abs (t1 - t2) < 60000)%Z -> ledger env' = [r1])
  /\ ((60000 <= Z.abs (t1 - t2))%Z -> ledger env' = [r1; r2]).
Proof.
  intros E S L D1 D2 env'. subst env'.
  rewrite (append_twice r1 r2 env E).
  unfold StorageManager.duplicate_of, StorageManager.within_window.
  rewrite S, L, D1, D2, !String.eqb_refl. simpl.
  split; intros H.
  - apply Z.ltb_lt in H. now rewrite H.
  - apply Z.ltb_ge in H. now rewrite H.
Qed.

End Ledger.

Section LedgerInstances.
Import Async Observe.
Local Open Scope async_scope.

Lemma dedup_window_witness :
  ledger (snd ((StorageManager.addSubmissionRecord IsoDate.time_value
                  (Samples.record_at "2024-01-01T00:00:00.000Z") ;;;
                StorageManager.addSubmissionRecord IsoDate.time_value
                  (Samples.record_at "2024-01-01T00:00:59.999Z")) Samples.env))
  = [Samples.record_at "2024-01-01T00:00:00.000Z"].
Proof.
  apply (dedup_window IsoDate.time_value
           (Samples.record_at "2024-01-01T00:00:00.000Z")
           (Samples.record_at "2024-01-01T00:00:59.999Z")
           Samples.env 1704067200000 1704067259999);
    try reflexivity.
Defined.

(** C3 as stated fails at the boundary: two records with the same slug and
    language whose timestamps are exactly 60 seconds apart are both
    stored. *)
Lemma dedup_window_boundary :
  IsoDate.time_value "2024-01-01T00:00:00.000Z" = Some 1704067200000%Z
  /\ IsoDate.time_value "2024-01-01T00:01:00.000Z" = Some (1704067200000 + 60000)%Z
  /\ ledger (snd ((StorageManager.addSubmissionRecord IsoDate.time_value
                     (Samples.record_at "2024-01-01T00:00:00.000Z") ;;;
                   StorageManager.addSubmissionRecord IsoDate.time_value
                     (Samples.record_at "2024-01-01T00:01:00.000Z")) Samples.env))
     = [ Samples.record_at "2024-01-01T00:00:00.000Z";
         Samples.record_at "2024-01-01T00:01:00.000Z" ].
Proof. repeat split; vm_compute; reflexivity. Qed.

End LedgerInstances.

(** ** Synchronisation ([handlePushToGitHub], [createOrUpdateFile]) *)

Section Sync.
Import JS Async Observe.
Local Open Scope async_scope.

Variable remote : Net.Remote.

Lemma try_catch_rethrow {A} (m : M A) (env : Env) :
  try_catch m (fun error => throw error) env = m env.
Proof. unfold try_catch, throw. destruct (m env) as [[a|x] e']; reflexivity. Qed.

Lemma validateToken_result (api : GitHubAPI.Api) (env : Env) :
  GitHubAPI.validateToken remote api env
  = (Ok match remote (requests env) (Net.GetUser (GitHubAPI.token api)) with
        | Net.Responded r => Net.ok r
        | Net.Rejected _ => false
        end,
     sent env (Net.GetUser (GitHubAPI.token api))).
Proof.
  unfold GitHubAPI.validateToken, try_catch, bind, fetch, ret, sent.
  destruct (remote _ _); reflexivity.
Qed.

(** A write that the remote answers with a status outside 200-299 makes
    [createOrUpdateFile] throw an error that carries the status; it is never
    reported as a success. *)
Lemma createOrUpdateFile_rejected_write (api : GitHubAPI.Api)
    (owner repo path content message branch : string) (env env1 : Env)
    (sha : option string) (resp : Net.Response) :
  GitHubAPI.getFileSha remote api owner repo path branch env = (Ok sha, env1) ->
  remote (requests env1)
    (Net.PutContents (GitHubAPI.token api) owner repo path
       {| Net.message := message; Net.content := content; Net.branch := branch;
          Net.sha := match sha with
                     | Some s => if truthy s then Some s else None
                     | None => None
                     end |})
  = Net.Responded resp ->
  Net.ok resp = false ->
  exists detail,
    fst (GitHubAPI.createOrUpdateFile remote api owner repo path content message branch env)
    = Throw (Error ("GitHub API error: " ++ Z_to_string (Net.status resp) ++ " - " ++ detail)).
Proof.
  intros G P K.
  unfold GitHubAPI.createOrUpdateFile. rewrite try_catch_rethrow.
  unfold bind at 1. rewrite G.
  unfold bind at 1. unfold fetch at 1. rewrite P, K. cbn [negb].
  unfold bind, try_catch, json, ret, throw.
  destruct (Net.json resp) as [d|]; cbn; eexists; reflexivity.
Qed.

Variable Date : string -> option Z.

(** C9.  When the token or the repository is missing from the stored
    configuration, [handlePushToGitHub] throws the configuration error
    without sending any request; when both are stored and the remote does
    not accept the token, it throws the credential error after the identity
    lookup alone.  In both cases no write request has been sent and the
    stored data are unchanged. *)
Theorem handlePushToGitHub_rejects_before_writing
    (data : Background.Submission) (env : Env) :
  configured (storage env) && credential_accepted remote env = false ->
  exists e env',
    Background.handlePushToGitHub remote Date data env = (Throw e, env')
    /\ storage env' = storage env
    /\ filter Net.is_write (requests env') = filter Net.is_write (requests env)
    /\ (configured (storage env) = false ->
        e = Background.not_configured /\ requests env' = requests env)
    /\ (configured (storage env) = true ->
        e = Background.invalid_token
        /\ requests env'
           = (requests env
              ++ [Net.GetUser (toString_opt (Store.github_token (storage env)))])%list).
Proof.
  intros H.
  unfold Background.handlePushToGitHub. rewrite try_catch_rethrow.
  unfold bind at 1.
  unfold StorageManager.getConfig, bind at 1, get_storage, ret.
  cbn [StorageManager.github_token StorageManager.github_repo].
  unfold configured in *.
  destruct (GitHubAPI.truthy_opt (Store.github_token (storage env))) eqn:T;
    [destruct (GitHubAPI.truthy_opt (Store.github_repo (storage env))) eqn:R|].
  - cbn [negb orb andb] in *.
    unfold bind at 1. rewrite validateToken_result.
    cbn [GitHubAPI.token].
    unfold credential_accepted in H. rewrite H. cbn [negb].
    exists Background.invalid_token, (sent env (Net.GetUser (toString_opt (Store.github_token (storage env))))).
    repeat split; try reflexivity; try discriminate.
    unfold sent. cbn [requests]. rewrite filter_app. cbn. apply app_nil_r.
  - cbn [negb orb andb] in *.
    exists Background.not_configured, env.
    repeat split; try reflexivity; discriminate.
  - cbn [negb orb andb] in *.
    exists Background.not_configured, env.
    repeat split; try reflexivity; discriminate.
Qed.

End Sync.

Section SyncOnFileStore.
Import JS Async Observe.
Local Open Scope async_scope.

Lemma handlePushToGitHub_rejects_before_writing_witness :
  fst (Background.handlePushToGitHub (FileStore.remote Samples.service)
         IsoDate.time_value Samples.submission Samples.stale_credential)
  = Throw Background.invalid_token
  /\ requests (snd (Background.handlePushToGitHub (FileStore.remote Samples.service)
                      IsoDate.time_value Samples.submission Samples.stale_credential))
     = [Net.GetUser "ghp_revoked"].
Proof.
  destruct (handlePushToGitHub_rejects_before_writing
              (FileStore.remote Samples.service) IsoDate.time_value
              Samples.submission Samples.stale_credential)
    as (e & env' & Hrun & _ & _ & _ & Hcred); [reflexivity|].
  destruct (Hcred eq_refl) as [He Hreq].
  rewrite Hrun. cbn [fst snd]. rewrite He, Hreq. split; reflexivity.
Defined.

(** The whole synchronisation of the sample submission: the read and the
    write are sent for the path whose dot has become a hyphen. *)
Lemma handlePushToGitHub_sample_requests :
  map request_path
    (requests (snd (Background.handlePushToGitHub (FileStore.remote Samples.service)
                      IsoDate.time_value Samples.submission Samples.env)))
  = [ None;
      Some "hackerrank/algorithms/simple-array-sum-py";
      Some "hackerrank/algorithms/simple-array-sum-py" ].
Proof. vm_compute. reflexivity. Qed.

Lemma after_snoc (init : FileStore.Service) (history : list Net.Request) (rq : Net.Request) :
  FileStore.after init (history ++ [rq])
  = fst (FileStore.step (FileStore.after init history) rq).
Proof. unfold FileStore.after. now rewrite fold_left_app. Qed.

Lemma lookup_store (s : FileStore.Service) (o r b p txt : string) :
  FileStore.lookup (FileStore.store s o r b p txt) o r b p
  = Some {| FileStore.owner := o; FileStore.repo := r; FileStore.branch := b;
            FileStore.path := p;
            FileStore.revision := FileStore.revision_id (S (FileStore.writes s));
            FileStore.text := txt |}.
Proof.
  unfold FileStore.lookup, FileStore.store, FileStore.at_. cbn.
  now rewrite !String.eqb_refl.
Qed.

Lemma step_accepted_token (s : FileStore.Service) (rq : Net.Request) :
  FileStore.accepted_token (fst (FileStore.step s rq)) = FileStore.accepted_token s.
Proof.
  destruct rq; cbn [FileStore.step];
    repeat match goal with
           | |- context [if ?b then _ else _] => destruct b
           | |- context [match ?o with Some _ => _ | None => _ end] => destruct o
           end; reflexivity.
Qed.

Lemma after_accepted_token (init : FileStore.Service) (history : list Net.Request) :
  FileStore.accepted_token (FileStore.after init history) = FileStore.accepted_token init.
Proof.
  unfold FileStore.after. revert init.
  induction history as [|rq h IH]; intros s; [reflexivity|].
  cbn [fold_left]. rewrite IH. apply step_accepted_token.
Qed.

Lemma step_ref_of_query (s : FileStore.Service) (rq : Net.Request) :
  FileStore.ref_of_query (fst (FileStore.step s rq)) = FileStore.ref_of_query s.
Proof.
  destruct rq; cbn [FileStore.step];
    repeat match goal with
           | |- context [if ?b then _ else _] => destruct b
           | |- context [match ?o with Some _ => _ | None => _ end] => destruct o
           end; reflexivity.
Qed.

Lemma after_ref_of_query (init : FileStore.Service) (history : list Net.Request) :
  FileStore.ref_of_query (FileStore.after init history) = FileStore.ref_of_query init.
Proof.
  unfold FileStore.after. revert init.
  induction history as [|rq h IH]; intros s; [reflexivity|].
  cbn [fold_left]. rewrite IH. apply step_ref_of_query.
Qed.

Lemma getFileSha_existing (init : FileStore.Service) (api : GitHubAPI.Api)
    (owner repo path branch : string) (env : Env) (f : FileStore.File) :
  GitHubAPI.token api = FileStore.accepted_token init ->
  FileStore.ref_of_query init branch = branch ->
  FileStore.lookup (FileStore.after init (requests env)) owner repo branch path = Some f ->
  GitHubAPI.getFileSha (FileStore.remote init) api owner repo path branch env
  = (Ok (Some (FileStore.revision f)),
     sent env (Net.GetContents (GitHubAPI.token api) owner repo path branch)).
Proof.
  intros T Q L.
  unfold GitHubAPI.getFileSha. rewrite try_catch_rethrow.
  unfold bind at 1, fetch, FileStore.remote.
  cbn [FileStore.step].
  rewrite after_accepted_token, after_ref_of_query, Q, <- T, String.eqb_refl, L.
  reflexivity.
Qed.

Lemma read_keeps_service (s : FileStore.Service) (t o r p b : string) :
  fst (FileStore.step s (Net.GetContents t o r p b)) = s.
Proof.
  cbn [FileStore.step].
  destruct (String.eqb t (FileStore.accepted_token s)); [|reflexivity].
  destruct (FileStore.lookup s o r (FileStore.ref_of_query s b) p); reflexivity.
Qed.

(** The store refuses a write that claims no revision, or another revision
    than the current one, for a path that has one; nothing is changed. *)
Lemma step_conflict (s : FileStore.Service) (t o r p : string) (body : Net.PutBody)
    (f : FileStore.File) :
  t = FileStore.accepted_token s ->
  FileStore.lookup s o r (Net.branch body) p = Some f ->
  Net.sha body <> Some (FileStore.revision f) ->
  FileStore.step s (Net.PutContents t o r p body) = (s, FileStore.conflict).
Proof.
  intros T L C. cbn [FileStore.step].
  rewrite T, String.eqb_refl, L.
  destruct (Net.sha body) as [claimed|]; [|reflexivity].
  destruct (String.eqb_spec claimed (FileStore.revision f)) as [->|_];
    [now contradiction C | reflexivity].
Qed.

(** C1, as the code has it.  [createOrUpdateFile] takes no revision from its
    caller: it reads the current revision of the path and sends it with the
    write.  Against a compare-and-swap store that accepts the token, for an
    owner and a repository name that stand for themselves in a URL, and for
    a branch whose name the store reads back unchanged from the query of
    the read (the code puts all three into the URL as they are, and only
    the write carries the branch in its body), a call on a path that has a
    (non-empty) revision therefore succeeds: a read and a write that
    carries the current revision are sent, and the path then holds the new
    content.  The store itself answers a write that claims no revision or
    another one with a conflict and changes nothing. *)
Theorem createOrUpdateFile_updates_existing
    (init : FileStore.Service) (api : GitHubAPI.Api)
    (owner repo path content message branch : string) (env : Env)
    (f : FileStore.File) :
  GitHubAPI.token api = FileStore.accepted_token init ->
  Shape.url_name owner = true ->
  Shape.url_name repo = true ->
  FileStore.ref_of_query init branch = branch ->
  FileStore.lookup (FileStore.after init (requests env)) owner repo branch path = Some f ->
  truthy (FileStore.revision f) = true ->
  let read := Net.GetContents (GitHubAPI.token api) owner repo path branch in
  let write := fun claimed =>
    Net.PutContents (GitHubAPI.token api) owner repo path
      {| Net.message := message; Net.content := content;
         Net.branch := branch; Net.sha := claimed |} in
  let out := GitHubAPI.createOrUpdateFile (FileStore.remote init) api
               owner repo path content message branch env in
  (exists result, fst out = Ok result /\ GitHubAPI.success result = true)
  /\ snd out = sent (sent env read) (write (Some (FileStore.revision f)))
  /\ option_map FileStore.text
       (FileStore.lookup (FileStore.after init (requests (snd out)))
          owner repo branch path) = Some content
  /\ (forall claimed, claimed <> Some (FileStore.revision f) ->
        FileStore.step (FileStore.after init (requests env)) (write claimed)
        = (FileStore.after init (requests env), FileStore.conflict)).
Proof.
  intros T _ _ Q L R read write out.
  assert (Hout : out
                 = (Ok {| GitHubAPI.success := true;
                          GitHubAPI.commit :=
                            Some (FileStore.revision_id
                                    (S (FileStore.writes (FileStore.after init (requests env)))));
                          GitHubAPI.content :=
                            {| Net.html_url :=
                                 Some ("https://github.com/" ++ owner ++ "/" ++ repo
                                       ++ "/blob/" ++ branch ++ "/" ++ path) |};
                          GitHubAPI.html_url :=
                            Some ("https://github.com/" ++ owner ++ "/" ++ repo
                                  ++ "/blob/" ++ branch ++ "/" ++ path) |},
                    sent (sent env read) (write (Some (FileStore.revision f))))).
  { subst out. unfold GitHubAPI.createOrUpdateFile. rewrite try_catch_rethrow.
    unfold bind at 1. rewrite (getFileSha_existing init api owner repo path branch env f T Q L).
    rewrite R. fold read. fold (write (Some (FileStore.revision f))).
    unfold bind at 1, fetch at 1, FileStore.remote.
    unfold sent at 1. cbn [requests]. rewrite after_snoc.
    unfold read at 1. rewrite read_keeps_service.
    unfold write at 1. cbn [FileStore.step Net.branch Net.sha Net.content].
    rewrite after_accepted_token, <- T, String.eqb_refl, L, String.eqb_refl.
    reflexivity. }
  rewrite Hout. cbn [fst snd].
  split; [eexists; split; reflexivity|].
  split; [reflexivity|].
  split.
  - unfold sent. cbn [requests]. rewrite !after_snoc.
    unfold read. rewrite read_keeps_service.
    unfold write. cbn [FileStore.step Net.branch Net.sha Net.content].
    rewrite after_accepted_token, <- T, String.eqb_refl, L, String.eqb_refl.
    cbn [fst]. rewrite lookup_store. reflexivity.
  - intros claimed C. unfold write.
    apply (step_conflict _ _ _ _ _ _ f).
    + now rewrite after_accepted_token.
    + exact L.
    + exact C.
Qed.

Lemma createOrUpdateFile_updates_existing_witness :
  (exists result,
     fst (GitHubAPI.createOrUpdateFile (FileStore.remote Samples.service) Samples.api
            "alice" "solutions" "hackerrank/algorithms/two-sum.py"
            "new text" "Add solution for Two Sum (python3)" "main" Samples.env)
     = Ok result /\ GitHubAPI.success result = true)
  /\ option_map FileStore.text
       (FileStore.lookup
          (FileStore.after Samples.service
             (requests
                (snd (GitHubAPI.createOrUpdateFile (FileStore.remote Samples.service)
                        Samples.api "alice" "solutions" "hackerrank/algorithms/two-sum.py"
                        "new text" "Add solution for Two Sum (python3)" "main"
                        Samples.env))))
          "alice" "solutions" "main" "hackerrank/algorithms/two-sum.py")
     = Some "new text".
Proof.
  destruct (createOrUpdateFile_updates_existing Samples.service Samples.api
              "alice" "solutions" "hackerrank/algorithms/two-sum.py"
              "new text" "Add solution for Two Sum (python3)" "main" Samples.env
              {| FileStore.owner := "alice"; FileStore.repo := "solutions";
                 FileStore.branch := "main";
                 FileStore.path := "hackerrank/algorithms/two-sum.py";
                 FileStore.revision := "rev0"; FileStore.text := "old text" |})
    as (Hok & _ & Htext & _); try reflexivity.
  split; [exact Hok | exact Htext].
Defined.

(** C1 as stated fails: the call has no revision argument, and on a path
    that already has a revision it does not fail with a conflict; it
    succeeds and the stored text is replaced. *)
Lemma createOrUpdateFile_overwrites_existing :
  option_map FileStore.revision
    (FileStore.lookup Samples.service
       "alice" "solutions" "main" "hackerrank/algorithms/two-sum.py") = Some "rev0"
  /\ fst (GitHubAPI.createOrUpdateFile (FileStore.remote Samples.service) Samples.api
            "alice" "solutions" "hackerrank/algorithms/two-sum.py"
            "new text" "Add solution for Two Sum (python3)" "main" Samples.env)
     = Ok {| GitHubAPI.success := true;
             GitHubAPI.commit := Some "rev1";
             GitHubAPI.content :=
               {| Net.html_url :=
                    Some "https://github.com/alice/solutions/blob/main/hackerrank/algorithms/two-sum.py" |};
             GitHubAPI.html_url :=
               Some "https://github.com/alice/solutions/blob/main/hackerrank/algorithms/two-sum.py" |}
  /\ option_map FileStore.text
       (FileStore.lookup
          (FileStore.after Samples.service
             (requests
                (snd (GitHubAPI.createOrUpdateFile (FileStore.remote Samples.service)
                        Samples.api "alice" "solutions" "hackerrank/algorithms/two-sum.py"
                        "new text" "Add solution for Two Sum (python3)" "main"
                        Samples.env))))
          "alice" "solutions" "main" "hackerrank/algorithms/two-sum.py")
     = Some "new text".
Proof. repeat split; vm_compute; reflexivity. Qed.

(** The branch matters.  A file on the branch "feat#1" is not found by the
    read, whose query ends at the "#": the store looks on "feat".  The write
    then names the branch "feat#1" in its body and claims no revision, the
    store refuses it, and the call fails with the conflict. *)
Lemma createOrUpdateFile_unreadable_branch :
  FileStore.ref_of_query Scenes.feature_service "feat#1" = "feat"
  /\ GitHubAPI.createOrUpdateFile (FileStore.remote Scenes.feature_service) Samples.api
       "alice" "solutions" "hackerrank/algorithms/two-sum.py"
       "new text" "Add solution for Two Sum (python3)" "feat#1" Samples.env
     = (Throw (Error "GitHub API error: 409 - revision does not match"),
        sent (sent Samples.env
                (Net.GetContents "ghp_token" "alice" "solutions"
                   "hackerrank/algorithms/two-sum.py" "feat#1"))
             (Net.PutContents "ghp_token" "alice" "solutions"
                "hackerrank/algorithms/two-sum.py"
                {| Net.message := "Add solution for Two Sum (python3)";
                   Net.content := "new text";
                   Net.branch := "feat#1"; Net.sha := None |})).
Proof. split; vm_compute; reflexivity. Qed.

End SyncOnFileStore.
(** * Further properties *)

(** ** Splitting a path into segments *)

Section Segments.
Import JS Shape.

Lemma split_cons_segment (a b : string) :
  no_slash a = true ->
  split "/" (a ++ String "/" b) = a :: split "/" b.
Proof.
  induction a as [|c a IH]; intros H; [reflexivity|].
  cbn [no_slash Observe.all_of] in H. apply andb_true_iff in H as [Hc Ha].
  cbn [append split]. apply negb_true_iff in Hc. rewrite Hc.
  now rewrite (IH Ha).
Qed.

Lemma split_segment (a : string) : no_slash a = true -> split "/" a = [a].
Proof.
  induction a as [|c a IH]; intros H; [reflexivity|].
  cbn [no_slash Observe.all_of] in H. apply andb_true_iff in H as [Hc Ha].
  cbn [split]. apply negb_true_iff in Hc. rewrite Hc.
  now rewrite (IH Ha).
Qed.

Lemma segment_stops (a b : string) :
  no_slash a = true -> Poll.segment (a ++ String "/" b) = a.
Proof.
  induction a as [|c a IH]; intros H; [reflexivity|].
  cbn [no_slash Observe.all_of] in H. apply andb_true_iff in H as [Hc Ha].
  cbn [append Poll.segment]. apply negb_true_iff in Hc. rewrite Hc.
  now rewrite (IH Ha).
Qed.

Lemma is_segment_parts (s : string) :
  is_segment s = true -> truthy s = true /\ no_slash s = true.
Proof. unfold is_segment. intros H. now apply andb_true_iff in H. Qed.

Lemma match_challenge_here (s : string) :
  starts_with "/challenges/" s = true ->
  truthy (Poll.segment (drop 12 s)) = true ->
  Poll.match_challenge s = Some (Poll.segment (drop 12 s)).
Proof.
  intros H1 H2. destruct s as [|c r]; [discriminate H1|].
  cbn [Poll.match_challenge]. now rewrite H1, H2.
Qed.

End Segments.

(** ** Reading the problem page address *)

Section Address.
Import JS Shape.

(** X1.  On the address of a problem page, [/challenges/<slug>/problem], the
    page-reading script and the polling script both find the slug, for every
    slug that is one non-empty path segment other than "problem". *)
Theorem extractProblemSlug_of_problem_page (slug : string) :
  is_segment slug = true ->
  slug <> "problem" ->
  Page.extractProblemSlug ("/challenges/" ++ slug ++ "/problem") = Some slug
  /\ Poll.extractProblemSlug ("/challenges/" ++ slug ++ "/problem") = slug.
Proof.
  intros S N. destruct (is_segment_parts slug S) as [T NS]. split.
  - unfold Page.extractProblemSlug.
    change ("/challenges/" ++ slug ++ "/problem")
      with ("" ++ String "/" ("challenges" ++ String "/" (slug ++ String "/" "problem"))).
    rewrite !split_cons_segment by (try reflexivity; exact NS).
    rewrite (split_segment "problem") by reflexivity.
    cbn [filter truthy]. rewrite T.
    replace (Page.index_of ["challenges"; slug; "problem"] "challenges") with 0%Z by reflexivity.
    cbn [Page.length_of List.length Page.at_index nth_error].
    change (Page.at_index ["challenges"; slug; "problem"] (0 + 1)) with (Some slug).
    cbn - [String.eqb truthy]. rewrite T.
    destruct (String.eqb_spec slug "problem") as [E|_]; [contradiction|reflexivity].
  - unfold Poll.extractProblemSlug.
    rewrite (match_challenge_here ("/challenges/" ++ slug ++ "/problem")).
    + cbn [append drop]. rewrite (segment_stops slug "problem" NS). now rewrite T.
    + reflexivity.
    + cbn [append drop]. now rewrite (segment_stops slug "problem" NS).
Qed.

Lemma extractProblemSlug_of_problem_page_witness :
  Page.extractProblemSlug "/challenges/simple-array-sum/problem" = Some "simple-array-sum"
  /\ Poll.extractProblemSlug "/challenges/simple-array-sum/problem" = "simple-array-sum".
Proof.
  apply (extractProblemSlug_of_problem_page "simple-array-sum");
    [reflexivity | discriminate].
Defined.

End Address.

Section AddressShape.
Import JS Shape.

Lemma index_of_range (parts : list string) (x : string) :
  Page.index_of parts x = (-1)%Z
  \/ (0 <= Page.index_of parts x < Page.length_of parts)%Z.
Proof.
  unfold Page.length_of.
  induction parts as [|y rest IH]; [now left|].
  cbn [Page.index_of List.length]. destruct (String.eqb y x).
  - right. lia.
  - destruct IH as [E|R].
    + left. now rewrite E.
    + right. destruct (Page.index_of rest x <? 0)%Z eqn:L; [apply Z.ltb_lt in L|]; lia.
Qed.

Lemma at_index_member (parts : list string) (i : Z) (s : string) :
  Page.at_index parts i = Some s -> In s parts.
Proof.
  unfold Page.at_index. destruct (i <? 0)%Z; [discriminate|].
  apply nth_error_In.
Qed.

Lemma at_index_defined (parts : list string) (i : Z) :
  (0 <= i < Page.length_of parts)%Z -> exists s, Page.at_index parts i = Some s.
Proof.
  unfold Page.at_index, Page.length_of. intros R.
  destruct (i <? 0)%Z eqn:L; [apply Z.ltb_lt in L; lia|].
  destruct (nth_error parts (Z.to_nat i)) as [s|] eqn:E; [now exists s|].
  apply nth_error_None in E. lia.
Qed.

Lemma kept_parts_truthy (pathname s : string) :
  In s (filter truthy (split "/" pathname)) -> truthy s = true.
Proof. intros H. now apply filter_In in H. Qed.

(** X2.  Whatever the pathname, the page-reading script finds a slug that is
    a non-empty string (never [undefined], never the empty string), and a
    category that is a non-empty string. *)
Theorem page_fields_never_empty (pathname : string) :
  (exists slug, Page.extractProblemSlug pathname = Some slug /\ truthy slug = true)
  /\ truthy (Page.extractCategory pathname) = true.
Proof.
  split.
  - unfold Page.extractProblemSlug.
    set (urlParts := filter truthy (split "/" pathname)).
    match goal with
    | |- exists slug, match ?found with Some p => _ | None => ?F end = _ /\ _ =>
        assert (Fallback : exists slug, F = Some slug /\ truthy slug = true);
        [| set (fallback := F) in *; set (hit := found) ]
    end.
    + destruct (negb (Page.index_of urlParts "problem" =? -1)%Z
                && (0 <? Page.index_of urlParts "problem")%Z) eqn:C.
      * apply andb_true_iff in C as [C1 C2]. apply Z.ltb_lt in C2.
        destruct (index_of_range urlParts "problem") as [E|R]; [lia|].
        destruct (at_index_defined urlParts (Page.index_of urlParts "problem" - 1))
          as [s Hs]; [lia|].
        exists s. split; [exact Hs|].
        apply (kept_parts_truthy pathname), (at_index_member _ _ _ Hs).
      * destruct (Page.at_index urlParts (Page.length_of urlParts - 1)) as [lastPart|];
          [|now exists "unknown-problem"].
        destruct (truthy lastPart) eqn:T; cbn [andb]; [|now exists "unknown-problem"].
        destruct (negb (lastPart =? "problem") && negb (lastPart =? "challenges"));
          [now exists lastPart | now exists "unknown-problem"].
    + assert (Hit : forall p, hit = Some p -> truthy p = true).
      { subst hit. intros p.
        destruct (negb (Page.index_of urlParts "challenges" =? -1)%Z
                  && (Page.index_of urlParts "challenges" <? Page.length_of urlParts - 1)%Z);
          [|discriminate].
        destruct (Page.at_index urlParts (Page.index_of urlParts "challenges" + 1))
          as [problemName|]; [|discriminate].
        destruct (truthy problemName) eqn:T; cbn [andb]; [|discriminate].
        destruct (negb (problemName =? "problem")); [|discriminate].
        now intros [= <-]. }
      destruct hit as [p|]; [|exact Fallback].
      exists p. split; [reflexivity | now apply Hit].
  - unfold Page.extractCategory.
    destruct (find (fun category => includes pathname category) Page.categories)
      as [category|] eqn:F.
    + apply find_some in F as [Hin _]. cbn in Hin.
      repeat (destruct Hin as [<-|Hin]; [reflexivity|]). contradiction.
    + destruct (negb (Page.index_of (split "/" pathname) "challenges" =? -1)%Z
                && (Page.index_of (split "/" pathname) "challenges"
                    <? Page.length_of (split "/" pathname) - 1)%Z); [|reflexivity].
      destruct (Page.at_index (split "/" pathname)
                  (Page.index_of (split "/" pathname) "challenges" + 1))
        as [possibleCategory|]; [|reflexivity].
      destruct (truthy possibleCategory) eqn:T; cbn [andb]; [|reflexivity].
      destruct (negb (includes possibleCategory "problem")); [exact T | reflexivity].
Qed.

(** X3.  When one of the known taxonomy terms occurs anywhere in the
    pathname, be it inside the slug, the category is the first such term of
    the list; the path segments are not looked at. *)
Theorem extractCategory_prefers_known_term (pathname : string) :
  existsb (fun category => includes pathname category) Page.categories = true ->
  In (Page.extractCategory pathname) Page.categories
  /\ includes pathname (Page.extractCategory pathname) = true
  /\ find (fun category => includes pathname category) Page.categories
     = Some (Page.extractCategory pathname).
Proof.
  intros H. unfold Page.extractCategory.
  destruct (find (fun category => includes pathname category) Page.categories)
    as [category|] eqn:F.
  - apply find_some in F as [Hin Hinc]. now repeat split.
  - apply existsb_exists in H as [c [Hc Hi]].
    now rewrite (find_none _ _ F c Hc) in Hi.
Qed.

Lemma extractCategory_prefers_known_term_witness :
  In (Page.extractCategory "/challenges/python-lists/problem") Page.categories
  /\ includes "/challenges/python-lists/problem"
       (Page.extractCategory "/challenges/python-lists/problem") = true
  /\ find (fun category => includes "/challenges/python-lists/problem" category)
       Page.categories
     = Some (Page.extractCategory "/challenges/python-lists/problem").
Proof.
  apply (extractCategory_prefers_known_term "/challenges/python-lists/problem").
  reflexivity.
Defined.

(** X4.  On the address [/challenges/<slug>/problem] of a problem whose
    pathname holds none of the known taxonomy terms, the page-reading script
    takes the slug itself as the category (for a slug that is one non-empty
    path segment and does not contain "problem"). *)
Theorem extractCategory_falls_back_to_slug (slug : string) :
  is_segment slug = true ->
  includes slug "problem" = false ->
  existsb (fun category => includes ("/challenges/" ++ slug ++ "/problem") category)
    Page.categories = false ->
  Page.extractCategory ("/challenges/" ++ slug ++ "/problem") = slug.
Proof.
  intros S P K. destruct (is_segment_parts slug S) as [T NS].
  unfold Page.extractCategory.
  destruct (find (fun category => includes ("/challenges/" ++ slug ++ "/problem") category)
              Page.categories) as [category|] eqn:F.
  - apply find_some in F as [Hin Hinc].
    assert (E : existsb (fun category =>
                           includes ("/challenges/" ++ slug ++ "/problem") category)
                  Page.categories = true)
      by (apply existsb_exists; now exists category).
    rewrite E in K. discriminate.
  - clear F K.
    change ("/challenges/" ++ slug ++ "/problem")
      with ("" ++ String "/" ("challenges" ++ String "/" (slug ++ String "/" "problem"))).
    rewrite !split_cons_segment by (try reflexivity; exact NS).
    rewrite (split_segment "problem") by reflexivity.
    replace (Page.index_of [""; "challenges"; slug; "problem"] "challenges")
      with 1%Z by reflexivity.
    change (Page.at_index [""; "challenges"; slug; "problem"] (1 + 1)) with (Some slug).
    cbn - [includes truthy]. now rewrite T, P.
Qed.

Lemma extractCategory_falls_back_to_slug_witness :
  Page.extractCategory "/challenges/simple-array-sum/problem" = "simple-array-sum".
Proof.
  apply (extractCategory_falls_back_to_slug "simple-array-sum"); reflexivity.
Defined.

End AddressShape.

(** ** Reading the fetched submission record *)

Section Record_.
Import JS Shape Observe.

Lemma replace_space_runs_no_space (in_run : bool) (s : string) :
  all_of (fun c => negb (is_whitespace c)) (Poll.replace_space_runs in_run s) = true.
Proof.
  revert in_run. induction s as [|c r IH]; intros in_run; [reflexivity|].
  cbn [Poll.replace_space_runs]. destruct (is_whitespace c) eqn:W.
  - destruct in_run; [apply IH|]. cbn [all_of]. now rewrite IH.
  - cbn [all_of]. now rewrite W, IH.
Qed.

Lemma replace_space_runs_lower (in_run : bool) (s : string) :
  toLowerCase (Poll.replace_space_runs in_run (toLowerCase s))
  = Poll.replace_space_runs in_run (toLowerCase s).
Proof.
  revert in_run. induction s as [|c r IH]; intros in_run; [reflexivity|].
  cbn [toLowerCase Poll.replace_space_runs].
  destruct (is_whitespace (lower_char c)).
  - destruct in_run; [apply IH|]. cbn [toLowerCase]. now rewrite IH.
  - cbn [toLowerCase]. now rewrite lower_char_idempotent, IH.
Qed.

Lemma replace_space_runs_truthy (c : ascii) (r : string) :
  truthy (Poll.replace_space_runs false (toLowerCase (String c r))) = true.
Proof.
  cbn [toLowerCase Poll.replace_space_runs].
  now destruct (is_whitespace (lower_char c)).
Qed.

(** The category in terms of the track's label: the label in lower case
    with every run of white space replaced by one hyphen, and "misc" when
    there is no label. *)
Lemma poll_extractCategory_of_label (submissionData : option Poll.SubmissionData) :
  Poll.extractCategory submissionData
  = match track_label submissionData with
    | Some label => Poll.replace_space_runs false (toLowerCase label)
    | None => "misc"
    end.
Proof.
  unfold Poll.extractCategory, track_label.
  destruct submissionData as [data|]; [|reflexivity].
  destruct (Poll.track data) as [track|]; [|reflexivity].
  unfold Poll.first_truthy.
  destruct (Poll.track_name track) as [[|c r]|]; cbn [filled GitHubAPI.truthy_opt truthy].
  2: { cbn [toString_opt]. now rewrite replace_space_runs_truthy. }
  all: destruct (Poll.name track) as [[|c r]|];
    cbn [filled GitHubAPI.truthy_opt truthy toString_opt];
    try reflexivity; now rewrite replace_space_runs_truthy.
Qed.

(** X5.  The category read off the submission record is never empty,
    contains no white space and is in lower case, whatever the record
    holds.  It is "misc" when the record or its track is missing or when
    neither [track_name] nor [name] is filled in; otherwise it is the
    track's label ([track_name] first, [name] second) in lower case with
    every run of white space replaced by one hyphen. *)
Theorem poll_extractCategory_shape (submissionData : option Poll.SubmissionData) :
  truthy (Poll.extractCategory submissionData) = true
  /\ all_of (fun c => negb (is_whitespace c)) (Poll.extractCategory submissionData) = true
  /\ toLowerCase (Poll.extractCategory submissionData) = Poll.extractCategory submissionData
  /\ Poll.extractCategory submissionData
     = match track_label submissionData with
       | Some label => Poll.replace_space_runs false (toLowerCase label)
       | None => "misc"
       end.
Proof.
  split; [|split; [|split]]; [| | |apply poll_extractCategory_of_label].
  all: unfold Poll.extractCategory.
  all: destruct submissionData as [data|]; [|reflexivity].
  all: destruct (Poll.track data) as [track|]; [|reflexivity].
  all: destruct (truthy (Poll.replace_space_runs false
                           (toLowerCase (Poll.first_truthy (Poll.track_name track)
                                           (Poll.name track))))) eqn:T;
    [|reflexivity].
  - exact T.
  - apply replace_space_runs_no_space.
  - apply replace_space_runs_lower.
Qed.

(** A track called "Data Structures" gives the directory "data-structures",
    also when only the track's [name] is filled in. *)
Example poll_extractCategory_data_structures :
  Poll.extractCategory
    (Some {| Poll.status := None; Poll.status_code := None; Poll.code := None;
             Poll.language := None; Poll.problem_name := None;
             Poll.track := Some {| Poll.track_name := Some "";
                                   Poll.name := Some "Data  Structures" |} |})
  = "data-structures".
Proof. reflexivity. Qed.

End Record_.

(** ** Languages and file extensions *)

Section Extensions.
Import JS Observe.

(** Every value of the alias table, except under the keys in [but], has an
    extension of its own. *)
Lemma covered_values (table : list (string * string)) (but : list string) (k v : string) :
  forallb (fun kv =>
             existsb (String.eqb (fst kv)) but
             || match own_property Background.extensionMap (snd kv) with
                | Some ext => truthy ext && truthy (snd kv)
                | None => false
                end) table = true ->
  own_property table k = Some v ->
  ~ In k but ->
  truthy v = true
  /\ exists ext, own_property Background.extensionMap v = Some ext
                 /\ Background.getFileExtension v = VString ext.
Proof.
  intros C E B. apply own_property_In in E.
  rewrite forallb_forall in C. specialize (C _ E). cbn [fst snd] in C.
  rewrite (not_listed _ _ B) in C. cbn [orb] in C.
  destruct (own_property Background.extensionMap v) as [ext|] eqn:X; [|discriminate].
  apply andb_true_iff in C as [Te Tv]. split; [exact Tv|].
  exists ext. split; [reflexivity|].
  unfold Background.getFileExtension. now apply get_or_own.
Qed.

(** X6.  Every language that [content.js] normalises through its alias
    table is given an extension of its own by the service worker, never the
    fallback taken for unknown languages; so is every language the polling
    script normalises through its table, except "python2", whose normal
    form "python" has no extension and falls back to "txt". *)
Theorem aliases_have_extensions (s v : string) :
  (own_property Content.languageMap (normal_form s) = Some v ->
   Content.normalizeLanguage s = VString v
   /\ exists ext, own_property Background.extensionMap v = Some ext
                  /\ Background.getFileExtension v = VString ext)
  /\ (own_property ContentApi.languageMap (normal_form s) = Some v ->
      normal_form s <> "python2" ->
      ContentApi.normalizeLanguage s = VString v
      /\ exists ext, own_property Background.extensionMap v = Some ext
                     /\ Background.getFileExtension v = VString ext)
  /\ (normal_form s = "python2" ->
      ContentApi.normalizeLanguage s = VString "python"
      /\ Background.getFileExtension "python" = VString "txt").
Proof.
  split; [|split].
  - intros E.
    destruct (covered_values Content.languageMap [] _ _ eq_refl E) as [T X];
      [intros []|].
    split; [|exact X].
    unfold Content.normalizeLanguage. now apply get_or_own.
  - intros E N.
    destruct (covered_values ContentApi.languageMap ["python2"] _ _ eq_refl E) as [T X].
    { intros [H|[]]. apply N. now symmetry. }
    split; [|exact X].
    unfold ContentApi.normalizeLanguage. now apply get_or_own.
  - intros E. split; [|reflexivity].
    unfold ContentApi.normalizeLanguage.
    change (trim (toLowerCase s)) with (normal_form s). now rewrite E.
Qed.

Lemma aliases_have_extensions_witness :
  (Content.normalizeLanguage " C++ " = VString "cpp"
   /\ exists ext, own_property Background.extensionMap "cpp" = Some ext
                  /\ Background.getFileExtension "cpp" = VString ext)
  /\ ContentApi.normalizeLanguage " Python2" = VString "python".
Proof.
  destruct (aliases_have_extensions " C++ " "cpp") as (Hc & _ & _).
  destruct (aliases_have_extensions " Python2" "python") as (_ & _ & Hp).
  split; [apply Hc; reflexivity | apply Hp; reflexivity].
Defined.

End Extensions.

(** ** What the cleaning of the code keeps *)

Section CleanCodeShape.
Import JS Shape Observe.

Lemma trimEnd_cons_nonspace (c : ascii) (r : string) :
  is_whitespace c = false -> trimEnd (String c r) = String c (trimEnd r).
Proof.
  intros W. rewrite trimEnd_cons. destruct (trimEnd r); [now rewrite W | reflexivity].
Qed.

Lemma indexOf_found (s pat : string) :
  (0 <= indexOf s pat)%Z -> starts_with pat (drop (Z.to_nat (indexOf s pat)) s) = true.
Proof.
  induction s as [|c r IH]; cbn [indexOf].
  - destruct (starts_with pat "") eqn:P; [intros _; exact P | lia].
  - destruct (starts_with pat (String c r)) eqn:P; [intros _; exact P|].
    destruct (indexOf r pat <? 0)%Z eqn:L; [lia|].
    apply Z.ltb_ge in L. intros _.
    replace (Z.to_nat (indexOf r pat + 1)) with (S (Z.to_nat (indexOf r pat))) by lia.
    cbn [drop]. now apply IH.
Qed.

Lemma trim_keeps_shebang (s : string) :
  starts_with "#!/" s = true -> starts_with "#!/" (trim s) = true.
Proof.
  intros H.
  destruct s as [|a [|b [|c r]]]; cbn [starts_with] in H;
    rewrite ?andb_false_r in H; try discriminate H.
  apply andb_true_iff in H as [Ha H]. apply andb_true_iff in H as [Hb H].
  apply andb_true_iff in H as [Hc _].
  apply Ascii.eqb_eq in Ha, Hb, Hc. subst a b c.
  unfold trim. cbn [trimStart]. 
  change (is_whitespace "#") with false. cbn iota.
  rewrite !trimEnd_cons_nonspace by reflexivity. reflexivity.
Qed.

(** X7.  [cleanCode] only cuts a prefix off and trims: for every text the
    result is the trimmed rest of the text after some number of leading code
    units, that number being 0 unless the text starts with ten or more
    digits; the result never starts with white space. *)
Theorem cleanCode_cuts_a_prefix (code : string) :
  exists n,
    Content.cleanCode code = trim (drop n code)
    /\ (test_leading_digit_run code = false -> n = 0%nat)
    /\ no_leading_space (Content.cleanCode code) = true.
Proof.
  assert (NL : forall t, no_leading_space (trim t) = true).
  { intros t. apply trimEnd_no_leading_space, trimStart_no_leading_space. }
  unfold Content.cleanCode.
  destruct code as [|c r]; [exists 0%nat; now repeat split|].
  cbn [truthy negb].
  destruct (test_leading_digit_run (String c r)) eqn:T.
  - destruct (negb (indexOf (String c r) "#!/" =? -1)%Z
              && (indexOf (String c r) "#!/" <? 50)%Z).
    + exists (Z.to_nat (indexOf (String c r) "#!/")).
      split; [reflexivity|]. split; [discriminate | apply NL].
    + exists (leading_digits (String c r)).
      unfold remove_leading_digit_run. rewrite T.
      split; [reflexivity|]. split; [discriminate | apply NL].
  - exists 0%nat. split; [reflexivity|]. split; [reflexivity | apply NL].
Qed.

(** X8.  When the text starts with ten or more digits and a shebang occurs
    within its first 50 code units, the cleaned text starts with the
    shebang. *)
Theorem cleanCode_starts_at_shebang (code : string) :
  test_leading_digit_run code = true ->
  (0 <= indexOf code "#!/" < 50)%Z ->
  starts_with "#!/" (Content.cleanCode code) = true.
Proof.
  intros T [Lo Hi]. unfold Content.cleanCode.
  destruct code as [|c r]; [discriminate T|].
  cbn [truthy negb]. rewrite T.
  assert (E1 : (indexOf (String c r) "#!/" =? -1)%Z = false) by (apply Z.eqb_neq; lia).
  assert (E2 : (indexOf (String c r) "#!/" <? 50)%Z = true) by (apply Z.ltb_lt; lia).
  rewrite E1, E2. cbn [negb andb].
  apply trim_keeps_shebang. unfold substring_from. now apply indexOf_found.
Qed.

Lemma cleanCode_starts_at_shebang_witness :
  starts_with "#!/" (Content.cleanCode "1234567891011121314#!/usr/bin/env python3") = true.
Proof.
  apply cleanCode_starts_at_shebang; [reflexivity | vm_compute; split; [discriminate | reflexivity]].
Defined.

End CleanCodeShape.

(** ** The shape of sanitized names and generated paths *)

Section PathShape.
Import JS Shape Observe.

Ltac every_code_unit c :=
  destruct c as [[|] [|] [|] [|] [|] [|] [|] [|]]; vm_compute; try reflexivity; try discriminate.

Lemma alnum_not_hyphen (c : ascii) : is_lower_alnum c = true -> hyphen c = false.
Proof. every_code_unit c. Qed.

Lemma path_safe_lower (c : ascii) : path_safe c = true -> lower_char c = c.
Proof. every_code_unit c. Qed.

Lemma no_double_hyphen_cons (c : ascii) (s : string) :
  no_double_hyphen (String c s)
  = negb (hyphen c && starts_with_hyphen s) && no_double_hyphen s.
Proof. destruct s; [cbn; now rewrite andb_false_r | reflexivity]. Qed.

(** The runs are replaced by single hyphens. *)
Lemma replace_non_alnum_runs_single (in_run : bool) (s : string) :
  no_double_hyphen (replace_non_alnum_runs in_run s) = true
  /\ (in_run = true -> starts_with_hyphen (replace_non_alnum_runs in_run s) = false).
Proof.
  revert in_run. induction s as [|c r IH]; intros in_run; [now split|].
  cbn [replace_non_alnum_runs]. destruct (is_lower_alnum c) eqn:A.
  - destruct (IH false) as [N _]. split.
    + rewrite no_double_hyphen_cons, N, (alnum_not_hyphen c A). reflexivity.
    + intros _. unfold starts_with_hyphen. cbn. now apply alnum_not_hyphen.
  - destruct (IH true) as [N F]. destruct in_run.
    + split; [exact N | intros _; now apply F].
    + split; [|discriminate].
      rewrite no_double_hyphen_cons, N, (F eq_refl). now rewrite andb_false_r.
Qed.

Lemma strip_last_hyphen_cons (c d : ascii) (r : string) :
  strip_last_hyphen (String c (String d r)) = String c (strip_last_hyphen (String d r)).
Proof. reflexivity. Qed.

Lemma strip_last_hyphen_keeps_start (s : string) :
  starts_with_hyphen s = false -> starts_with_hyphen (strip_last_hyphen s) = false.
Proof.
  destruct s as [|c [|d r]]; [reflexivity| |].
  - cbn. destruct (Ascii.eqb c "-"); [reflexivity | now cbn].
  - now rewrite strip_last_hyphen_cons.
Qed.

Lemma strip_last_hyphen_single (s : string) :
  no_double_hyphen s = true -> no_double_hyphen (strip_last_hyphen s) = true.
Proof.
  induction s as [|c r IH]; [reflexivity|].
  destruct r as [|d r'].
  - cbn. now destruct (Ascii.eqb c "-").
  - intros H. rewrite (no_double_hyphen_cons c (String d r')) in H.
    apply andb_true_iff in H as [H1 H2].
    rewrite strip_last_hyphen_cons, (no_double_hyphen_cons c).
    rewrite (IH H2), andb_true_r.
    destruct (hyphen c); [|reflexivity]. cbn [andb negb] in *.
    apply negb_true_iff in H1. now rewrite (strip_last_hyphen_keeps_start _ H1).
Qed.

Lemma strip_last_hyphen_end (s : string) :
  no_double_hyphen s = true -> ends_with_hyphen (strip_last_hyphen s) = false.
Proof.
  induction s as [|c r IH]; [reflexivity|].
  destruct r as [|d r'].
  - intros _. cbn [strip_last_hyphen]. unfold ends_with_hyphen, hyphen.
    destruct (Ascii.eqb c "-") eqn:E; [reflexivity | cbn; exact E].
  - intros H. rewrite (no_double_hyphen_cons c (String d r')) in H.
    apply andb_true_iff in H as [H1 H2]. specialize (IH H2).
    rewrite strip_last_hyphen_cons.
    destruct (strip_last_hyphen (String d r')) as [|e t] eqn:S.
    + (* the rest was a single hyphen *)
      unfold ends_with_hyphen. cbn [last_char].
      destruct r' as [|d' r''].
      * cbn in S. destruct (Ascii.eqb d "-") eqn:D; [|discriminate S].
        unfold starts_with_hyphen, hyphen in H1. cbn in H1. rewrite D in H1.
        rewrite andb_true_r in H1. now apply negb_true_iff in H1.
      * rewrite strip_last_hyphen_cons in S. discriminate S.
    + unfold ends_with_hyphen in *. exact IH.
Qed.

Lemma strip_last_hyphen_fixed (s : string) :
  ends_with_hyphen s = false -> strip_last_hyphen s = s.
Proof.
  induction s as [|c r IH]; [reflexivity|].
  destruct r as [|d r'].
  - unfold ends_with_hyphen, hyphen. cbn. intros E. now rewrite E.
  - rewrite strip_last_hyphen_cons. intros E. now rewrite (IH E).
Qed.

Lemma toLowerCase_safe (s : string) : all_of path_safe s = true -> toLowerCase s = s.
Proof.
  induction s as [|c r IH]; [reflexivity|].
  cbn [all_of toLowerCase]. intros H. apply andb_true_iff in H as [Hc Hr].
  now rewrite (path_safe_lower c Hc), (IH Hr).
Qed.

Lemma replace_non_alnum_runs_fixed (in_run : bool) (s : string) :
  all_of path_safe s = true ->
  no_double_hyphen s = true ->
  (in_run = true -> starts_with_hyphen s = false) ->
  replace_non_alnum_runs in_run s = s.
Proof.
  revert in_run. induction s as [|c r IH]; intros in_run A N F; [reflexivity|].
  cbn [all_of] in A. apply andb_true_iff in A as [Ac Ar].
  rewrite no_double_hyphen_cons in N. apply andb_true_iff in N as [N1 N2].
  cbn [replace_non_alnum_runs]. destruct (is_lower_alnum c) eqn:L.
  - now rewrite (IH false Ar N2) by discriminate.
  - assert (H : hyphen c = true).
    { unfold path_safe in Ac. rewrite L in Ac. exact Ac. }
    destruct in_run.
    + specialize (F eq_refl). unfold starts_with_hyphen in F. cbn in F. congruence.
    + rewrite H in N1. cbn [andb] in N1. apply negb_true_iff in N1.
      rewrite (IH true Ar N2) by (intros _; exact N1).
      unfold hyphen in H. apply Ascii.eqb_eq in H. now subst c.
Qed.

Lemma sanitize_shape (text : string) : tidy (GitHubAPI.sanitize text) = true.
Proof.
  unfold tidy. rewrite sanitize_safe. cbn [andb].
  unfold GitHubAPI.sanitize, strip_edge_hyphens.
  destruct (replace_non_alnum_runs_single false (toLowerCase text)) as [N _].
  destruct (replace_non_alnum_runs false (toLowerCase text)) as [|c r] eqn:E;
    [reflexivity|].
  rewrite no_double_hyphen_cons in N. apply andb_true_iff in N as [N1 N2].
  destruct (Ascii.eqb c "-") eqn:H.
  - change (hyphen c = true) in H. rewrite H in N1. cbn [andb] in N1.
    apply negb_true_iff in N1.
    now rewrite (strip_last_hyphen_single r N2),
      (strip_last_hyphen_keeps_start r N1), (strip_last_hyphen_end r N2).
  - assert (N : no_double_hyphen (String c r) = true).
    { rewrite no_double_hyphen_cons. change (hyphen c = false) in H.
      now rewrite H, N2. }
    assert (S : starts_with_hyphen (String c r) = false) by exact H.
    now rewrite (strip_last_hyphen_single _ N),
      (strip_last_hyphen_keeps_start _ S), (strip_last_hyphen_end _ N).
Qed.

Lemma sanitize_fixed (text : string) :
  tidy text = true -> GitHubAPI.sanitize text = text.
Proof.
  intros T. unfold tidy in T.
  apply andb_true_iff in T as [T E]. apply andb_true_iff in T as [T S].
  apply andb_true_iff in T as [A N].
  apply negb_true_iff in S, E.
  unfold GitHubAPI.sanitize.
  rewrite (toLowerCase_safe text A).
  rewrite (replace_non_alnum_runs_fixed false text A N) by discriminate.
  unfold strip_edge_hyphens. destruct text as [|c r]; [reflexivity|].
  unfold starts_with_hyphen, hyphen in S. cbn in S. rewrite S.
  now apply strip_last_hyphen_fixed.
Qed.

(** X9.  A sanitized name is made of lower-case letters, digits and single
    hyphens and has no hyphen at either end, whatever text it is made from;
    a text of that shape is left as it is; so sanitizing is idempotent. *)
Theorem sanitize_tidy (text : string) :
  tidy (GitHubAPI.sanitize text) = true
  /\ (tidy text = true -> GitHubAPI.sanitize text = text)
  /\ GitHubAPI.sanitize (GitHubAPI.sanitize text) = GitHubAPI.sanitize text.
Proof.
  split; [apply sanitize_shape|]. split; [apply sanitize_fixed|].
  apply sanitize_fixed, sanitize_shape.
Qed.

Lemma sanitize_tidy_witness :
  tidy (GitHubAPI.sanitize "two-sum") = true
  /\ GitHubAPI.sanitize "two-sum" = "two-sum".
Proof.
  destruct (sanitize_tidy "two-sum") as (T & F & _).
  split; [exact T | apply F; reflexivity].
Defined.

End PathShape.

Section PathSlashes.
Import JS Shape Observe.

Lemma includes_double_slash_cons (c : ascii) (s : string) :
  includes (String c s) "//" = (Ascii.eqb c "/" && slash_first s) || includes s "//".
Proof.
  cbn [includes starts_with]. rewrite (Ascii.eqb_sym "/" c).
  destruct s as [|d s']; cbn [starts_with slash_first].
  - now rewrite andb_false_r.
  - now rewrite (Ascii.eqb_sym "/" d), andb_true_r.
Qed.

Lemma collapse_slashes_single (in_run : bool) (s : string) :
  includes (collapse_slashes in_run s) "//" = false
  /\ (in_run = true -> slash_first (collapse_slashes in_run s) = false).
Proof.
  revert in_run. induction s as [|c r IH]; intros in_run; [now split|].
  cbn [collapse_slashes]. destruct (Ascii.eqb c "/") eqn:C.
  - destruct (IH true) as [N F]. destruct in_run.
    + split; [exact N | intros _; now apply F].
    + split; [|discriminate].
      rewrite includes_double_slash_cons, N, (F eq_refl). now rewrite andb_false_r.
  - destruct (IH false) as [N _]. split.
    + rewrite includes_double_slash_cons, N, C. reflexivity.
    + intros _. cbn [slash_first]. exact C.
Qed.

(** X10.  A path that [generateFilePath] returns never holds two slashes in
    a row, whatever the template and the substituted values. *)
Theorem generateFilePath_no_double_slash
    (template : string) (data : GitHubAPI.PathData) (path : string) :
  GitHubAPI.generateFilePath template data = Ok path ->
  includes path "//" = false.
Proof.
  unfold GitHubAPI.generateFilePath.
  destruct (GitHubAPI.filename data); [|discriminate].
  destruct (GitHubAPI.slug data); [|discriminate].
  intros [= <-]. apply collapse_slashes_single.
Qed.

Lemma generateFilePath_no_double_slash_witness :
  includes "hackerrank/two-sum-py" "//" = false.
Proof.
  apply (generateFilePath_no_double_slash "hackerrank/{category}//{filename}"
           {| GitHubAPI.category := Some "";
              GitHubAPI.filename := Some "two-sum.py";
              GitHubAPI.slug := Some "two-sum";
              GitHubAPI.language := Some "python3" |}).
  reflexivity.
Defined.

End PathSlashes.

(** ** The file content *)

Section Content_.
Import JS.

Lemma append_empty (s : string) : s ++ "" = s.
Proof. induction s as [|c r IH]; [reflexivity | cbn; now rewrite IH]. Qed.

Lemma append_assoc (a b c : string) : (a ++ b) ++ c = a ++ (b ++ c).
Proof. induction a as [|x a IH]; [reflexivity | cbn; now rewrite IH]. Qed.

Lemma drop_header (header code : string) :
  drop (String.length header) (header ++ code) = code.
Proof. induction header as [|c r IH]; [now destruct code | exact IH]. Qed.

Lemma blank_line_after (a b : string) :
  (exists body, b = body ++ GitHubAPI.newline ++ GitHubAPI.newline) ->
  exists body, a ++ b = body ++ GitHubAPI.newline ++ GitHubAPI.newline.
Proof. intros [body ->]. exists (a ++ body). now rewrite append_assoc. Qed.

(** X11.  The file content is a header that depends on the metadata alone,
    followed by the submitted code as it is: the code is what remains when
    the header is taken off, and the header ends with an empty line. *)
Theorem formatFileContent_keeps_code (code : string) (metadata : GitHubAPI.Metadata) :
  let header := GitHubAPI.formatFileContent "" metadata in
  GitHubAPI.formatFileContent code metadata = header ++ code
  /\ drop (String.length header) (GitHubAPI.formatFileContent code metadata) = code
  /\ exists body, header = body ++ GitHubAPI.newline ++ GitHubAPI.newline.
Proof.
  intros header.
  assert (E : GitHubAPI.formatFileContent code metadata = header ++ code).
  { subst header. unfold GitHubAPI.formatFileContent. now rewrite append_empty. }
  split; [exact E|]. split; [rewrite E; apply drop_header|].
  subst header. unfold GitHubAPI.formatFileContent. rewrite append_empty.
  destruct (GitHubAPI.truthy_opt _).
  - repeat (first [ now exists EmptyString | apply blank_line_after ]).
  - destruct (_ && _).
    + repeat (first [ now exists EmptyString | apply blank_line_after ]).
    + apply blank_line_after. now exists EmptyString.
Qed.

End Content_.

(** ** The submission history, further *)

Section History.
Import JS Async Observe Shape.
Local Open Scope async_scope.

Variable Date : string -> option Z.

Lemma duplicate_of_sym (a b : Store.HistoryRecord) :
  StorageManager.duplicate_of Date a b = StorageManager.duplicate_of Date b a.
Proof.
  unfold StorageManager.duplicate_of, StorageManager.within_window.
  rewrite (String.eqb_sym (Store.problemSlug b)), (String.eqb_sym (Store.language b)).
  destruct (Date (Store.timestamp a)) as [ta|], (Date (Store.timestamp b)) as [tb|];
    try reflexivity.
  now replace (Z.abs (tb - ta)) with (Z.abs (ta - tb)) by lia.
Qed.

Lemma addSubmissionRecord_settings (record : Store.HistoryRecord) (env : Env) :
  fst (StorageManager.getConfig (snd (StorageManager.addSubmissionRecord Date record env)))
  = fst (StorageManager.getConfig env).
Proof.
  unfold StorageManager.addSubmissionRecord, StorageManager.getConfig, bind, get_storage.
  destruct (negb _); reflexivity.
Qed.

(** X12.  However many records are appended one after the other, the
    history only grows at its end: what was stored stays, in place, and
    what is added are records of the appended ones; no append throws, sends
    a request or touches the settings. *)
Theorem history_is_append_only (records : list Store.HistoryRecord) (env : Env) :
  fst (append_all Date records env) = Ok tt
  /\ requests (snd (append_all Date records env)) = requests env
  /\ fst (StorageManager.getConfig (snd (append_all Date records env)))
     = fst (StorageManager.getConfig env)
  /\ exists added,
       ledger (snd (append_all Date records env)) = (ledger env ++ added)%list
       /\ incl added records
       /\ (List.length added <= List.length records)%nat.
Proof.
  revert env. induction records as [|r rest IH]; intros env.
  - repeat split; try reflexivity. exists []. rewrite app_nil_r.
    repeat split; [apply incl_refl | apply Nat.le_refl].
  - cbn [append_all]. unfold bind at 1 2 3 4.
    destruct (addSubmissionRecord_ledger Date r env) as (R1 & R2 & R3).
    pose proof (addSubmissionRecord_settings r env) as R4.
    destruct (StorageManager.addSubmissionRecord Date r env) as [res env1].
    cbn [fst snd] in *. subst res.
    destruct (IH env1) as (I1 & I2 & I3 & added & I4 & I5 & I6).
    split; [exact I1|]. split; [now rewrite I2|]. split; [now rewrite I3|].
    rewrite I4, R3.
    destruct (existsb (StorageManager.duplicate_of Date r) (ledger env)).
    + exists added. split; [reflexivity|]. split.
      * now apply incl_tl.
      * cbn [List.length]. lia.
    + exists (r :: added). split; [now rewrite <- app_assoc|]. split.
      * apply incl_cons; [now left | now apply incl_tl].
      * cbn [List.length]. lia.
Qed.

Lemma separated_snoc (l : list Store.HistoryRecord) (r : Store.HistoryRecord) :
  separated Date l = true ->
  existsb (StorageManager.duplicate_of Date r) l = false ->
  separated Date (l ++ [r]) = true.
Proof.
  induction l as [|x rest IH]; intros S E; [reflexivity|].
  cbn [separated app] in *. cbn [existsb] in E.
  apply andb_true_iff in S as [S1 S2]. apply orb_false_iff in E as [E1 E2].
  rewrite (IH S2 E2), andb_true_r.
  rewrite existsb_app. cbn [existsb]. apply negb_true_iff in S1. rewrite S1.
  now rewrite duplicate_of_sym, E1.
Qed.

(** X13.  A history in which no record is a duplicate of another one (same
    slug and language, timestamps less than 60 seconds apart) stays so
    under any sequence of appends; in particular a history built from
    nothing by appends never holds two such records. *)
Theorem history_stays_separated (records : list Store.HistoryRecord) (env : Env) :
  separated Date (ledger env) = true ->
  separated Date (ledger (snd (append_all Date records env))) = true.
Proof.
  revert env. induction records as [|r rest IH]; intros env S; [exact S|].
  cbn [append_all]. unfold bind.
  destruct (addSubmissionRecord_ledger Date r env) as (R1 & _ & R3).
  destruct (StorageManager.addSubmissionRecord Date r env) as [res env1].
  cbn [fst snd] in *. subst res. apply IH. rewrite R3.
  destruct (existsb (StorageManager.duplicate_of Date r) (ledger env)) eqn:E;
    [exact S | now apply separated_snoc].
Qed.

(** X14.  Appending a record whose timestamp is a valid date a second time
    right away changes nothing, whatever the history held before. *)
Theorem append_again_is_noop (record : Store.HistoryRecord) (env : Env) (t : Z) :
  Date (Store.timestamp record) = Some t ->
  ledger (snd (append_all Date [record; record] env))
  = ledger (snd (append_all Date [record] env)).
Proof.
  intros D. cbn [append_all]. unfold bind, ret.
  destruct (addSubmissionRecord_ledger Date record env) as (R1 & _ & R3).
  destruct (StorageManager.addSubmissionRecord Date record env) as [res env1].
  cbn [fst snd] in *. subst res.
  destruct (addSubmissionRecord_ledger Date record env1) as (Q1 & _ & Q3).
  destruct (StorageManager.addSubmissionRecord Date record env1) as [res env2].
  cbn [fst snd] in *. subst res. cbn [snd]. rewrite Q3.
  assert (Self : StorageManager.duplicate_of Date record record = true).
  { unfold StorageManager.duplicate_of, StorageManager.within_window.
    rewrite !String.eqb_refl, D. now rewrite Z.sub_diag. }
  replace (existsb (StorageManager.duplicate_of Date record) (ledger env1)) with true;
    [reflexivity|].
  symmetry. rewrite R3.
  destruct (existsb (StorageManager.duplicate_of Date record) (ledger env)) eqn:E;
    [exact E|].
  rewrite existsb_app. cbn [existsb]. now rewrite Self, orb_true_r.
Qed.

Lemma undated_never_duplicate (record : Store.HistoryRecord)
    (l : list Store.HistoryRecord) :
  Date (Store.timestamp record) = None ->
  existsb (StorageManager.duplicate_of Date record) l = false.
Proof.
  intros D. induction l as [|x rest IH]; [reflexivity|].
  cbn [existsb]. rewrite IH, orb_false_r.
  unfold StorageManager.duplicate_of, StorageManager.within_window. rewrite D.
  destruct (Date (Store.timestamp x)); now rewrite andb_false_r.
Qed.

(** X15.  A record whose timestamp is not a valid date is never taken for a
    duplicate: it is appended even when the very same record is stored
    already. *)
Theorem invalid_timestamp_is_always_appended (record : Store.HistoryRecord) (env : Env) :
  Date (Store.timestamp record) = None ->
  ledger (snd (StorageManager.addSubmissionRecord Date record env))
  = (ledger env ++ [record])%list.
Proof.
  intros D.
  destruct (addSubmissionRecord_ledger Date record env) as (_ & _ & R3).
  now rewrite R3, (undated_never_duplicate record (ledger env) D).
Qed.

End History.

Section HistoryInstances.
Import JS Async Observe Shape.

Lemma history_stays_separated_witness :
  separated IsoDate.time_value
    (ledger (snd (append_all IsoDate.time_value
                    [ Samples.record_at "2024-01-01T00:00:00.000Z";
                      Samples.record_at "2024-01-01T00:00:30.000Z";
                      Samples.record_at "2024-01-01T00:01:10.000Z" ] Samples.env)))
  = true.
Proof. apply history_stays_separated. reflexivity. Defined.

Lemma append_again_is_noop_witness :
  ledger (snd (append_all IsoDate.time_value
                 [ Samples.record_at "2024-01-01T00:00:00.000Z";
                   Samples.record_at "2024-01-01T00:00:00.000Z" ] Samples.env))
  = ledger (snd (append_all IsoDate.time_value
                   [ Samples.record_at "2024-01-01T00:00:00.000Z" ] Samples.env)).
Proof. apply (append_again_is_noop IsoDate.time_value _ _ 1704067200000). reflexivity. Defined.

Lemma invalid_timestamp_is_always_appended_witness :
  ledger (snd (StorageManager.addSubmissionRecord IsoDate.time_value
                 (Samples.record_at "just now")
                 (snd (StorageManager.addSubmissionRecord IsoDate.time_value
                         (Samples.record_at "just now") Samples.env))))
  = (ledger (snd (StorageManager.addSubmissionRecord IsoDate.time_value
                    (Samples.record_at "just now") Samples.env))
     ++ [Samples.record_at "just now"])%list.
Proof. apply invalid_timestamp_is_always_appended. reflexivity. Defined.

End HistoryInstances.

(** ** Reads and writes against any remote *)

Section Remote_.
Import JS Async Observe Shape.
Local Open Scope async_scope.

Variable remote : Net.Remote.

Lemma getFileSha_cases (api : GitHubAPI.Api) (owner repo path branch : string) (env : Env) :
  GitHubAPI.getFileSha remote api owner repo path branch env
  = (match remote (requests env) (read_request api owner repo path branch) with
     | Net.Rejected x => Throw x
     | Net.Responded resp =>
         if Net.ok resp then
           match Net.json resp with
           | Some d => Ok (Net.data_sha d)
           | None => Throw (SyntaxError "Unexpected token in JSON")
           end
         else if (Net.status resp =? 404)%Z then Ok None
         else Throw (Error ("GitHub API error: " ++ Z_to_string (Net.status resp)))
     end,
     sent env (read_request api owner repo path branch)).
Proof.
  unfold GitHubAPI.getFileSha. rewrite try_catch_rethrow.
  unfold bind, fetch, json, ret, throw, sent, read_request.
  destruct (remote _ _) as [x|resp]; [reflexivity|].
  destruct (Net.ok resp); [destruct (Net.json resp); reflexivity|].
  destruct (Net.status resp =? 404)%Z; reflexivity.
Qed.

Lemma createOrUpdateFile_cases (api : GitHubAPI.Api)
    (owner repo path content message branch : string) (env : Env) :
  let read := read_request api owner repo path branch in
  let out := GitHubAPI.createOrUpdateFile remote api owner repo path content message
               branch env in
  match fst (GitHubAPI.getFileSha remote api owner repo path branch env) with
  | Throw x => out = (Throw x, sent env read)
  | Ok sha =>
      let write := write_request api owner repo path content message branch
                     (claimed_revision sha) in
      snd out = sent (sent env read) write
      /\ fst out
         = match remote ((requests env ++ [read])%list) write with
           | Net.Rejected x => Throw x
           | Net.Responded resp =>
               if Net.ok resp then
                 match Net.json resp with
                 | Some d =>
                     match Net.data_content d with
                     | Some c =>
                         Ok {| GitHubAPI.success := true;
                               GitHubAPI.commit := Net.data_commit d;
                               GitHubAPI.content := c;
                               GitHubAPI.html_url := Net.html_url c |}
                     | None =>
                         Throw (TypeError
                                  "Cannot read properties of undefined (reading 'html_url')")
                     end
                 | None => Throw (SyntaxError "Unexpected token in JSON")
                 end
               else
                 Throw (Error ("GitHub API error: " ++ Z_to_string (Net.status resp)
                               ++ " - " ++ error_detail resp))
           end
  end.
Proof.
  intros read out.
  pose proof (getFileSha_cases api owner repo path branch env) as G. fold read in G.
  assert (U : out = bind (GitHubAPI.getFileSha remote api owner repo path branch)
                      (fun sha =>
                         bind (fetch remote
                                 (write_request api owner repo path content message branch
                                    (claimed_revision sha)))
                              (fun response =>
                                 if negb (Net.ok response) then
                                   bind (try_catch (json response)
                                           (fun _ => ret Net.empty_object))
                                        (fun errorData =>
                                           throw (Error
                                             ("GitHub API error: "
                                              ++ Z_to_string (Net.status response) ++ " - "
                                              ++ match Net.data_message errorData with
                                                 | Some m => if truthy m then m
                                                             else Net.statusText response
                                                 | None => Net.statusText response
                                                 end)))
                                 else
                                   bind (json response)
                                        (fun data =>
                                           match Net.data_content data with
                                           | None => throw (TypeError
                                               "Cannot read properties of undefined (reading 'html_url')")
                                           | Some c =>
                                               ret {| GitHubAPI.success := true;
                                                      GitHubAPI.commit := Net.data_commit data;
                                                      GitHubAPI.content := c;
                                                      GitHubAPI.html_url := Net.html_url c |}
                                           end))) env).
  { subst out. unfold GitHubAPI.createOrUpdateFile. now rewrite try_catch_rethrow. }
  unfold bind at 1 in U.
  destruct (GitHubAPI.getFileSha remote api owner repo path branch env) as [rs e1].
  injection G as G1 G2. subst e1. cbn [fst]. clear G1.
  destruct rs as [sha|x]; [|exact U].
  cbv zeta. rewrite U. clear U out.
  set (write := write_request api owner repo path content message branch
                  (claimed_revision sha)).
  destruct (remote (requests env ++ [read])%list write) as [x|resp] eqn:R;
    unfold bind, fetch, sent, try_catch, json, ret, throw, error_detail;
    cbn [requests storage]; rewrite R; [split; reflexivity|].
  destruct (Net.ok resp); cbn [negb].
  - destruct (Net.json resp) as [d|]; [|split; reflexivity].
    destruct (Net.data_content d); split; reflexivity.
  - destruct (Net.json resp) as [d|]; split; reflexivity.
Qed.

(** X16.  An answer to the read with a status outside 200-299 is either
    "not found" (404), taken as "the path has no revision", or an error that
    carries the status; in both cases the read is the only request sent. *)
Theorem getFileSha_unsuccessful_answer (api : GitHubAPI.Api)
    (owner repo path branch : string) (env : Env) (resp : Net.Response) :
  remote (requests env) (read_request api owner repo path branch) = Net.Responded resp ->
  Net.ok resp = false ->
  GitHubAPI.getFileSha remote api owner repo path branch env
  = (if (Net.status resp =? 404)%Z then Ok None
     else Throw (Error ("GitHub API error: " ++ Z_to_string (Net.status resp))),
     sent env (read_request api owner repo path branch)).
Proof. intros R K. now rewrite getFileSha_cases, R, K. Qed.

(** X17.  The validation of a token never fails: whatever the remote does,
    the answer is a verdict without an error text, the verdict is positive
    only for an answer with a status in 200-299 (a failed connection counts
    as invalid), and the identity lookup is the only request sent. *)
Theorem handleValidateToken_never_fails (token : string) (env : Env) :
  Worker.handleValidateToken remote token env
  = (Ok {| Worker.valid :=
             match remote (requests env) (Net.GetUser token) with
             | Net.Responded r => Net.ok r
             | Net.Rejected _ => false
             end;
           Worker.error := None |},
     sent env (Net.GetUser token)).
Proof.
  unfold Worker.handleValidateToken, try_catch, bind.
  now rewrite validateToken_result.
Qed.

(** X18.  When the read of the current revision fails, [createOrUpdateFile]
    fails in the same way and sends no write. *)
Theorem createOrUpdateFile_failed_read_sends_no_write (api : GitHubAPI.Api)
    (owner repo path content message branch : string) (env : Env) (x : exn) :
  fst (GitHubAPI.getFileSha remote api owner repo path branch env) = Throw x ->
  GitHubAPI.createOrUpdateFile remote api owner repo path content message branch env
  = (Throw x, sent env (read_request api owner repo path branch))
  /\ writes (snd (GitHubAPI.createOrUpdateFile remote api owner repo path content
                    message branch env))
     = writes env.
Proof.
  intros G.
  pose proof (createOrUpdateFile_cases api owner repo path content message branch env) as C.
  cbv zeta in C. rewrite G in C. rewrite C. split; [reflexivity|].
  unfold writes, sent. cbn [snd requests]. rewrite filter_app. cbn. apply app_nil_r.
Qed.

(** X19.  A success is reported only when the remote has accepted the
    write: the read gave a revision or none, a read and a write carrying
    exactly that revision (none when the path has none) were sent, the write
    was answered with a status in 200-299, and the reference returned is
    taken from that answer. *)
Theorem createOrUpdateFile_success_means_accepted (api : GitHubAPI.Api)
    (owner repo path content message branch : string) (env : Env)
    (result : GitHubAPI.PushResult) :
  fst (GitHubAPI.createOrUpdateFile remote api owner repo path content message branch env)
  = Ok result ->
  exists sha resp d c,
    fst (GitHubAPI.getFileSha remote api owner repo path branch env) = Ok sha
    /\ snd (GitHubAPI.createOrUpdateFile remote api owner repo path content message
              branch env)
       = sent (sent env (read_request api owner repo path branch))
           (write_request api owner repo path content message branch
              (claimed_revision sha))
    /\ remote ((requests env ++ [read_request api owner repo path branch])%list)
         (write_request api owner repo path content message branch (claimed_revision sha))
       = Net.Responded resp
    /\ Net.ok resp = true
    /\ Net.json resp = Some d
    /\ Net.data_content d = Some c
    /\ result = {| GitHubAPI.success := true;
                   GitHubAPI.commit := Net.data_commit d;
                   GitHubAPI.content := c;
                   GitHubAPI.html_url := Net.html_url c |}.
Proof.
  intros S.
  pose proof (createOrUpdateFile_cases api owner repo path content message branch env) as C.
  cbv zeta in C.
  destruct (fst (GitHubAPI.getFileSha remote api owner repo path branch env)) as [sha|x].
  - destruct C as [C1 C2]. rewrite S in C2.
    destruct (remote _ _) as [x|resp] eqn:R; [discriminate C2|].
    destruct (Net.ok resp) eqn:K; [|discriminate C2].
    destruct (Net.json resp) as [d|] eqn:J; [|discriminate C2].
    destruct (Net.data_content d) as [c|] eqn:D; [|discriminate C2].
    injection C2 as ->. exists sha, resp, d, c. now repeat split.
  - rewrite C in S. discriminate S.
Qed.

(** X20.  A write that the remote answers with a status outside 200-299 is
    raised as an error that carries the status and the remote's message
    (the status text when there is no message); both requests have been
    sent. *)
Theorem createOrUpdateFile_rejected_write_is_raised (api : GitHubAPI.Api)
    (owner repo path content message branch : string) (env : Env)
    (sha : option string) (resp : Net.Response) :
  fst (GitHubAPI.getFileSha remote api owner repo path branch env) = Ok sha ->
  remote ((requests env ++ [read_request api owner repo path branch])%list)
    (write_request api owner repo path content message branch (claimed_revision sha))
  = Net.Responded resp ->
  Net.ok resp = false ->
  GitHubAPI.createOrUpdateFile remote api owner repo path content message branch env
  = (Throw (Error ("GitHub API error: " ++ Z_to_string (Net.status resp)
                   ++ " - " ++ error_detail resp)),
     sent (sent env (read_request api owner repo path branch))
       (write_request api owner repo path content message branch (claimed_revision sha))).
Proof.
  intros G R K.
  pose proof (createOrUpdateFile_cases api owner repo path content message branch env) as C.
  cbv zeta in C. rewrite G in C. destruct C as [C1 C2]. rewrite R, K in C2.
  destruct (GitHubAPI.createOrUpdateFile remote api owner repo path content message
              branch env) as [o e].
  cbn [fst snd] in *. now subst.
Qed.

End Remote_.

Section RemoteInstances.
Import JS Async Observe Shape.

Lemma getFileSha_unsuccessful_answer_witness :
  GitHubAPI.getFileSha (FileStore.remote Samples.service) Samples.api
    "alice" "solutions" "hackerrank/misc/new.py" "main" Samples.env
  = (Ok None,
     sent Samples.env
       (read_request Samples.api "alice" "solutions" "hackerrank/misc/new.py" "main")).
Proof.
  apply (getFileSha_unsuccessful_answer (FileStore.remote Samples.service) Samples.api
           "alice" "solutions" "hackerrank/misc/new.py" "main" Samples.env
           {| Net.status := 404; Net.statusText := "Not Found";
              Net.json := Some (FileStore.error_payload "Not Found") |});
    reflexivity.
Defined.

Lemma createOrUpdateFile_failed_read_sends_no_write_witness :
  writes (snd (GitHubAPI.createOrUpdateFile (FileStore.remote Samples.service)
                 {| GitHubAPI.token := "ghp_revoked" |}
                 "alice" "solutions" "hackerrank/algorithms/two-sum.py"
                 "new text" "message" "main" Samples.env))
  = writes Samples.env.
Proof.
  apply (createOrUpdateFile_failed_read_sends_no_write (FileStore.remote Samples.service)
           {| GitHubAPI.token := "ghp_revoked" |}
           "alice" "solutions" "hackerrank/algorithms/two-sum.py"
           "new text" "message" "main" Samples.env
           (Error "GitHub API error: 401")).
  reflexivity.
Defined.

Lemma createOrUpdateFile_success_means_accepted_witness :
  exists sha resp d c,
    fst (GitHubAPI.getFileSha (FileStore.remote Samples.service) Samples.api
           "alice" "solutions" "hackerrank/algorithms/two-sum.py" "main" Samples.env)
    = Ok sha
    /\ snd (GitHubAPI.createOrUpdateFile (FileStore.remote Samples.service) Samples.api
              "alice" "solutions" "hackerrank/algorithms/two-sum.py"
              "new text" "message" "main" Samples.env)
       = sent (sent Samples.env
                 (read_request Samples.api "alice" "solutions"
                    "hackerrank/algorithms/two-sum.py" "main"))
           (write_request Samples.api "alice" "solutions"
              "hackerrank/algorithms/two-sum.py" "new text" "message" "main"
              (claimed_revision sha))
    /\ FileStore.remote Samples.service
         ((requests Samples.env
           ++ [read_request Samples.api "alice" "solutions"
                 "hackerrank/algorithms/two-sum.py" "main"])%list)
         (write_request Samples.api "alice" "solutions"
            "hackerrank/algorithms/two-sum.py" "new text" "message" "main"
            (claimed_revision sha))
       = Net.Responded resp
    /\ Net.ok resp = true
    /\ Net.json resp = Some d
    /\ Net.data_content d = Some c
    /\ {| GitHubAPI.success := true;
          GitHubAPI.commit := Some "rev1";
          GitHubAPI.content :=
            {| Net.html_url :=
                 Some "https://github.com/alice/solutions/blob/main/hackerrank/algorithms/two-sum.py" |};
          GitHubAPI.html_url :=
            Some "https://github.com/alice/solutions/blob/main/hackerrank/algorithms/two-sum.py" |}
       = {| GitHubAPI.success := true;
            GitHubAPI.commit := Net.data_commit d;
            GitHubAPI.content := c;
            GitHubAPI.html_url := Net.html_url c |}.
Proof.
  apply (createOrUpdateFile_success_means_accepted (FileStore.remote Samples.service)).
  reflexivity.
Defined.

Lemma createOrUpdateFile_rejected_write_is_raised_witness :
  fst (GitHubAPI.createOrUpdateFile Scenes.overtaken Samples.api
         "alice" "solutions" "hackerrank/misc/new.py" "text" "message" "main" Samples.env)
  = Throw (Error "GitHub API error: 409 - revision does not match").
Proof.
  rewrite (createOrUpdateFile_rejected_write_is_raised Scenes.overtaken Samples.api
             "alice" "solutions" "hackerrank/misc/new.py" "text" "message" "main"
             Samples.env None
             {| Net.status := 409; Net.statusText := "Conflict";
                Net.json := Some (FileStore.error_payload "revision does not match") |});
    reflexivity.
Defined.

End RemoteInstances.

(** ** The whole synchronisation, against any remote *)

Section Push.
Import JS Async Observe Shape.
Local Open Scope async_scope.

Variable remote : Net.Remote.
Variable Date : string -> option Z.

Lemma filePath_of_defined (file_structure : option string) (data : Background.Submission) :
  exists path, Background.filePath_of file_structure data = Ok path.
Proof. unfold Background.filePath_of, GitHubAPI.generateFilePath. cbn. eexists. reflexivity. Qed.

Lemma handlePushToGitHub_cases (data : Background.Submission) (env : Env) :
  let st := storage env in
  let e1 := sent env (Net.GetUser (stored_token st)) in
  Background.handlePushToGitHub remote Date data env
  = if negb (configured st) then (Throw Background.not_configured, env)
    else if negb (credential_accepted remote env) then (Throw Background.invalid_token, e1)
    else
      match repository_parts st with
      | None => (Throw Background.invalid_repository, e1)
      | Some (owner, repo) =>
          match Background.filePath_of (Store.file_structure st) data with
          | Throw x => (Throw x, e1)
          | Ok filePath =>
              match GitHubAPI.createOrUpdateFile remote
                      {| GitHubAPI.token := stored_token st |} owner repo filePath
                      (formatted_code data) (commit_message data) (target_branch st) e1 with
              | (Throw x, e2) => (Throw x, e2)
              | (Ok result, e2) =>
                  let e3 :=
                    snd (StorageManager.addSubmissionRecord Date
                           (history_record data (GitHubAPI.html_url result) filePath) e2) in
                  if notifications e3 then (Ok result, e3)
                  else (Throw Background.missing_notifications, e3)
              end
          end
      end.
Proof.
  intros st e1.
  unfold Background.handlePushToGitHub. rewrite try_catch_rethrow.
  unfold bind at 1.
  unfold StorageManager.getConfig, bind at 1, get_storage, ret.
  cbn [StorageManager.github_token StorageManager.github_repo StorageManager.branch
       StorageManager.file_structure].
  fold st. unfold configured.
  destruct (GitHubAPI.truthy_opt (Store.github_token st)) eqn:T; [|reflexivity].
  destruct (GitHubAPI.truthy_opt (Store.github_repo st)) eqn:R; [|reflexivity].
  cbn [negb orb andb].
  unfold bind at 1. rewrite validateToken_result. cbn [GitHubAPI.token].
  fold (stored_token st). fold e1.
  unfold credential_accepted. fold st. fold (stored_token st).
  destruct (match remote (requests env) (Net.GetUser (stored_token st)) with
            | Net.Responded r => Net.ok r
            | Net.Rejected _ => false
            end); [|reflexivity].
  cbn [negb].
  unfold repository_parts.
  destruct (nth_error (split "/" (toString_opt (Store.github_repo st))) 0) as [owner|];
    [|reflexivity].
  destruct (nth_error (split "/" (toString_opt (Store.github_repo st))) 1) as [repo|];
    [|cbn [GitHubAPI.truthy_opt]; now rewrite orb_true_r].
  cbn [GitHubAPI.truthy_opt toString_opt].
  destruct (truthy owner); [|reflexivity].
  destruct (truthy repo); [|reflexivity].
  cbn [negb orb andb].
  unfold bind at 1, lift.
  destruct (Background.filePath_of (Store.file_structure st) data) as [filePath|x];
    [|reflexivity].
  unfold bind at 1.
  fold (formatted_code data). fold (commit_message data). fold (target_branch st).
  destruct (GitHubAPI.createOrUpdateFile remote _ owner repo filePath _ _ _ e1)
    as [[result|x] e2]; [|reflexivity].
  fold (history_record data (GitHubAPI.html_url result) filePath).
  unfold bind, ret, Background.show_notification.
  destruct (addSubmissionRecord_ledger Date
              (history_record data (GitHubAPI.html_url result) filePath) e2) as (A & _).
  destruct (StorageManager.addSubmissionRecord Date _ e2) as [r e3].
  cbn [fst snd] in *. subst r. now destruct (notifications e3).
Qed.

Lemma createOrUpdateFile_trace (api : GitHubAPI.Api)
    (owner repo path content message branch : string) (env : Env) :
  let out := GitHubAPI.createOrUpdateFile remote api owner repo path content message
               branch env in
  storage (snd out) = storage env
  /\ (requests (snd out)
      = (requests env ++ [read_request api owner repo path branch])%list
      \/ exists sha,
           requests (snd out)
           = (requests env
              ++ [ read_request api owner repo path branch;
                   write_request api owner repo path content message branch sha ])%list).
Proof.
  intros out.
  pose proof (createOrUpdateFile_cases remote api owner repo path content message branch env)
    as C. cbv zeta in C. fold out in C.
  destruct (fst (GitHubAPI.getFileSha remote api owner repo path branch env)) as [sha|x].
  - destruct C as [C _]. rewrite C. split; [reflexivity|].
    right. exists (claimed_revision sha). unfold sent. cbn [requests].
    now rewrite <- app_assoc.
  - rewrite C. split; [reflexivity | now left].
Qed.

Lemma createOrUpdateFile_ok_trace (api : GitHubAPI.Api)
    (owner repo path content message branch : string) (env : Env)
    (result : GitHubAPI.PushResult) :
  fst (GitHubAPI.createOrUpdateFile remote api owner repo path content message branch env)
  = Ok result ->
  exists sha,
    snd (GitHubAPI.createOrUpdateFile remote api owner repo path content message
           branch env)
    = sent (sent env (read_request api owner repo path branch))
        (write_request api owner repo path content message branch (claimed_revision sha)).
Proof.
  intros S.
  pose proof (createOrUpdateFile_cases remote api owner repo path content message branch env)
    as C. cbv zeta in C.
  destruct (fst (GitHubAPI.getFileSha remote api owner repo path branch env)) as [sha|x].
  - destruct C as [C _]. now exists sha.
  - rewrite C in S. discriminate S.
Qed.

Lemma createOrUpdateFile_notifications (api : GitHubAPI.Api)
    (owner repo path content message branch : string) (env : Env) :
  notifications (snd (GitHubAPI.createOrUpdateFile remote api owner repo path content
                        message branch env))
  = notifications env.
Proof.
  pose proof (createOrUpdateFile_cases remote api owner repo path content message branch env)
    as C. cbv zeta in C.
  destruct (fst (GitHubAPI.getFileSha remote api owner repo path branch env)) as [sha|x].
  - destruct C as [C _]. now rewrite C.
  - now rewrite C.
Qed.

Lemma addSubmissionRecord_notifications (record : Store.HistoryRecord) (env : Env) :
  notifications (snd (StorageManager.addSubmissionRecord Date record env))
  = notifications env.
Proof.
  unfold StorageManager.addSubmissionRecord, bind, get_storage.
  destruct (negb _); reflexivity.
Qed.

(** X21.  A synchronisation that fails leaves the stored settings and the
    stored history as they were, with one exception: when
    [chrome.notifications] is missing, the failure comes from the
    notification, after the write has been sent and the record of the
    submission has been appended to the history (unless a duplicate was
    stored); the settings are unchanged then too. *)
Theorem handlePushToGitHub_failure_keeps_storage
    (data : Background.Submission) (env : Env) (x : exn) :
  fst (Background.handlePushToGitHub remote Date data env) = Throw x ->
  let out := snd (Background.handlePushToGitHub remote Date data env) in
  storage out = storage env
  \/ (notifications env = false
      /\ x = Background.missing_notifications
      /\ fst (StorageManager.getConfig out) = fst (StorageManager.getConfig env)
      /\ List.length (writes out) = S (List.length (writes env))
      /\ exists result path,
           Background.filePath_of (Store.file_structure (storage env)) data = Ok path
           /\ ledger out
              = (if existsb (StorageManager.duplicate_of Date
                               (history_record data (GitHubAPI.html_url result) path))
                      (ledger env)
                 then ledger env
                 else (ledger env
                       ++ [history_record data (GitHubAPI.html_url result) path])%list)).
Proof.
  rewrite handlePushToGitHub_cases. cbv zeta.
  destruct (negb (configured (storage env))); [now left|].
  destruct (negb (credential_accepted remote env)); [now left|].
  destruct (repository_parts (storage env)) as [[owner repo]|]; [|now left].
  destruct (Background.filePath_of _ data) as [filePath|y]; [|now left].
  set (api := {| GitHubAPI.token := stored_token (storage env) |}).
  set (e1 := sent env (Net.GetUser (stored_token (storage env)))).
  pose proof (createOrUpdateFile_trace api owner repo filePath
                (formatted_code data) (commit_message data)
                (target_branch (storage env)) e1) as [S _].
  pose proof (createOrUpdateFile_ok_trace api owner repo filePath
                (formatted_code data) (commit_message data)
                (target_branch (storage env)) e1) as A.
  pose proof (createOrUpdateFile_notifications api owner repo filePath
                (formatted_code data) (commit_message data)
                (target_branch (storage env)) e1) as N.
  destruct (GitHubAPI.createOrUpdateFile remote api owner repo filePath _ _ _ e1)
    as [[result|y] e2]; cbn [fst snd] in *; [|intros _; left; exact S].
  destruct (A result eq_refl) as (sha & E2).
  set (record := history_record data (GitHubAPI.html_url result) filePath).
  pose proof (addSubmissionRecord_notifications record e2) as N3.
  destruct (addSubmissionRecord_ledger Date record e2) as (_ & R & L).
  pose proof (addSubmissionRecord_settings Date record e2) as G.
  destruct (notifications (snd (StorageManager.addSubmissionRecord Date record e2))) eqn:K;
    [discriminate|].
  cbn [fst snd]. intros [= <-]. right.
  split; [transitivity (notifications e2); [now rewrite N | now symmetry]|].
  split; [reflexivity|].
  split; [rewrite G, E2; reflexivity|].
  split.
  - unfold writes. rewrite R, E2. unfold e1, sent. cbn [requests].
    rewrite !filter_app, !length_app. cbn. lia.
  - exists result, filePath. split; [reflexivity|].
    rewrite L. replace (ledger e2) with (ledger env); [reflexivity|].
    rewrite E2. reflexivity.
Qed.

(** X22.  A synchronisation that succeeds has sent exactly three requests,
    in this order: the identity lookup, the read of the target path and one
    write to it, on the stored repository and branch ("main" when none is
    stored), with the formatted code and the commit message; and the
    history has gained the record of the submission at its end unless a
    duplicate of it was stored already. *)
Theorem handlePushToGitHub_success
    (data : Background.Submission) (env : Env) (result : GitHubAPI.PushResult) :
  fst (Background.handlePushToGitHub remote Date data env) = Ok result ->
  let st := storage env in
  let api := {| GitHubAPI.token := stored_token st |} in
  let out := snd (Background.handlePushToGitHub remote Date data env) in
  exists owner repo path sha,
    repository_parts st = Some (owner, repo)
    /\ Background.filePath_of (Store.file_structure st) data = Ok path
    /\ requests out
       = (requests env
          ++ [ Net.GetUser (stored_token st);
               read_request api owner repo path (target_branch st);
               write_request api owner repo path (formatted_code data)
                 (commit_message data) (target_branch st) sha ])%list
    /\ ledger out
       = (if existsb (StorageManager.duplicate_of Date
                        (history_record data (GitHubAPI.html_url result) path))
               (ledger env)
          then ledger env
          else (ledger env ++ [history_record data (GitHubAPI.html_url result) path])%list).
Proof.
  rewrite handlePushToGitHub_cases. cbv zeta.
  destruct (negb (configured (storage env))); [discriminate|].
  destruct (negb (credential_accepted remote env)); [discriminate|].
  destruct (repository_parts (storage env)) as [[owner repo]|]; [|discriminate].
  destruct (Background.filePath_of _ data) as [filePath|y]; [|discriminate].
  set (api := {| GitHubAPI.token := stored_token (storage env) |}).
  set (e1 := sent env (Net.GetUser (stored_token (storage env)))).
  pose proof (createOrUpdateFile_ok_trace api owner repo filePath
                (formatted_code data) (commit_message data)
                (target_branch (storage env)) e1) as A.
  destruct (GitHubAPI.createOrUpdateFile remote api owner repo filePath _ _ _ e1)
    as [[res|y] e2]; [|discriminate].
  destruct (notifications _); [|discriminate].
  cbn [fst snd] in *. intros [= ->].
  destruct (A result eq_refl) as (sha & E2).
  exists owner, repo, filePath, (claimed_revision sha).
  split; [reflexivity|]. split; [reflexivity|].
  destruct (addSubmissionRecord_ledger Date
              (history_record data (GitHubAPI.html_url result) filePath) e2)
    as (_ & R & L).
  split.
  - rewrite R, E2. unfold e1, sent. cbn [requests]. now rewrite <- !app_assoc.
  - rewrite L. replace (ledger e2) with (ledger env); [reflexivity|].
    rewrite E2. reflexivity.
Qed.

(** X23.  With token and repository stored and the token accepted, a
    repository identifier that does not start with two non-empty parts
    separated by a slash makes the synchronisation fail with the format
    error right after the identity lookup; nothing is read or written. *)
Theorem handlePushToGitHub_invalid_repository
    (data : Background.Submission) (env : Env) :
  configured (storage env) = true ->
  credential_accepted remote env = true ->
  repository_parts (storage env) = None ->
  Background.handlePushToGitHub remote Date data env
  = (Throw Background.invalid_repository,
     sent env (Net.GetUser (stored_token (storage env)))).
Proof.
  intros C A R. rewrite handlePushToGitHub_cases. cbv zeta. now rewrite C, A, R.
Qed.

(** X24.  Whatever happens, a synchronisation sends at most three requests
    and at most one write among them, and every request it sends carries the
    stored token. *)
Theorem handlePushToGitHub_requests (data : Background.Submission) (env : Env) :
  exists sent_now,
    requests (snd (Background.handlePushToGitHub remote Date data env))
    = (requests env ++ sent_now)%list
    /\ (List.length sent_now <= 3)%nat
    /\ (List.length (filter Net.is_write sent_now) <= 1)%nat
    /\ forallb (fun rq => String.eqb (request_token rq) (stored_token (storage env)))
         sent_now = true.
Proof.
  rewrite handlePushToGitHub_cases. cbv zeta.
  assert (Nil : exists sent_now,
             requests env = (requests env ++ sent_now)%list
             /\ (List.length sent_now <= 3)%nat
             /\ (List.length (filter Net.is_write sent_now) <= 1)%nat
             /\ forallb (fun rq => String.eqb (request_token rq)
                                     (stored_token (storage env))) sent_now = true).
  { exists []. rewrite app_nil_r. cbn. repeat split; lia. }
  assert (One : exists sent_now,
             requests (sent env (Net.GetUser (stored_token (storage env))))
             = (requests env ++ sent_now)%list
             /\ (List.length sent_now <= 3)%nat
             /\ (List.length (filter Net.is_write sent_now) <= 1)%nat
             /\ forallb (fun rq => String.eqb (request_token rq)
                                     (stored_token (storage env))) sent_now = true).
  { exists [Net.GetUser (stored_token (storage env))]. cbn.
    rewrite String.eqb_refl. repeat split; lia. }
  destruct (negb (configured (storage env))); [exact Nil|].
  destruct (negb (credential_accepted remote env)); [exact One|].
  destruct (repository_parts (storage env)) as [[owner repo]|]; [|exact One].
  destruct (Background.filePath_of _ data) as [filePath|y]; [|exact One].
  set (api := {| GitHubAPI.token := stored_token (storage env) |}).
  set (e1 := sent env (Net.GetUser (stored_token (storage env)))).
  pose proof (createOrUpdateFile_trace api owner repo filePath
                (formatted_code data) (commit_message data)
                (target_branch (storage env)) e1) as [_ T].
  assert (Req : forall res e2,
             GitHubAPI.createOrUpdateFile remote api owner repo filePath
               (formatted_code data) (commit_message data)
               (target_branch (storage env)) e1 = (res, e2) ->
             exists sent_now,
               requests e2 = (requests env ++ sent_now)%list
               /\ (List.length sent_now <= 3)%nat
               /\ (List.length (filter Net.is_write sent_now) <= 1)%nat
               /\ forallb (fun rq => String.eqb (request_token rq)
                                       (stored_token (storage env))) sent_now = true).
  { intros res e2 E. rewrite E in T. cbn [snd] in T.
    destruct T as [T|[sha T]]; rewrite T; unfold e1, sent; cbn [requests];
      rewrite <- app_assoc; eexists; (split; [reflexivity|]); cbn;
      rewrite ?String.eqb_refl; repeat split; lia. }
  destruct (GitHubAPI.createOrUpdateFile remote api owner repo filePath _ _ _ e1)
    as [[res|y] e2] eqn:E.
  - destruct (addSubmissionRecord_ledger Date
                (history_record data (GitHubAPI.html_url res) filePath) e2)
      as (_ & R & _).
    destruct (notifications _); cbn [snd]; rewrite R; exact (Req _ _ eq_refl).
  - exact (Req _ _ eq_refl).
Qed.

End Push.

(** ** The options page and the stored settings *)

Section OptionsPage.
Import JS Async Observe Shape.
Local Open Scope async_scope.

Lemma repo_char_not_slash (c : ascii) : Options.repo_char c = true -> Ascii.eqb c "/" = false.
Proof.
  destruct c as [[|] [|] [|] [|] [|] [|] [|] [|]]; vm_compute; try reflexivity; try discriminate.
Qed.

Lemma all_repo_chars_no_slash (s : string) :
  Options.all_repo_chars s = true -> no_slash s = true.
Proof.
  induction s as [|c r IH]; [reflexivity|].
  cbn [Options.all_repo_chars no_slash all_of]. intros H.
  apply andb_true_iff in H as [Hc Hr].
  rewrite (repo_char_not_slash c Hc). cbn [negb andb]. now apply IH.
Qed.

Lemma after_owner_split (seen : bool) (s rest : string) :
  Options.after_owner seen s = Some rest ->
  exists owner,
    s = owner ++ String "/" rest
    /\ no_slash owner = true
    /\ (seen = false -> truthy owner = true).
Proof.
  revert seen. induction s as [|c r IH]; intros seen; [discriminate|].
  cbn [Options.after_owner]. destruct (Options.repo_char c) eqn:C.
  - intros H. destruct (IH true H) as (owner & E & N & _).
    exists (String c owner). split; [now rewrite E|]. split; [|reflexivity].
    cbn [no_slash all_of]. rewrite (repo_char_not_slash c C). exact N.
  - destruct (Ascii.eqb c "/") eqn:S; [|discriminate].
    destruct seen; [|discriminate]. intros [= ->].
    apply Ascii.eqb_eq in S. subst c.
    exists EmptyString. split; [reflexivity|]. split; [reflexivity | discriminate].
Qed.

Lemma valid_format_splits (repo : string) :
  Options.test_repository_format repo = true ->
  exists owner name,
    repo = owner ++ String "/" name
    /\ split "/" repo = [owner; name]
    /\ truthy owner = true /\ truthy name = true.
Proof.
  unfold Options.test_repository_format.
  destruct (Options.after_owner false repo) as [rest|] eqn:A; [|discriminate].
  intros H. apply andb_true_iff in H as [T R].
  destruct (after_owner_split false repo rest A) as (owner & E & N & O).
  exists owner, rest. split; [exact E|]. split.
  - rewrite E, (split_cons_segment owner rest N).
    now rewrite (split_segment rest (all_repo_chars_no_slash rest R)).
  - split; [now apply O | exact T].
Qed.

(** X25.  A repository field that is not empty and does not have the form
    owner/name (letters, digits, underscore, hyphen and dot on both sides of
    one slash) is refused by the options page: an error is shown and nothing
    is stored. *)
Theorem options_saveConfig_refuses_malformed_repository
    (token_field repo_field branch_field structure_field : string) (env : Env) :
  truthy (trim repo_field) = true ->
  Options.test_repository_format (trim repo_field) = false ->
  Options.saveConfig token_field repo_field branch_field structure_field env
  = (Ok {| Options.shown_message := "Invalid repository format. Use format: owner/repo";
           Options.shown_type := "error" |},
     env).
Proof. intros T F. unfold Options.saveConfig. now rewrite T, F. Qed.

Lemma options_saveConfig_refuses_malformed_repository_witness :
  Options.saveConfig " ghp_token " "alice/solutions/python" "" "" Samples.env
  = (Ok {| Options.shown_message := "Invalid repository format. Use format: owner/repo";
           Options.shown_type := "error" |},
     Samples.env).
Proof.
  apply options_saveConfig_refuses_malformed_repository; reflexivity.
Defined.

(** X26.  When the repository field is empty or well formed, the options
    page stores the trimmed token and repository, a branch and a path
    template that are never empty ("main" and the default template stand in
    for empty fields), and reports success; the history and the requests
    are not touched. *)
Theorem options_saveConfig_stores_usable_settings
    (token_field repo_field branch_field structure_field : string) (env : Env) :
  truthy (trim repo_field) && negb (Options.test_repository_format (trim repo_field))
  = false ->
  let out := Options.saveConfig token_field repo_field branch_field structure_field env in
  fst out = Ok {| Options.shown_message := "Configuration saved successfully!";
                  Options.shown_type := "success" |}
  /\ fst (StorageManager.getConfig (snd out))
     = Ok {| StorageManager.github_token := Some (trim token_field);
             StorageManager.github_repo := Some (trim repo_field);
             StorageManager.branch := Some (Options.or_else (trim branch_field) "main");
             StorageManager.file_structure :=
               Some (Options.or_else (trim structure_field)
                       "hackerrank/{category}/{filename}") |}
  /\ truthy (Options.or_else (trim branch_field) "main") = true
  /\ truthy (Options.or_else (trim structure_field) "hackerrank/{category}/{filename}")
     = true
  /\ ledger (snd out) = ledger env
  /\ requests (snd out) = requests env.
Proof.
  intros H out. subst out. unfold Options.saveConfig. rewrite H.
  repeat split; try reflexivity.
  - unfold Options.or_else. now destruct (trim branch_field).
  - unfold Options.or_else. now destruct (trim structure_field).
Qed.

Lemma options_saveConfig_stores_usable_settings_witness :
  fst (StorageManager.getConfig
         (snd (Options.saveConfig " ghp_token " " alice/solutions " " " "" Samples.env)))
  = Ok {| StorageManager.github_token := Some "ghp_token";
          StorageManager.github_repo := Some "alice/solutions";
          StorageManager.branch := Some "main";
          StorageManager.file_structure := Some "hackerrank/{category}/{filename}" |}.
Proof.
  destruct (options_saveConfig_stores_usable_settings
              " ghp_token " " alice/solutions " " " "" Samples.env)
    as (_ & G & _); [reflexivity | exact G].
Defined.

Variable remote : Net.Remote.
Variable Date : string -> option Z.

(** X27.  After the options page has stored a non-empty token and a well
    formed repository, a synchronisation is never refused for missing
    settings or for the format of the repository: once the remote accepts
    the token, it goes on to read the target path in the repository whose
    owner and name are the two sides of the slash. *)
Theorem saved_settings_reach_the_read
    (token_field repo_field branch_field structure_field : string)
    (data : Background.Submission) (env : Env) :
  truthy (trim token_field) = true ->
  Options.test_repository_format (trim repo_field) = true ->
  let saved := snd (Options.saveConfig token_field repo_field branch_field
                      structure_field env) in
  credential_accepted remote saved = true ->
  exists owner name path rest,
    trim repo_field = owner ++ String "/" name
    /\ Background.filePath_of
         (Some (Options.or_else (trim structure_field) "hackerrank/{category}/{filename}"))
         data = Ok path
    /\ requests (snd (Background.handlePushToGitHub remote Date data saved))
       = (requests env
          ++ Net.GetUser (trim token_field)
             :: Net.GetContents (trim token_field) owner name path
                  (Options.or_else (trim branch_field) "main")
             :: rest)%list.
Proof.
  intros T F saved A.
  destruct (valid_format_splits (trim repo_field) F) as (owner & name & E & S & To & Tn).
  assert (St : storage saved
               = {| Store.github_token := Some (trim token_field);
                    Store.github_repo := Some (trim repo_field);
                    Store.branch := Some (Options.or_else (trim branch_field) "main");
                    Store.file_structure :=
                      Some (Options.or_else (trim structure_field)
                              "hackerrank/{category}/{filename}");
                    Store.submissions := Store.submissions (storage env) |}
               /\ requests saved = requests env).
  { subst saved. unfold Options.saveConfig. rewrite F, andb_false_r. split; reflexivity. }
  destruct St as [St Rq].
  assert (Tb : truthy (Options.or_else (trim branch_field) "main") = true)
    by (unfold Options.or_else; now destruct (trim branch_field)).
  assert (Ts : truthy (Options.or_else (trim structure_field)
                         "hackerrank/{category}/{filename}") = true)
    by (unfold Options.or_else; now destruct (trim structure_field)).
  rewrite handlePushToGitHub_cases. cbv zeta. rewrite A.
  unfold configured, repository_parts, stored_token, target_branch, Background.or_default.
  rewrite St.
  cbn [Store.github_token Store.github_repo Store.branch Store.file_structure
       GitHubAPI.truthy_opt toString_opt].
  assert (Trp : truthy (trim repo_field) = true)
    by (rewrite E; destruct owner; [discriminate To | reflexivity]).
  rewrite T, Trp, S, Tb. cbn [nth_error]. rewrite To, Tn. cbn [andb negb].
  destruct (filePath_of_defined
              (Some (Options.or_else (trim structure_field)
                       "hackerrank/{category}/{filename}")) data) as [path P].
  rewrite P. exists owner, name, path.
  pose proof (createOrUpdateFile_trace remote {| GitHubAPI.token := trim token_field |}
                owner name path (formatted_code data) (commit_message data)
                (Options.or_else (trim branch_field) "main")
                (sent saved (Net.GetUser (trim token_field)))) as [_ Tr].
  cbv zeta in Tr.
  assert (Req : exists rest,
             requests (snd (GitHubAPI.createOrUpdateFile remote
                              {| GitHubAPI.token := trim token_field |}
                              owner name path (formatted_code data) (commit_message data)
                              (Options.or_else (trim branch_field) "main")
                              (sent saved (Net.GetUser (trim token_field)))))
             = (requests env
                ++ Net.GetUser (trim token_field)
                   :: Net.GetContents (trim token_field) owner name path
                        (Options.or_else (trim branch_field) "main")
                   :: rest)%list).
  { destruct Tr as [Tr|[sha Tr]]; rewrite Tr; unfold sent; cbn [requests];
      rewrite Rq, <- app_assoc; eexists; reflexivity. }
  destruct Req as [rest Req]. exists rest.
  split; [exact E|]. split; [reflexivity|].
  destruct (GitHubAPI.createOrUpdateFile remote _ owner name path _ _ _ _)
    as [[res|y] e2]; cbn [snd] in *; [|exact Req].
  destruct (addSubmissionRecord_ledger Date
              (history_record data (GitHubAPI.html_url res) path) e2) as (_ & R & _).
  destruct (notifications _); cbn [snd]; now rewrite R.
Qed.

(** X28.  After [clearAll] nothing is stored: the history is empty and a
    synchronisation is refused for missing settings without any request. *)
Theorem clearAll_disconnects (data : Background.Submission) (env : Env) :
  let cleared := snd (Settings.clearAll env) in
  fst (StorageManager.getSubmissions cleared) = Ok []
  /\ requests cleared = requests env
  /\ Background.handlePushToGitHub remote Date data cleared
     = (Throw Background.not_configured, cleared).
Proof.
  intros cleared. split; [reflexivity|]. split; [reflexivity|].
  rewrite handlePushToGitHub_cases. reflexivity.
Qed.

End OptionsPage.

Section PushInstances.
Import JS Async Observe Shape.

Lemma handlePushToGitHub_failure_keeps_storage_witness :
  let out := snd (Background.handlePushToGitHub (FileStore.remote Samples.service)
                    IsoDate.time_value Samples.submission Scenes.without_notifications) in
  storage out = storage Scenes.without_notifications
  \/ (notifications Scenes.without_notifications = false
      /\ Background.missing_notifications = Background.missing_notifications
      /\ fst (StorageManager.getConfig out)
         = fst (StorageManager.getConfig Scenes.without_notifications)
      /\ List.length (writes out) = S (List.length (writes Scenes.without_notifications))
      /\ exists result path,
           Background.filePath_of
             (Store.file_structure (storage Scenes.without_notifications))
             Samples.submission = Ok path
           /\ ledger out
              = (if existsb (StorageManager.duplicate_of IsoDate.time_value
                               (history_record Samples.submission
                                  (GitHubAPI.html_url result) path))
                      (ledger Scenes.without_notifications)
                 then ledger Scenes.without_notifications
                 else (ledger Scenes.without_notifications
                       ++ [history_record Samples.submission
                             (GitHubAPI.html_url result) path])%list)).
Proof.
  apply (handlePushToGitHub_failure_keeps_storage (FileStore.remote Samples.service)
           IsoDate.time_value Samples.submission Scenes.without_notifications
           Background.missing_notifications).
  reflexivity.
Defined.

(** Without [chrome.notifications] the synchronisation of the sample
    submission fails, although the file has been written and the record of
    the submission stored. *)
Lemma handlePushToGitHub_fails_after_recording :
  fst (Background.handlePushToGitHub (FileStore.remote Samples.service)
         IsoDate.time_value Samples.submission Scenes.without_notifications)
  = Throw Background.missing_notifications
  /\ map request_path
       (writes (snd (Background.handlePushToGitHub (FileStore.remote Samples.service)
                       IsoDate.time_value Samples.submission
                       Scenes.without_notifications)))
     = [Some "hackerrank/algorithms/simple-array-sum-py"]
  /\ map Store.filePath
       (ledger (snd (Background.handlePushToGitHub (FileStore.remote Samples.service)
                       IsoDate.time_value Samples.submission
                       Scenes.without_notifications)))
     = ["hackerrank/algorithms/simple-array-sum-py"].
Proof. repeat split; vm_compute; reflexivity. Qed.

Lemma handlePushToGitHub_success_witness :
  ledger (snd (Background.handlePushToGitHub (FileStore.remote Samples.service)
                 IsoDate.time_value Samples.submission Samples.env))
  = [ history_record Samples.submission (Some Scenes.pushed_url)
        "hackerrank/algorithms/simple-array-sum-py" ].
Proof.
  destruct (handlePushToGitHub_success (FileStore.remote Samples.service)
              IsoDate.time_value Samples.submission Samples.env Scenes.pushed_result
              eq_refl)
    as (owner & repo & path & sha & _ & F & _ & L).
  vm_compute in F. injection F as <-.
  rewrite L. reflexivity.
Defined.

Lemma handlePushToGitHub_invalid_repository_witness :
  Background.handlePushToGitHub (FileStore.remote Samples.service) IsoDate.time_value
    Samples.submission Scenes.bare_repository
  = (Throw Background.invalid_repository,
     sent Scenes.bare_repository
       (Net.GetUser (stored_token (storage Scenes.bare_repository)))).
Proof.
  apply handlePushToGitHub_invalid_repository; reflexivity.
Defined.

Lemma saved_settings_reach_the_read_witness :
  exists owner name path rest,
    trim "alice/solutions" = owner ++ String "/" name
    /\ Background.filePath_of
         (Some (Options.or_else (trim "") "hackerrank/{category}/{filename}"))
         Samples.submission = Ok path
    /\ requests
         (snd (Background.handlePushToGitHub (FileStore.remote Samples.service)
                 IsoDate.time_value Samples.submission
                 (snd (Options.saveConfig " ghp_token " "alice/solutions" "" ""
                         Samples.unconfigured))))
       = (requests Samples.unconfigured
          ++ Net.GetUser (trim " ghp_token ")
             :: Net.GetContents (trim " ghp_token ") owner name path
                  (Options.or_else (trim "") "main")
             :: rest)%list.
Proof.
  apply (saved_settings_reach_the_read (FileStore.remote Samples.service)
           IsoDate.time_value " ghp_token " "alice/solutions" "" ""
           Samples.submission Samples.unconfigured);
    reflexivity.
Defined.

End PushInstances.
